(** * Fracture keyboard firmware: inter-board protocol

    A shallow embedding of the RS-485 protocol core of
    [Firmware/Fracture_Keyboard.ino]: the framed packet transport
    ([rs485SendPacket], [processRs485]), the node registry
    ([registerNode]), chain discovery ([startDiscovery]) and the root's
    ping cycle (in [loop]); and of the panel side: the key table and the
    key scan ([initKeyDefs], [scanKeys]), the local note handlers, the
    extra keys, the encoder and the buzzer voices.

    Machine integers are [Z] with the wrap-around of the C types written out
    ([u8], [u32]); the firmware's globals are gathered in the record
    [Board]; everything the firmware writes to the outside world (bytes on
    the bus, the right-neighbour pin, the remote-note callbacks) is appended
    to the [out] field in program order.  What the firmware reads from the
    outside world (bus bytes, the left-neighbour pin, [millis()]) is passed
    in as arguments. *)

From stdpp Require Import base numbers list.

Local Open Scope Z_scope.

(** ** Constants *)

Definition GLOBAL_BASE_NOTE : Z := 48.
Definition BOARD_NOTE_SPAN : Z := 24.
Definition RS485_MAX_NODES : Z := 16.

Definition RS485_ANNOUNCE_MSG : Z := 0x01.
Definition RS485_NOTE_MSG : Z := 0x02.
Definition RS485_PING_MSG : Z := 0x03.
Definition RS485_PING_REPLY_MSG : Z := 0x04.
Definition RS485_REMAP_REQUEST_MSG : Z := 0x05.

Definition DISCOVERY_MAX_MS : Z := 1000.
Definition PING_INTERVAL_MS : Z := 1000.
Definition PING_TIMEOUT_MS : Z := 200.

(** [sizeof(rx.buf)] for [uint8_t buf[32]]. *)
Definition RX_BUF_SIZE : Z := 32.

(** Truncation to [uint8_t] and [uint32_t]. *)
Definition u8 (x : Z) : Z := x mod 256.
Definition u32 (x : Z) : Z := x mod 4294967296.

(** ** Types *)

Record NodeInfo := mkNode { nodeId : Z; boardIndex : Z }.

(** [struct RxState]; the fields carry an [rx_] prefix. *)
Record RxState := mkRx {
  rx_state : Z;
  rx_len : Z;
  rx_type : Z;
  rx_buf : list Z;
  rx_pos : Z;
  rx_checksum : Z
}.

(** Outputs of the firmware, in the order they happen. *)
Inductive Event :=
| BusWrite (b : Z)               (* RS485.write(b) *)
| RightPin (high : bool)         (* digitalWrite(PIN_NEIGHBOR_RIGHT, _) *)
| RemoteNoteOn (note vel : Z)    (* onRemoteNoteOn(note, vel) *)
| RemoteNoteOff (note : Z).      (* onRemoteNoteOff(note) *)

(** The globals of the protocol core.  [nodeList] is the used prefix
    [nodes[0 .. count-1]] of the C array, so [nodeList.count] is its length;
    slots at or beyond [count] are never read before they are written. *)
Record Board := mkBoard {
  myNodeId : Z;
  nodeList : list NodeInfo;
  myBoardIndex : Z;
  totalBoards : Z;
  discoveryDone : bool;
  remapRequested : bool;
  isRemapping : bool;
  networkHealthy : bool;
  boardBaseNote : Z;
  hasLeftNeighbor : bool;
  rx : RxState;
  pingSequence : Z;
  awaitingPingReplies : bool;
  pingStartMs : Z;
  lastPingMs : Z;
  pingReceived : list bool;
  out : list Event
}.

(** *** Field updates *)

Definition set_nodeList (v : list NodeInfo) (s : Board) : Board :=
  mkBoard (myNodeId s) v (myBoardIndex s) (totalBoards s) (discoveryDone s)
    (remapRequested s) (isRemapping s) (networkHealthy s) (boardBaseNote s)
    (hasLeftNeighbor s) (rx s) (pingSequence s) (awaitingPingReplies s)
    (pingStartMs s) (lastPingMs s) (pingReceived s) (out s).

Definition set_myBoardIndex (v : Z) (s : Board) : Board :=
  mkBoard (myNodeId s) (nodeList s) v (totalBoards s) (discoveryDone s)
    (remapRequested s) (isRemapping s) (networkHealthy s) (boardBaseNote s)
    (hasLeftNeighbor s) (rx s) (pingSequence s) (awaitingPingReplies s)
    (pingStartMs s) (lastPingMs s) (pingReceived s) (out s).

Definition set_totalBoards (v : Z) (s : Board) : Board :=
  mkBoard (myNodeId s) (nodeList s) (myBoardIndex s) v (discoveryDone s)
    (remapRequested s) (isRemapping s) (networkHealthy s) (boardBaseNote s)
    (hasLeftNeighbor s) (rx s) (pingSequence s) (awaitingPingReplies s)
    (pingStartMs s) (lastPingMs s) (pingReceived s) (out s).

Definition set_discoveryDone (v : bool) (s : Board) : Board :=
  mkBoard (myNodeId s) (nodeList s) (myBoardIndex s) (totalBoards s) v
    (remapRequested s) (isRemapping s) (networkHealthy s) (boardBaseNote s)
    (hasLeftNeighbor s) (rx s) (pingSequence s) (awaitingPingReplies s)
    (pingStartMs s) (lastPingMs s) (pingReceived s) (out s).

Definition set_remapRequested (v : bool) (s : Board) : Board :=
  mkBoard (myNodeId s) (nodeList s) (myBoardIndex s) (totalBoards s)
    (discoveryDone s) v (isRemapping s) (networkHealthy s) (boardBaseNote s)
    (hasLeftNeighbor s) (rx s) (pingSequence s) (awaitingPingReplies s)
    (pingStartMs s) (lastPingMs s) (pingReceived s) (out s).

Definition set_isRemapping (v : bool) (s : Board) : Board :=
  mkBoard (myNodeId s) (nodeList s) (myBoardIndex s) (totalBoards s)
    (discoveryDone s) (remapRequested s) v (networkHealthy s) (boardBaseNote s)
    (hasLeftNeighbor s) (rx s) (pingSequence s) (awaitingPingReplies s)
    (pingStartMs s) (lastPingMs s) (pingReceived s) (out s).

Definition set_networkHealthy (v : bool) (s : Board) : Board :=
  mkBoard (myNodeId s) (nodeList s) (myBoardIndex s) (totalBoards s)
    (discoveryDone s) (remapRequested s) (isRemapping s) v (boardBaseNote s)
    (hasLeftNeighbor s) (rx s) (pingSequence s) (awaitingPingReplies s)
    (pingStartMs s) (lastPingMs s) (pingReceived s) (out s).

Definition set_boardBaseNote (v : Z) (s : Board) : Board :=
  mkBoard (myNodeId s) (nodeList s) (myBoardIndex s) (totalBoards s)
    (discoveryDone s) (remapRequested s) (isRemapping s) (networkHealthy s) v
    (hasLeftNeighbor s) (rx s) (pingSequence s) (awaitingPingReplies s)
    (pingStartMs s) (lastPingMs s) (pingReceived s) (out s).

Definition set_hasLeftNeighbor (v : bool) (s : Board) : Board :=
  mkBoard (myNodeId s) (nodeList s) (myBoardIndex s) (totalBoards s)
    (discoveryDone s) (remapRequested s) (isRemapping s) (networkHealthy s)
    (boardBaseNote s) v (rx s) (pingSequence s) (awaitingPingReplies s)
    (pingStartMs s) (lastPingMs s) (pingReceived s) (out s).

Definition set_rx (v : RxState) (s : Board) : Board :=
  mkBoard (myNodeId s) (nodeList s) (myBoardIndex s) (totalBoards s)
    (discoveryDone s) (remapRequested s) (isRemapping s) (networkHealthy s)
    (boardBaseNote s) (hasLeftNeighbor s) v (pingSequence s)
    (awaitingPingReplies s) (pingStartMs s) (lastPingMs s) (pingReceived s)
    (out s).

Definition set_pingSequence (v : Z) (s : Board) : Board :=
  mkBoard (myNodeId s) (nodeList s) (myBoardIndex s) (totalBoards s)
    (discoveryDone s) (remapRequested s) (isRemapping s) (networkHealthy s)
    (boardBaseNote s) (hasLeftNeighbor s) (rx s) v (awaitingPingReplies s)
    (pingStartMs s) (lastPingMs s) (pingReceived s) (out s).

Definition set_awaitingPingReplies (v : bool) (s : Board) : Board :=
  mkBoard (myNodeId s) (nodeList s) (myBoardIndex s) (totalBoards s)
    (discoveryDone s) (remapRequested s) (isRemapping s) (networkHealthy s)
    (boardBaseNote s) (hasLeftNeighbor s) (rx s) (pingSequence s) v
    (pingStartMs s) (lastPingMs s) (pingReceived s) (out s).

Definition set_pingStartMs (v : Z) (s : Board) : Board :=
  mkBoard (myNodeId s) (nodeList s) (myBoardIndex s) (totalBoards s)
    (discoveryDone s) (remapRequested s) (isRemapping s) (networkHealthy s)
    (boardBaseNote s) (hasLeftNeighbor s) (rx s) (pingSequence s)
    (awaitingPingReplies s) v (lastPingMs s) (pingReceived s) (out s).

Definition set_lastPingMs (v : Z) (s : Board) : Board :=
  mkBoard (myNodeId s) (nodeList s) (myBoardIndex s) (totalBoards s)
    (discoveryDone s) (remapRequested s) (isRemapping s) (networkHealthy s)
    (boardBaseNote s) (hasLeftNeighbor s) (rx s) (pingSequence s)
    (awaitingPingReplies s) (pingStartMs s) v (pingReceived s) (out s).

Definition set_pingReceived (v : list bool) (s : Board) : Board :=
  mkBoard (myNodeId s) (nodeList s) (myBoardIndex s) (totalBoards s)
    (discoveryDone s) (remapRequested s) (isRemapping s) (networkHealthy s)
    (boardBaseNote s) (hasLeftNeighbor s) (rx s) (pingSequence s)
    (awaitingPingReplies s) (pingStartMs s) (lastPingMs s) v (out s).

(** Append outputs to the log. *)
Definition emit (evs : list Event) (s : Board) : Board :=
  mkBoard (myNodeId s) (nodeList s) (myBoardIndex s) (totalBoards s)
    (discoveryDone s) (remapRequested s) (isRemapping s) (networkHealthy s)
    (boardBaseNote s) (hasLeftNeighbor s) (rx s) (pingSequence s)
    (awaitingPingReplies s) (pingStartMs s) (lastPingMs s) (pingReceived s)
    (out s ++ evs).

(** ** Packet transport: sending *)

(** The bytes [rs485SendPacket(type, payload, len)] writes: START, length,
    type, the first [len] payload bytes and the running XOR.  (The
    direction pin [rs485SetTx] and [RS485.flush] are not modelled.) *)
Definition frameChecksum (type len : Z) (body : list Z) : Z :=
  foldl Z.lxor (Z.lxor type len) body.

Definition frameBytes (type : Z) (payload : list Z) (len : Z) : list Z :=
  let body := take (Z.to_nat len) payload in
  0xAA :: len :: type :: body ++ [frameChecksum type len body].

Definition rs485SendPacket (type : Z) (payload : list Z) (len : Z)
    (s : Board) : Board :=
  emit (BusWrite <$> frameBytes type payload len) s.

(** [payload[i]] of a handler; the handlers index only below a length
    they have checked, inside the 32-byte buffer. *)
Definition byteAt (p : list Z) (i : nat) : Z := default 0 (p !! i).

(** The little-endian 32-bit identity at [payload[0..3]]. *)
Definition readId (p : list Z) : Z :=
  Z.lor (Z.lor (Z.lor (byteAt p 0) (Z.shiftl (byteAt p 1) 8))
               (Z.shiftl (byteAt p 2) 16))
        (Z.shiftl (byteAt p 3) 24).

(** The four bytes [myNodeId & 0xFF, (myNodeId >> 8) & 0xFF, ...]. *)
Definition idBytes (id : Z) : list Z :=
  [ Z.land id 0xFF;
    Z.land (Z.shiftr id 8) 0xFF;
    Z.land (Z.shiftr id 16) 0xFF;
    Z.land (Z.shiftr id 24) 0xFF ].

(** ** Node registry *)

(** The search loop of [registerNode]: overwrite [boardIndex] of the first
    entry whose [nodeId] matches; [None] is [found == false]. *)
Fixpoint updateNode (nid bidx : Z) (nodes : list NodeInfo)
    : option (list NodeInfo) :=
  match nodes with
  | [] => None
  | n :: rest =>
      if nodeId n =? nid then Some (mkNode (nodeId n) bidx :: rest)
      else cons n <$> updateNode nid bidx rest
  end.

(** The registry part of [registerNode]: the new array and [added]. *)
Definition registerList (nid bidx : Z) (nodes : list NodeInfo)
    : list NodeInfo * bool :=
  match updateNode nid bidx nodes with
  | Some nodes' => (nodes', false)
  | None =>
      if Z.of_nat (length nodes) <? RS485_MAX_NODES
      then (nodes ++ [mkNode nid bidx], true)
      else (nodes, false)
  end.

Definition registerNode (nid bidx : Z) (s : Board) : Board :=
  let '(nodes', added) := registerList nid bidx (nodeList s) in
  let s1 := set_nodeList nodes' s in
  if discoveryDone s1 && added && (myBoardIndex s1 =? 0) then
    let s2 := rs485SendPacket RS485_REMAP_REQUEST_MSG [0] 0 s1 in
    set_networkHealthy false (set_remapRequested true s2)
  else s1.

(** Index of the first entry with the given identity (the loops of
    [handlePingReplyPacket] and [sendPing]). *)
Fixpoint findNode (nid : Z) (nodes : list NodeInfo) : option nat :=
  match nodes with
  | [] => None
  | n :: rest =>
      if nodeId n =? nid then Some O else S <$> findNode nid rest
  end.

(** ** Packet handlers *)

Definition handleAnnouncePacket (payload : list Z) (len : Z) (s : Board)
    : Board :=
  if negb (len =? 5) then s
  else registerNode (readId payload) (byteAt payload 4) s.

(** The two callbacks into the audio/LED/MIDI side are outputs here. *)
Definition onRemoteNoteOn (note vel : Z) (s : Board) : Board :=
  emit [RemoteNoteOn note vel] s.
Definition onRemoteNoteOff (note : Z) (s : Board) : Board :=
  emit [RemoteNoteOff note] s.

Definition handleNotePacket (payload : list Z) (len : Z) (s : Board)
    : Board :=
  if negb (len =? 7) then s
  else
    let srcId := readId payload in
    let note := byteAt payload 4 in
    let vel := byteAt payload 5 in
    let on := byteAt payload 6 in
    if srcId =? myNodeId s then s
    else if negb (on =? 0) then onRemoteNoteOn note vel s
    else onRemoteNoteOff note s.

Definition handlePingPacket (payload : list Z) (len : Z) (s : Board)
    : Board :=
  if negb (len =? 1) then s
  else
    let seq := byteAt payload 0 in
    rs485SendPacket RS485_PING_REPLY_MSG (idBytes (myNodeId s) ++ [seq]) 5 s.

Definition handlePingReplyPacket (payload : list Z) (len : Z) (s : Board)
    : Board :=
  if negb (len =? 5) then s
  else
    let srcId := readId payload in
    let seq := byteAt payload 4 in
    if negb (awaitingPingReplies s) then s
    else if negb (seq =? pingSequence s) then s
    else
      match findNode srcId (nodeList s) with
      | Some i => set_pingReceived (<[i := true]> (pingReceived s)) s
      | None => s
      end.

Definition handleRemapRequestPacket (payload : list Z) (len : Z) (s : Board)
    : Board :=
  set_networkHealthy false (set_remapRequested true s).

(** The [if / else if] chain on [rx.type] in state 4 of [processRs485]. *)
Definition dispatch (type : Z) (payload : list Z) (len : Z) (s : Board)
    : Board :=
  if type =? RS485_ANNOUNCE_MSG then handleAnnouncePacket payload len s
  else if type =? RS485_NOTE_MSG then handleNotePacket payload len s
  else if type =? RS485_PING_MSG then handlePingPacket payload len s
  else if type =? RS485_PING_REPLY_MSG then handlePingReplyPacket payload len s
  else if type =? RS485_REMAP_REQUEST_MSG then
    handleRemapRequestPacket payload len s
  else s.

(** ** Packet transport: receiving *)

(** A frame handed to the handlers: [(rx.type, rx.buf, rx.len)]. *)
Definition Delivered : Type := Z * list Z * Z.

(** One turn of the [switch (rx.state)] for the byte [b]: the new parser
    state and, in state 4 with a matching checksum, the frame passed on. *)
Definition rxStep (r : RxState) (b : Z) : RxState * option Delivered :=
  if rx_state r =? 0 then
    if b =? 0xAA
    then (mkRx 1 (rx_len r) (rx_type r) (rx_buf r) (rx_pos r) 0, None)
    else (r, None)
  else if rx_state r =? 1 then
    (mkRx 2 b (rx_type r) (rx_buf r) 0 (rx_checksum r), None)
  else if rx_state r =? 2 then
    (mkRx 3 (rx_len r) b (rx_buf r) (rx_pos r) (Z.lxor b (rx_len r)), None)
  else if rx_state r =? 3 then
    let r1 :=
      if rx_pos r <? RX_BUF_SIZE then
        mkRx (rx_state r) (rx_len r) (rx_type r)
             (<[Z.to_nat (rx_pos r) := b]> (rx_buf r))
             (rx_pos r + 1) (Z.lxor (rx_checksum r) b)
      else r in
    if rx_pos r1 >=? rx_len r1
    then (mkRx 4 (rx_len r1) (rx_type r1) (rx_buf r1) (rx_pos r1)
               (rx_checksum r1), None)
    else (r1, None)
  else if rx_state r =? 4 then
    (mkRx 0 (rx_len r) (rx_type r) (rx_buf r) (rx_pos r) (rx_checksum r),
     if rx_checksum r =? b then Some (rx_type r, rx_buf r, rx_len r)
     else None)
  else (r, None).

(** The body of the [while (RS485.available())] loop for one byte.  The
    handlers neither read nor write [rx] except through their arguments. *)
Definition processByte (s : Board) (b : Z) : Board :=
  let '(r', d) := rxStep (rx s) b in
  let s1 :=
    match d with
    | Some (type, payload, len) => dispatch type payload len s
    | None => s
    end in
  set_rx r' s1.

(** [processRs485()] when [bytes] are the bytes the UART has available. *)
Definition processRs485 (bytes : list Z) (s : Board) : Board :=
  foldl processByte s bytes.

(** The parser alone: final state and the frames passed on, in order. *)
Fixpoint rxRun (r : RxState) (bytes : list Z) : RxState * list Delivered :=
  match bytes with
  | [] => (r, [])
  | b :: rest =>
      let '(r1, d) := rxStep r b in
      let '(r2, ds) := rxRun r1 rest in
      (r2, match d with Some f => f :: ds | None => ds end)
  end.

(** The value of the global [rx] at boot. *)
Definition rxInit : RxState := mkRx 0 0 0 (replicate 32 0) 0 0.

(** ** Announce and ping *)

Definition sendIdAnnounce (bidx : Z) (s : Board) : Board :=
  let payload := idBytes (myNodeId s) ++ [bidx] in
  registerNode (myNodeId s) bidx
    (rs485SendPacket RS485_ANNOUNCE_MSG payload 5 s).

(** [sendPing()]; [now] is the value [millis()] returns at its end. *)
Definition sendPing (now : Z) (s : Board) : Board :=
  let s1 := set_pingSequence (u8 (pingSequence s + 1)) s in
  let s2 := rs485SendPacket RS485_PING_MSG [pingSequence s1] 1 s1 in
  let cleared := replicate (Z.to_nat RS485_MAX_NODES) false in
  let flags :=
    match findNode (myNodeId s2) (nodeList s2) with
    | Some i => <[i := true]> cleared
    | None => cleared
    end in
  set_pingStartMs now
    (set_awaitingPingReplies true (set_pingReceived flags s2)).

(** The scan of [loop] at window expiry: some [i < nodeList.count] has
    [pingReceived[i]] false. *)
Definition pingMissing (count : nat) (flags : list bool) : bool :=
  existsb (fun i => negb (default false (flags !! i))) (seq 0 count).

(** The health-monitor block at the end of [loop]; [nowMs] is the
    [millis()] read by [loop], [pingMs] the one read inside [sendPing]. *)
Definition healthMonitor (nowMs pingMs : Z) (s : Board) : Board :=
  if (myBoardIndex s =? 0) && (totalBoards s >? 1) then
    if negb (awaitingPingReplies s)
       && (u32 (nowMs - lastPingMs s) >? PING_INTERVAL_MS) then
      set_lastPingMs nowMs (sendPing pingMs s)
    else if awaitingPingReplies s
            && (u32 (nowMs - pingStartMs s) >? PING_TIMEOUT_MS) then
      let missing := pingMissing (length (nodeList s)) (pingReceived s) in
      let s1 := set_awaitingPingReplies false s in
      if missing then
        let s2 := set_networkHealthy false s1 in
        let s3 := rs485SendPacket RS485_REMAP_REQUEST_MSG [0] 0 s2 in
        set_remapRequested true s3
      else set_networkHealthy true s1
    else s
  else s.

(** ** Physical chain discovery *)

Definition pulseRightNeighbor (s : Board) : Board :=
  emit [RightPin false; RightPin true] s.

(** What one turn of the wait loop of [startDiscovery] reads from outside:
    [millis()] in the loop condition, the bytes [processRs485] drains,
    [digitalRead(PIN_NEIGHBOR_LEFT)] ([true] is HIGH) and [millis()] in
    the break test. *)
Record Tick := mkTick {
  tk_now : Z;
  tk_rx : list Z;
  tk_left : bool;
  tk_brk : Z
}.

(** What a whole run reads: the left pin when sensing, [millis()] at
    [tStart], the left pin for [leftPrev], and the turns of the loop. *)
Record DiscoveryEnv := mkEnv {
  de_sense : bool;
  de_tStart : Z;
  de_leftPrev : bool;
  de_ticks : list Tick
}.

(** The scan for the highest index: starts from [start], skips entries
    whose index is [0xFF]. *)
Definition maxKnownIdx (start : Z) (nodes : list NodeInfo) : Z :=
  foldl (fun maxIdx n =>
           if negb (boardIndex n =? 0xFF) && (boardIndex n >? maxIdx)
           then boardIndex n else maxIdx)
        start nodes.

(** The body of the [if] on a falling edge (lines 1143-1153). *)
Definition assignOnEdge (s : Board) : Board :=
  let maxIdx :=
    maxKnownIdx (if myBoardIndex s =? 0xFF then 0 else myBoardIndex s)
                (nodeList s) in
  let newIdx := u8 (maxIdx + 1) in
  let s1 := set_myBoardIndex newIdx s in
  pulseRightNeighbor (sendIdAnnounce (myBoardIndex s1) s1).

(** One turn of the wait loop up to and including the break test;
    the boolean is "break". *)
Definition discoveryTurn (tStart : Z) (leftPrev : bool) (tk : Tick)
    (s : Board) : Board * bool :=
  let s1 := processRs485 (tk_rx tk) s in
  let leftNow := tk_left tk in
  let s2 :=
    if leftPrev && negb leftNow && (myBoardIndex s1 =? 0xFF)
    then assignOnEdge s1 else s1 in
  (s2, negb (myBoardIndex s2 =? 0xFF) && (u32 (tk_brk tk - tStart) >? 100)).

(** The wait loop.  It ends when the budget is used up or on [break];
    [None] means the turns given do not reach either. *)
Fixpoint discoveryLoop (tStart : Z) (leftPrev : bool) (ticks : list Tick)
    (s : Board) : option Board :=
  match ticks with
  | [] => None
  | tk :: rest =>
      if u32 (tk_now tk - tStart) <? DISCOVERY_MAX_MS then
        let '(s2, brk) := discoveryTurn tStart leftPrev tk s in
        if brk then Some s2
        else discoveryLoop tStart (tk_left tk) rest s2
      else Some s
  end.

(** After the loop (lines 1164-1181). *)
Definition discoveryFinish (s : Board) : Board :=
  let maxIdx :=
    maxKnownIdx (if myBoardIndex s =? 0xFF then 0 else myBoardIndex s)
                (nodeList s) in
  let s1 := set_totalBoards (u8 (maxIdx + 1)) s in
  let s2 := if myBoardIndex s1 =? 0xFF then set_myBoardIndex 0 s1 else s1 in
  let s3 :=
    set_boardBaseNote
      (u8 (GLOBAL_BASE_NOTE + myBoardIndex s2 * BOARD_NOTE_SPAN)) s2 in
  set_networkHealthy true (set_isRemapping false (set_discoveryDone true s3)).

(** Before the loop (lines 1107-1136).  [keyBaseVelocity], [pinMode] and
    the delays are not modelled. *)
Definition discoveryBegin (env : DiscoveryEnv) (s : Board) : Board :=
  let s1 := set_networkHealthy false
              (set_isRemapping true (set_discoveryDone false s)) in
  let s2 := set_nodeList [] (set_myBoardIndex 0xFF s1) in
  let s3 := emit [RightPin false] s2 in
  let s4 := set_hasLeftNeighbor (negb (de_sense env)) s3 in
  let isRoot := negb (hasLeftNeighbor s4) in
  let s5 := emit [RightPin true] s4 in
  if isRoot then
    let s6 := set_myBoardIndex 0 s5 in
    pulseRightNeighbor (sendIdAnnounce (myBoardIndex s6) s6)
  else s5.

Definition startDiscovery (env : DiscoveryEnv) (s : Board) : option Board :=
  discoveryFinish <$>
    discoveryLoop (de_tStart env) (de_leftPrev env) (de_ticks env)
                  (discoveryBegin env s).

(** ** The main loop

    The steps of [loop] that touch the network state are modelled one by
    one: the remap check below, [processRs485], the key scan [scanKeys]
    and the health monitor [healthMonitor]. *)

(** The remap check at the top of [loop]. *)
Definition loopRemap (env : DiscoveryEnv) (s : Board) : option Board :=
  if remapRequested s
  then startDiscovery env (set_remapRequested false s)
  else Some s.

(** ** Definitions used in the statements

    Functions that name what the properties speak about, and the concrete
    boards and inputs of the examples. *)

(** Hand the frames of a list to the handlers, in order. *)
Definition deliverAll (ds : list Delivered) (s : Board) : Board :=
  foldl (fun s d => dispatch d.1.1 d.1.2 d.2 s) s ds.

Definition isRemoteNote (e : Event) : bool :=
  match e with
  | RemoteNoteOn _ _ | RemoteNoteOff _ => true
  | _ => false
  end.

(** The remote-note callbacks made so far. *)
Definition remoteNotes (evs : list Event) : list Event :=
  List.filter isRemoteNote evs.

(** What [registerNode] does to one entry when [nid] is already known. *)
Definition overwrite (nid bidx : Z) (n : NodeInfo) : NodeInfo :=
  if nodeId n =? nid then mkNode (nodeId n) bidx else n.

(** Identities are unique and the array is not overrun. *)
Definition regOK (nodes : list NodeInfo) : Prop :=
  NoDup (nodeId <$> nodes) ∧ Z.of_nat (length nodes) <= RS485_MAX_NODES.

(** The position most recently registered for [nid] in a run of calls. *)
Definition lastRegistered (nid : Z) (calls : list (Z * Z)) : option Z :=
  foldl (fun acc c => if c.1 =? nid then Some c.2 else acc) None calls.

(** A run of [registerNode] calls, first call first. *)
Definition registerSeq (calls : list (Z * Z)) (s : Board) : Board :=
  foldl (fun s c => registerNode c.1 c.2 s) s calls.

(** The values of the globals at boot, for a board whose random identity
    is [id]. *)
Definition bootBoard (id : Z) : Board :=
  mkBoard id [] 0 1 false false false false GLOBAL_BASE_NOTE false rxInit
          0 false 0 0 (replicate 16 false) [].

(** The highest position recorded in a registry, 0 for an empty one;
    every entry counts. *)
Definition highestKnown (nodes : list NodeInfo) : Z :=
  foldr (fun n m => Z.max (boardIndex n) m) 0 nodes.

(** The same over the entries whose index is not [0xFF], the value
    [myBoardIndex] holds while the board is unassigned. *)
Definition highestAssigned (nodes : list NodeInfo) : Z :=
  foldr (fun n m => if boardIndex n =? 0xFF then m
                    else Z.max (boardIndex n) m) 0 nodes.

(** Registry indices fit the [uint8_t] they are stored in. *)
Definition byteIndices (nodes : list NodeInfo) : Prop :=
  Forall (fun n => boardIndex n < 256) nodes.

(** A downstream board that has just begun a run, at boot. *)
Definition waitingBoard : Board :=
  discoveryBegin (mkEnv false 0 true []) (bootBoard 7).

(** A turn in which the ANNOUNCEs of three boards arrive, at positions 2,
    8 and 5, and the left input shows LOW. *)
Definition chainTick : Tick :=
  mkTick 1 (frameBytes RS485_ANNOUNCE_MSG [4; 0; 0; 0; 2] 5
            ++ frameBytes RS485_ANNOUNCE_MSG [5; 0; 0; 0; 8] 5
            ++ frameBytes RS485_ANNOUNCE_MSG [6; 0; 0; 0; 5] 5) false 2.

(** The same turn with, in addition, an ANNOUNCE that carries [0xFF], the
    value of a board that has no position. *)
Definition edgeTick : Tick :=
  mkTick 1 (tk_rx chainTick
            ++ frameBytes RS485_ANNOUNCE_MSG [9; 0; 0; 0; 0xFF] 5) false 2.

(** C2 as the specification words it, for the board [s] the wait loop ends
    with. *)
Definition finish_as_stated (s : Board) : Prop :=
  let own := if myBoardIndex s =? 0xFF then 0 else myBoardIndex s in
  let s' := discoveryFinish s in
  myBoardIndex s' = own
  ∧ totalBoards s' = Z.max own (highestKnown (nodeList s)) + 1
  ∧ boardBaseNote s' = GLOBAL_BASE_NOTE + own * BOARD_NOTE_SPAN.

(** A run of a downstream board: an ANNOUNCE of position 8 arrives, then
    the falling edge, then an ANNOUNCE of position [0xFF]; the loop ends by
    its break test. *)
Definition tenthBoardEnv : DiscoveryEnv :=
  mkEnv false 0 true
    [ mkTick 1 (frameBytes RS485_ANNOUNCE_MSG [5; 0; 0; 0; 8] 5) true 2;
      mkTick 3 [] false 4;
      mkTick 105 (frameBytes RS485_ANNOUNCE_MSG [6; 0; 0; 0; 0xFF] 5)
             true 106 ].

(** The board that run leaves its wait loop with. *)
Definition tenthBoard : Board :=
  mkBoard 7 [mkNode 5 8; mkNode 7 9; mkNode 6 0xFF] 9 1 false false true
    false GLOBAL_BASE_NOTE true
    (mkRx 0 5 1 ([6; 0; 0; 0; 0xFF] ++ replicate 27 0) 5 253)
    0 false 0 0 (replicate 16 false)
    ((RightPin false :: RightPin true ::
      (BusWrite <$> frameBytes RS485_ANNOUNCE_MSG [7; 0; 0; 0; 9] 5))
     ++ [RightPin false; RightPin true]).

(** The board with its two request flags blanked. *)
Definition flagsErased (s : Board) : Board :=
  set_networkHealthy false (set_remapRequested false s).

(** [b] is [a] with a remap pending: the boards agree on everything except
    possibly [remapRequested] and [networkHealthy], and [b] has the request
    flag set. *)
Definition pendingVariant (a b : Board) : Prop :=
  remapRequested b = true ∧ flagsErased a = flagsErased b.

(** The rest of a run from inside the wait loop. *)
Definition discoveryRest (tStart : Z) (leftPrev : bool) (ticks : list Tick)
    (s : Board) : option Board :=
  discoveryFinish <$> discoveryLoop tStart leftPrev ticks s.

(** C5 as the specification words it, for a run with the inputs [env] from
    the board [s]: at Done no remap is pending, and the next pass of the
    main loop starts no run. *)
Definition remap_cleared_as_stated (env : DiscoveryEnv) (s : Board) : Prop :=
  ∀ sEnd, startDiscovery env s = Some sEnd →
          remapRequested sEnd = false
          ∧ ∀ env', loopRemap env' sEnd = Some sEnd.

(** A run of a root board during which a REMAP_REQUEST frame arrives (the
    zero byte after it completes the frame for this parser). *)
Definition remapDuringRunEnv : DiscoveryEnv :=
  mkEnv true 0 true
    [ mkTick 1 (frameBytes RS485_REMAP_REQUEST_MSG [0] 0 ++ [0]) true 2;
      mkTick 101 [] true 102 ].

(** A later run of the same board with a silent bus. *)
Definition quietRunEnv : DiscoveryEnv :=
  mkEnv true 2000 true [mkTick 2001 [] true 2002; mkTick 2102 [] true 2103].

(** What one run of that root writes: the sensing pulse, its ANNOUNCE at
    position 0 and the wake-up pulse. *)
Definition rootRunOut : list Event :=
  [RightPin false; RightPin true]
  ++ (BusWrite <$> frameBytes RS485_ANNOUNCE_MSG [7; 0; 0; 0; 0] 5)
  ++ [RightPin false; RightPin true].

(** ** Further definitions: transport *)


(** The bytes on the wire for a run of frames, each given by its type and
    payload and sent with the payload's length. *)
Definition wireOf (frames : list (Z * list Z)) : list Z :=
  concat ((fun f => frameBytes f.1 f.2 (Z.of_nat (length f.2))) <$> frames).

(** Type and payload of a frame passed to the handlers: the first [len]
    bytes of the buffer. *)
Definition payloadOf (d : Delivered) : Z * list Z :=
  (d.1.1, take (Z.to_nat d.2) d.1.2).

(** The pairs of type and length the handlers act on. *)
Definition accepted (type len : Z) : bool :=
  ((type =? RS485_ANNOUNCE_MSG) && (len =? 5))
  || ((type =? RS485_NOTE_MSG) && (len =? 7))
  || ((type =? RS485_PING_MSG) && (len =? 1))
  || ((type =? RS485_PING_REPLY_MSG) && (len =? 5))
  || (type =? RS485_REMAP_REQUEST_MSG).

(** ** Further definitions: note events and ping replies *)

(** [broadcastNoteEvent(note, velocity, on)]. *)
Definition broadcastNoteEvent (note velocity : Z) (on : bool) (s : Board)
    : Board :=
  let payload :=
    idBytes (myNodeId s) ++ [note; velocity; if on then 1 else 0] in
  rs485SendPacket RS485_NOTE_MSG payload 7 s.

(** The PING_REPLY payloads of the boards [ids], each answering the
    sequence the board [s] awaits, handled by [s] in that order. *)
Definition pingReplies (ids : list Z) (s : Board) : Board :=
  foldl (fun s id => handlePingReplyPacket (idBytes id ++ [pingSequence s]) 5 s)
        s ids.

(** The reply flags after the boards [ids] have been marked in [flags]. *)
Definition markAll (nodes : list NodeInfo) (ids : list Z) (flags : list bool)
    : list bool :=
  foldl (fun fl id => match findNode id nodes with
                      | Some i => <[i := true]> fl
                      | None => fl
                      end) flags ids.

(** ** Further definitions: discovery runs *)

(** Bytes as the UART delivers them and as the buffer holds them. *)
Definition byteList (l : list Z) : Prop := Forall (fun b => b < 256) l.

(** The registry, the receive buffer and the board's own index hold values
    of their 8-bit types. *)
Definition byteBoard (s : Board) : Prop :=
  byteIndices (nodeList s)
  ∧ byteList (rx_buf (rx s))
  ∧ 0 <= myBoardIndex s < 256.

(** No sample of the left input is LOW right after a HIGH one; [prev] is
    the sample taken before the first of [samples]. *)
Fixpoint noFallingEdge (prev : bool) (samples : list bool) : bool :=
  match samples with
  | [] => true
  | now :: rest => negb (prev && negb now) && noFallingEdge now rest
  end.

(** A run in which the left input stays LOW from the sensing read on and
    the bus is silent: the neighbour never wakes the board. *)
Definition strandedEnv : DiscoveryEnv :=
  mkEnv false 0 false
    [mkTick 1 [] false 2; mkTick 500 [] false 501; mkTick 1000 [] false 1000].

(** ** Keys and notes *)

Definition NUM_MAIN_KEYS : Z := 24.
Definition NUM_EXTRA_KEYS : Z := 8.
Definition TOTAL_KEYS : Z := 32.

(** [keyToNote[NUM_MAIN_KEYS]]: main key index to semitone offset. *)
Definition keyToNote : list Z :=
  [ 1; 3; 6; 8; 10;
    13; 15; 18; 20; 22;
    0; 2; 4; 5; 7; 9; 11;
    12; 14; 16; 17; 19; 21; 23 ].

(** The loop of [keyIndexFromNote] from index [i] on: the first index whose
    entry is [offset], [0xFF] when the table ends. *)
Fixpoint keyIndexScan (offset i : Z) (tbl : list Z) : Z :=
  match tbl with
  | [] => 0xFF
  | k :: rest => if k =? offset then i else keyIndexScan offset (i + 1) rest
  end.

Definition keyIndexFromNote (note : Z) (s : Board) : Z :=
  let offset := u8 (note - boardBaseNote s) in
  keyIndexScan offset 0 keyToNote.

(** ** The encoder *)

Definition ENCODER_MIN : Z := 0.
Definition ENCODER_MAX : Z := 127.

(** Arduino's [constrain(amt, low, high)]. *)
Definition constrain (amt low high : Z) : Z :=
  if amt <? low then low else if amt >? high then high else amt.

(** [encoderValue] is an [int32_t]; it starts at 64 and every run of the
    interrupt routine ends by constraining it to 0..127, so the increment
    never leaves the type and no wrap-around is written out. *)
Record Encoder := mkEncoder {
  encoderValue : Z;
  encoderLastState : Z
}.

(** [encoderISR()]; [a] and [b] are the two [digitalRead]s. *)
Definition encoderISR (a b : bool) (e : Encoder) : Encoder :=
  let state := Z.lor (Z.shiftl (Z.b2z a) 1) (Z.b2z b) in
  let last := encoderLastState e in
  let v :=
    if ((last =? 0) && (state =? 1)) || ((last =? 1) && (state =? 3))
       || ((last =? 3) && (state =? 2)) || ((last =? 2) && (state =? 0))
    then encoderValue e + 1
    else if ((last =? 0) && (state =? 2)) || ((last =? 2) && (state =? 3))
            || ((last =? 3) && (state =? 1)) || ((last =? 1) && (state =? 0))
    then encoderValue e - 1
    else encoderValue e in
  mkEncoder (constrain v ENCODER_MIN ENCODER_MAX) state.

(** The routine run once per sample of the two inputs. *)
Definition encoderRun (samples : list (bool * bool)) (e : Encoder) : Encoder :=
  foldl (fun e ab => encoderISR ab.1 ab.2 e) e samples.

(** ** The buzzer voices *)

Definition BUZZER_MAX_VOICES : Z := 12.

(** [struct BuzzerVoice] without [phase] and [phaseInc], the two floats the
    timer interrupt shapes the wave with; allocation reads neither. *)
Record BuzzerVoice := mkVoice { bv_active : bool; bv_note : Z }.

(** The search loop of [buzzerStartNoteInternal]: index of the first
    voice that is not active. *)
Fixpoint firstFree (vs : list BuzzerVoice) : option nat :=
  match vs with
  | [] => None
  | v :: rest => if negb (bv_active v) then Some O else S <$> firstFree rest
  end.

Definition buzzerStartNoteInternal (note : Z) (vs : list BuzzerVoice)
    : list BuzzerVoice :=
  let idx := default O (firstFree vs) in
  <[idx := mkVoice true note]> vs.

Definition buzzerStopNoteInternal (note : Z) (vs : list BuzzerVoice)
    : list BuzzerVoice :=
  (fun v => if bv_active v && (bv_note v =? note)
            then mkVoice false (bv_note v) else v) <$> vs.

Definition buzzerStopAllInternal (vs : list BuzzerVoice)
    : list BuzzerVoice :=
  (fun v => mkVoice false (bv_note v)) <$> vs.

(** The notes that sound: those of the active voices, in voice order. *)
Definition sounding (vs : list BuzzerVoice) : list Z :=
  bv_note <$> List.filter bv_active vs.

(** ** Key scanning and the local note handlers *)

Definition VELOCITY_ON_DELTA : Z := 80.
Definition VELOCITY_FULL_DELTA : Z := 300.
Definition VELOCITY_MIN_DT_US : Z := 1000.
Definition VELOCITY_MAX_DT_US : Z := 60000.

(** Truncation to [uint16_t] and conversion to [int16_t]. *)
Definition u16 (x : Z) : Z := x mod 65536.
Definition i16 (x : Z) : Z := (x + 32768) mod 65536 - 32768.

Record KeyDef := mkKeyDef {
  muxIndex : Z;
  muxChannel : Z;
  isExtra : bool
}.

(** [struct KeyState]; the fields carry a [ks_] prefix. *)
Record KeyState := mkKeyState {
  ks_raw : Z;
  ks_baseline : Z;
  ks_pressed : bool;
  ks_velocityComputed : bool;
  ks_pressStartUs : Z;
  ks_velocity : Z
}.

(** [initKeyDefs()]: three loops that write [keyDefs]. *)
Definition initKeyDefs (defs : list KeyDef) : list KeyDef :=
  let extras :=
    foldl (fun d i => <[Z.to_nat (NUM_MAIN_KEYS + i) := mkKeyDef 0 i true]> d)
          defs (seqZ 0 NUM_EXTRA_KEYS) in
  let low :=
    foldl (fun d i => <[Z.to_nat i := mkKeyDef 0 (8 + i) false]> d)
          extras (seqZ 0 8) in
  foldl (fun d i => <[Z.to_nat (8 + i) := mkKeyDef 1 i false]> d)
        low (seqZ 0 16).

(** The levels [setMuxChannel] writes to S0..S3. *)
Definition setMuxChannel (channel : Z) : Z * Z * Z * Z :=
  (Z.land channel 1, Z.land (Z.shiftr channel 1) 1,
   Z.land (Z.shiftr channel 2) 1, Z.land (Z.shiftr channel 3) 1).

Definition PIN_AM0 : Z := 4.
Definition PIN_AM1 : Z := 5.

(** What [readKeyRaw] selects before its [analogRead]: the select levels
    and the analog pin. *)
Definition readKeyRaw (def : KeyDef) : (Z * Z * Z * Z) * Z :=
  (setMuxChannel (muxChannel def),
   if muxIndex def =? 0 then PIN_AM0 else PIN_AM1).

(** Calls into USB MIDI, the I2S synth and the LED ripple, whose own state
    is floats or outside the program; they are recorded in order. *)
Inductive Call :=
| MidiNoteOn (note vel : Z)     (* usb_midi.sendNoteOn(note, vel, 0) *)
| MidiNoteOff (note vel : Z)    (* usb_midi.sendNoteOff(note, vel, 0) *)
| SynthNoteOn (note vel : Z)    (* synthNoteOn past its audioEnabled test *)
| SynthNoteOff (note : Z)       (* synthNoteOff(note) *)
| StartRipple (note vel : Z).   (* startRipple(note, vel) *)

(** The globals the keys and the note handlers work on, with the board's
    network state. *)
Record Panel := mkPanel {
  board : Board;
  keyDefs : list KeyDef;
  keyStates : list KeyState;
  keyBaseVelocity : list Z;
  buzzerEnabled : bool;
  audioEnabled : bool;
  buzzerVoices : list BuzzerVoice;
  calls : list Call
}.

Definition set_board (v : Board) (p : Panel) : Panel :=
  mkPanel v (keyDefs p) (keyStates p) (keyBaseVelocity p) (buzzerEnabled p)
          (audioEnabled p) (buzzerVoices p) (calls p).
Definition set_keyStates (v : list KeyState) (p : Panel) : Panel :=
  mkPanel (board p) (keyDefs p) v (keyBaseVelocity p) (buzzerEnabled p)
          (audioEnabled p) (buzzerVoices p) (calls p).
Definition set_keyBaseVelocity (v : list Z) (p : Panel) : Panel :=
  mkPanel (board p) (keyDefs p) (keyStates p) v (buzzerEnabled p)
          (audioEnabled p) (buzzerVoices p) (calls p).
Definition set_buzzerEnabled (v : bool) (p : Panel) : Panel :=
  mkPanel (board p) (keyDefs p) (keyStates p) (keyBaseVelocity p) v
          (audioEnabled p) (buzzerVoices p) (calls p).
Definition set_audioEnabled (v : bool) (p : Panel) : Panel :=
  mkPanel (board p) (keyDefs p) (keyStates p) (keyBaseVelocity p)
          (buzzerEnabled p) v (buzzerVoices p) (calls p).
Definition set_buzzerVoices (v : list BuzzerVoice) (p : Panel) : Panel :=
  mkPanel (board p) (keyDefs p) (keyStates p) (keyBaseVelocity p)
          (buzzerEnabled p) (audioEnabled p) v (calls p).
Definition call (c : Call) (p : Panel) : Panel :=
  mkPanel (board p) (keyDefs p) (keyStates p) (keyBaseVelocity p)
          (buzzerEnabled p) (audioEnabled p) (buzzerVoices p)
          (calls p ++ [c]).

(** [computeVelocity]; [curve dtUs] stands for the float expression
    [10 + t * (127 - 10)] of the middle range, which is converted to
    [uint8_t]. *)
Definition computeVelocity (curve : Z → Z) (delta dtUs : Z) : Z :=
  if dtUs <=? VELOCITY_MIN_DT_US then 127
  else if dtUs >=? VELOCITY_MAX_DT_US then 10
  else
    let vel := u8 (curve dtUs) in
    if vel <? 1 then 1 else vel.

Definition setKeyLedBase (keyIndex velocity : Z) (on : bool) (p : Panel)
    : Panel :=
  if keyIndex >=? TOTAL_KEYS then p
  else set_keyBaseVelocity
         (<[Z.to_nat keyIndex := if on then velocity else 0]>
            (keyBaseVelocity p)) p.

Definition synthNoteOn (note velocity : Z) (p : Panel) : Panel :=
  if negb (audioEnabled p) then p else call (SynthNoteOn note velocity) p.

Definition buzzerNoteOn (note velocity : Z) (p : Panel) : Panel :=
  if negb (buzzerEnabled p) then p
  else set_buzzerVoices (buzzerStartNoteInternal note (buzzerVoices p)) p.

Definition buzzerNoteOff (note : Z) (p : Panel) : Panel :=
  if negb (buzzerEnabled p) then p
  else set_buzzerVoices (buzzerStopNoteInternal note (buzzerVoices p)) p.

Definition onLocalNoteOn (note velocity : Z) (p : Panel) : Panel :=
  let keyIndex := keyIndexFromNote note (board p) in
  let p1 :=
    if negb (keyIndex =? 0xFF) then setKeyLedBase keyIndex velocity true p
    else p in
  let p2 := call (StartRipple note velocity) p1 in
  let p3 := call (MidiNoteOn note velocity) p2 in
  let p4 := synthNoteOn note velocity p3 in
  let p5 := buzzerNoteOn note velocity p4 in
  set_board (broadcastNoteEvent note velocity true (board p5)) p5.

Definition onLocalNoteOff (note : Z) (p : Panel) : Panel :=
  let keyIndex := keyIndexFromNote note (board p) in
  let p1 :=
    if negb (keyIndex =? 0xFF) then setKeyLedBase keyIndex 0 false p
    else p in
  let p2 := call (MidiNoteOff note 0) p1 in
  let p3 := call (SynthNoteOff note) p2 in
  let p4 := buzzerNoteOff note p3 in
  set_board (broadcastNoteEvent note 0 false (board p4)) p4.

Definition handleExtraKeyPressed (extraIndex : Z) (p : Panel) : Panel :=
  if extraIndex =? 0 then set_buzzerEnabled (negb (buzzerEnabled p)) p
  else if extraIndex =? 1 then set_audioEnabled (negb (audioEnabled p)) p
  else if extraIndex =? 2 then
    let s1 := rs485SendPacket RS485_REMAP_REQUEST_MSG [0] 0 (board p) in
    set_board (set_networkHealthy false (set_remapRequested true s1)) p
  else if extraIndex =? 3 then
    set_board (set_boardBaseNote (u8 (boardBaseNote (board p) + 12))
                                 (board p)) p
  else if extraIndex =? 4 then
    set_board (set_boardBaseNote (u8 (boardBaseNote (board p) - 12))
                                 (board p)) p
  else p.

(** [delta] in [scanKeys]: the difference of reading and baseline as
    [int16_t], negated when below zero. *)
Definition keyDelta (raw baseline : Z) : Z :=
  let delta := i16 (i16 raw - i16 baseline) in
  if delta <? 0 then i16 (- delta) else delta.

(** The note of main key [k] at the board's current base. *)
Definition keyNote (k : Z) (p : Panel) : Z :=
  u8 (boardBaseNote (board p) + byteAt keyToNote (Z.to_nat k)).

Definition storeKey (k : Z) (st : KeyState) (p : Panel) : Panel :=
  set_keyStates (<[Z.to_nat k := st]> (keyStates p)) p.

(** The body of the loop of [scanKeys] for key [k]; [rawIn] is what
    [readKeyRaw] returns and [nowIn] what [micros()] returns.  The key's
    state is written back at the end: the handlers called in between do
    not touch [keyStates]. *)
Definition scanKey (curve : Z → Z) (k rawIn nowIn : Z) (p : Panel) : Panel :=
  let def := default (mkKeyDef 0 0 false) (keyDefs p !! Z.to_nat k) in
  let st := default (mkKeyState 0 0 false false 0 0)
                    (keyStates p !! Z.to_nat k) in
  let raw := u16 rawIn in
  let nowUs := u32 nowIn in
  let delta := keyDelta raw (ks_baseline st) in
  if negb (ks_pressed st) then
    if delta >? VELOCITY_ON_DELTA then
      storeKey k (mkKeyState raw (ks_baseline st) true false nowUs
                             (ks_velocity st)) p
    else
      storeKey k (mkKeyState raw (ks_baseline st) false
                             (ks_velocityComputed st) (ks_pressStartUs st)
                             (ks_velocity st)) p
  else
    let fire := negb (ks_velocityComputed st)
                && (delta >? VELOCITY_FULL_DELTA) in
    let velocity :=
      if fire
      then computeVelocity curve delta (u32 (nowUs - ks_pressStartUs st))
      else ks_velocity st in
    let computed := if fire then true else ks_velocityComputed st in
    let p1 :=
      if fire then
        if isExtra def then
          setKeyLedBase k velocity true
            (handleExtraKeyPressed (u8 (k - NUM_MAIN_KEYS)) p)
        else
          onLocalNoteOn (keyNote k p) (if velocity =? 0 then 1 else velocity)
                        p
      else p in
    if delta <? VELOCITY_ON_DELTA / 2 then
      let p2 :=
        if isExtra def then setKeyLedBase k 0 false p1
        else onLocalNoteOff (keyNote k p1) p1 in
      storeKey k (mkKeyState raw (ks_baseline st) false false
                             (ks_pressStartUs st) velocity) p2
    else
      storeKey k (mkKeyState raw (ks_baseline st) true computed
                             (ks_pressStartUs st) velocity) p1.

(** [scanKeys()]: the keys 0..31 in order, each with its reading and its
    clock value. *)
Definition scanKeys (curve : Z → Z) (samples : list (Z * Z)) (p : Panel)
    : Panel :=
  foldl (fun p ks => scanKey curve ks.1 ks.2.1 ks.2.2 p) p
        (zip (seqZ 0 TOTAL_KEYS) samples).

(** A panel after [setup]: key table written, keys idle at the given
    baselines, no voice active. *)
Definition bootPanel (id : Z) (baselines : list Z) : Panel :=
  mkPanel (bootBoard id)
          (initKeyDefs (replicate 32 (mkKeyDef 0 0 false)))
          ((fun b => mkKeyState b b false false 0 0) <$> baselines)
          (replicate 32 0) false true
          (replicate 12 (mkVoice false 0)) [].

(** What a scan does to the state of a key that stays idle: it records
    the reading. *)
Definition recordRaw (raw : Z) (st : KeyState) : KeyState :=
  mkKeyState (u16 raw) (ks_baseline st) false (ks_velocityComputed st)
             (ks_pressStartUs st) (ks_velocity st).

(** Key [ks.1] of the panel is idle and its reading [ks.2.1] is within
    the press threshold. *)
Definition quiet (p : Panel) (ks : nat * (Z * Z)) : Prop :=
  ∃ st, keyStates p !! ks.1 = Some st ∧ ks_pressed st = false
        ∧ keyDelta (u16 ks.2.1) (ks_baseline st) <= VELOCITY_ON_DELTA.

(** Examples: a velocity curve that is constant in the middle range, a
    panel at rest with every baseline at 2000, the same with key 0 just
    touched, and with key 0 pressed home. *)
Definition flatCurve : Z → Z := fun _ => 64.

Definition restPanel : Panel := bootPanel 7 (replicate 32 2000).

Definition touchedPanel : Panel := scanKey flatCurve 0 2100 1000 restPanel.

Definition heldPanel : Panel := scanKey flatCurve 0 2400 3000 touchedPanel.

(** * Properties *)

(** ** Field updates and the handlers

    [board_simpl] reduces projections of updated boards. *)

Ltac board_simpl :=
  cbn [set_nodeList set_myBoardIndex set_totalBoards set_discoveryDone
       set_remapRequested set_isRemapping set_networkHealthy
       set_boardBaseNote set_hasLeftNeighbor set_rx set_pingSequence
       set_awaitingPingReplies set_pingStartMs set_lastPingMs
       set_pingReceived emit
       myNodeId nodeList myBoardIndex totalBoards discoveryDone
       remapRequested isRemapping networkHealthy boardBaseNote
       hasLeftNeighbor rx pingSequence awaitingPingReplies pingStartMs
       lastPingMs pingReceived out] in *.

Lemma set_rx_set_rx r1 r2 s : set_rx r2 (set_rx r1 s) = set_rx r2 s.
Proof. reflexivity. Qed.

Lemma set_rx_same s : set_rx (rx s) s = s.
Proof. by destruct s. Qed.

Lemma rx_set_rx r s : rx (set_rx r s) = r.
Proof. reflexivity. Qed.

(** No handler looks at the parser state: delivering a frame commutes with
    any update of [rx]. *)
Lemma registerNode_set_rx r nid bidx s :
  registerNode nid bidx (set_rx r s) = set_rx r (registerNode nid bidx s).
Proof.
  unfold registerNode. board_simpl.
  destruct (registerList nid bidx (nodeList s)) as [nodes' added].
  board_simpl. by destruct (discoveryDone s && added && (myBoardIndex s =? 0)).
Qed.

Lemma dispatch_set_rx r type payload len s :
  dispatch type payload len (set_rx r s)
  = set_rx r (dispatch type payload len s).
Proof.
  unfold dispatch, handleAnnouncePacket, handleNotePacket, handlePingPacket,
    handlePingReplyPacket, handleRemapRequestPacket, onRemoteNoteOn,
    onRemoteNoteOff.
  board_simpl.
  repeat case_match; simplify_eq; board_simpl;
    try reflexivity; apply registerNode_set_rx.
Qed.

Lemma rx_dispatch type payload len s :
  rx (dispatch type payload len s) = rx s.
Proof.
  rewrite <- (set_rx_same s) at 1.
  by rewrite dispatch_set_rx.
Qed.

(** ** The parser and the handlers, separated *)

Lemma deliverAll_set_rx r ds s :
  deliverAll ds (set_rx r s) = set_rx r (deliverAll ds s).
Proof.
  revert s. induction ds as [|[[t p] l] ds IH]; intros s; [done|].
  cbn. rewrite dispatch_set_rx. apply IH.
Qed.

(** [processRs485] is the parser run on the bytes, with the frames it
    passes on handed to the handlers. *)
Lemma processRs485_rxRun bytes s :
  processRs485 bytes s
  = set_rx (rxRun (rx s) bytes).1 (deliverAll (rxRun (rx s) bytes).2 s).
Proof.
  revert s. induction bytes as [|b bytes IH]; intros s.
  { cbn. by rewrite set_rx_same. }
  unfold processRs485 in *. cbn [foldl rxRun]. rewrite IH. clear IH.
  unfold processByte.
  destruct (rxStep (rx s) b) as [r1 d] eqn:Hstep.
  rewrite rx_set_rx.
  destruct (rxRun r1 bytes) as [r2 ds] eqn:Hrun. cbn [fst snd].
  rewrite deliverAll_set_rx, set_rx_set_rx.
  destruct d as [[[t p] l]|]; reflexivity.
Qed.

Lemma rxRun_app r a b :
  rxRun r (a ++ b)
  = ((rxRun (rxRun r a).1 b).1, (rxRun r a).2 ++ (rxRun (rxRun r a).1 b).2).
Proof.
  revert r. induction a as [|x a IH]; intros r.
  { cbn. by destruct (rxRun r b). }
  cbn [app rxRun]. destruct (rxStep r x) as [r1 d]. rewrite IH.
  destruct (rxRun r1 a) as [r2 ds]. cbn [fst snd].
  destruct (rxRun r2 b) as [r3 ds']. by destruct d.
Qed.

(** ** Receiving a frame with at least one payload byte *)

(** In state 3, [body] fills [buf] from [p] on; the byte that completes
    the declared length moves the parser to state 4. *)
Lemma rxRun_payload L ty body :
  ∀ buf (p : nat) ck,
    body ≠ [] →
    Z.of_nat (p + length body) = L → L <= RX_BUF_SIZE →
    length buf = 32%nat →
    rxRun (mkRx 3 L ty buf (Z.of_nat p) ck) body
    = (mkRx 4 L ty (take p buf ++ body ++ drop (p + length body) buf) L
            (foldl Z.lxor ck body), []).
Proof.
  unfold RX_BUF_SIZE.
  induction body as [|b body IH]; intros buf p ck Hne HL Hcap Hbuf; [done|].
  cbn [length] in HL.
  assert (Hp : (p < length buf)%nat) by lia.
  cbn [rxRun]. unfold rxStep at 1.
  cbn [rx_state rx_len rx_type rx_buf rx_pos rx_checksum].
  change (3 =? 0) with false. change (3 =? 1) with false.
  change (3 =? 2) with false. change (3 =? 3) with true. cbn iota.
  unfold RX_BUF_SIZE.
  destruct (Z.ltb_spec (Z.of_nat p) 32) as [_|?]; [|lia].
  cbn [rx_state rx_len rx_type rx_buf rx_pos rx_checksum].
  rewrite Nat2Z.id.
  destruct body as [|b' body].
  - destruct (Z.geb_spec (Z.of_nat p + 1) L) as [_|?]; [|cbn in *; lia].
    cbn [rxRun foldl length]. do 2 f_equal.
    + rewrite insert_take_drop by done. do 3 f_equal. lia.
    + cbn in *. lia.
  - cbn [length] in *.
    destruct (Z.geb_spec (Z.of_nat p + 1) L) as [?|_]; [lia|].
    replace (Z.of_nat p + 1) with (Z.of_nat (S p)) by lia.
    rewrite IH; [|done|cbn; lia|lia|by rewrite length_insert].
    cbn [foldl length]. do 2 f_equal.
    rewrite (take_S_r _ _ b) by (by apply list_lookup_insert_eq).
    rewrite take_insert_ge by lia.
    rewrite drop_insert_lt by lia.
    rewrite <- app_assoc. cbn.
    replace (S (p + S (length body))) with (p + S (S (length body)))%nat
      by lia.
    reflexivity.
Qed.

(** A frame with [1 <= len <= 32] payload bytes, fed to a parser that is
    seeking START, is passed on exactly once, with the type, the length and
    the payload that were sent, and leaves the parser seeking START. *)
Lemma rxRun_frame l0 t0 buf p0 c0 type payload len :
  1 <= len <= RX_BUF_SIZE →
  len <= Z.of_nat (length payload) →
  length buf = 32%nat →
  let body := take (Z.to_nat len) payload in
  let buf' := body ++ drop (Z.to_nat len) buf in
  rxRun (mkRx 0 l0 t0 buf p0 c0) (frameBytes type payload len)
  = (mkRx 0 len type buf' len (frameChecksum type len body),
     [(type, buf', len)]).
Proof.
  intros Hlen Hpay Hbuf body buf'. unfold frameBytes. fold body.
  assert (Hbody : length body = Z.to_nat len)
    by (subst body; rewrite length_take; lia).
  cbn [rxRun]. unfold rxStep at 1. cbn.
  pose proof (rxRun_payload len type body buf 0 (Z.lxor type len)) as Hp.
  change (Z.of_nat 0) with 0 in Hp.
  rewrite rxRun_app, Hp;
    [|by intros Hnil; rewrite Hnil in Hbody; cbn in Hbody; lia
     |lia|lia|done].
  cbn [fst snd rxRun]. unfold rxStep. cbn.
  unfold frameChecksum. rewrite Z.eqb_refl.
  rewrite Hbody. reflexivity.
Qed.

(** At the level of the board: the handlers are run once on that frame. *)
Lemma processRs485_frame s type payload len :
  rx_state (rx s) = 0 → length (rx_buf (rx s)) = 32%nat →
  1 <= len <= RX_BUF_SIZE → len <= Z.of_nat (length payload) →
  let body := take (Z.to_nat len) payload in
  let buf' := body ++ drop (Z.to_nat len) (rx_buf (rx s)) in
  processRs485 (frameBytes type payload len) s
  = set_rx (mkRx 0 len type buf' len (frameChecksum type len body))
           (dispatch type buf' len s).
Proof.
  intros Hst Hbuf Hlen Hpay body buf'. rewrite processRs485_rxRun.
  destruct (rx s) as [st l0 t0 buf p0 c0] eqn:Hrx. cbn in Hst, Hbuf.
  subst st. rewrite (rxRun_frame l0 t0 buf p0 c0) by done. reflexivity.
Qed.

(** A frame with [1 <= len <= 32] payload bytes whose last byte is not the
    XOR of type, length and payload is passed to no handler, and the parser
    is seeking START again after it. *)
Lemma rxRun_bad_checksum l0 t0 buf p0 c0 type payload len c :
  1 <= len <= RX_BUF_SIZE →
  len <= Z.of_nat (length payload) →
  length buf = 32%nat →
  let body := take (Z.to_nat len) payload in
  let buf' := body ++ drop (Z.to_nat len) buf in
  c ≠ frameChecksum type len body →
  rxRun (mkRx 0 l0 t0 buf p0 c0) (0xAA :: len :: type :: body ++ [c])
  = (mkRx 0 len type buf' len (frameChecksum type len body), []).
Proof.
  intros Hlen Hpay Hbuf body buf' Hc.
  assert (Hbody : length body = Z.to_nat len)
    by (subst body; rewrite length_take; lia).
  cbn [rxRun]. unfold rxStep at 1. cbn.
  pose proof (rxRun_payload len type body buf 0 (Z.lxor type len)) as Hp.
  change (Z.of_nat 0) with 0 in Hp.
  rewrite rxRun_app, Hp;
    [|by intros Hnil; rewrite Hnil in Hbody; cbn in Hbody; lia
     |lia|lia|done].
  cbn [fst snd rxRun]. unfold rxStep. cbn.
  fold (frameChecksum type len body).
  destruct (Z.eqb_spec (frameChecksum type len body) c) as [<-|_]; [done|].
  rewrite Hbody. reflexivity.
Qed.

(** So a well-formed frame that follows at once is parsed as if the
    damaged frame had not been there, but for the buffer bytes beyond its
    own length. *)
Lemma rxRun_bad_then_good l0 t0 buf p0 c0 type payload len c
    type2 payload2 len2 :
  1 <= len <= RX_BUF_SIZE → len <= Z.of_nat (length payload) →
  1 <= len2 <= RX_BUF_SIZE → len2 <= Z.of_nat (length payload2) →
  length buf = 32%nat →
  let body := take (Z.to_nat len) payload in
  let body2 := take (Z.to_nat len2) payload2 in
  let buf2 := body2 ++ drop (Z.to_nat len2) (body ++ drop (Z.to_nat len) buf) in
  c ≠ frameChecksum type len body →
  rxRun (mkRx 0 l0 t0 buf p0 c0)
        ((0xAA :: len :: type :: body ++ [c])
         ++ frameBytes type2 payload2 len2)
  = (mkRx 0 len2 type2 buf2 len2 (frameChecksum type2 len2 body2),
     [(type2, buf2, len2)]).
Proof.
  intros Hlen Hpay Hlen2 Hpay2 Hbuf body body2 buf2 Hc.
  subst body body2 buf2. rewrite rxRun_app.
  rewrite (rxRun_bad_checksum l0 t0 buf p0 c0 type payload len c) by done.
  cbn [fst snd app].
  rewrite rxRun_frame; [done|done|done|].
  unfold RX_BUF_SIZE in *.
  rewrite length_app, length_take, length_drop. lia.
Qed.

(** ** Frames without payload *)

(** C4 (defect in the code).  The specification: every frame the
    serializer produces for a payload of at most 28 bytes is passed on
    exactly once by the receive parser, with its type and payload.  For an
    empty payload this fails: after START, length 0 and the type, the
    parser is in state 3 and stores the next byte -- the checksum the
    sender wrote -- as a payload byte.  The frame ends with the parser in
    state 4 waiting for one more byte, no frame passed on and the board
    unchanged.  The firmware sends such frames itself: every REMAP_REQUEST
    has length 0. *)
Theorem empty_frame_not_delivered
    (l0 t0 p0 c0 type : Z) (buf payload : list Z) (s : Board) :
  let idle := mkRx 0 l0 t0 buf p0 c0 in
  let stuck := mkRx 4 0 type (<[0%nat := type]> buf) 1 0 in
  rxRun idle (frameBytes type payload 0) = (stuck, [])
  ∧ processRs485 (frameBytes type payload 0) (set_rx idle s)
    = set_rx stuck s.
Proof.
  intros idle stuck.
  assert (Hrun : rxRun idle (frameBytes type payload 0) = (stuck, [])).
  { change (frameBytes type payload 0) with [0xAA; 0; type; Z.lxor type 0].
    cbn [rxRun]. unfold rxStep. cbn.
    by rewrite Z.lxor_0_r, Z.lxor_nilpotent. }
  split; [exact Hrun|].
  rewrite processRs485_rxRun, rx_set_rx, Hrun. cbn [fst snd deliverAll foldl].
  apply set_rx_set_rx.
Qed.

(** C9 (defect in the code).  The specification: a frame whose
    checksum byte is wrong reaches no handler and leaves the parser seeking
    START, so the next well-formed frame is parsed.  For a frame of length
    0 this fails: whatever its type and checksum byte, the parser is in
    state 4 after it, not seeking START, and takes the next byte for the
    checksum.  Here START, length 0, type REMAP_REQUEST and the wrong
    checksum [0xAF] (the right one is [0x05]) are followed by a well-formed
    PING frame: the wrong checksum is stored as payload, the START byte of
    the PING frame is compared with the running XOR [0xAA] and matches, so
    [handleRemapRequestPacket] runs; the rest of the PING frame is skipped
    and no PING_REPLY is written. *)
Theorem empty_frame_bad_checksum_dispatched
    (l0 t0 p0 c0 type c : Z) (buf : list Z) (s : Board) :
  let idle := mkRx 0 l0 t0 buf p0 c0 in
  let bad := [0xAA; 0; RS485_REMAP_REQUEST_MSG; 0xAF] in
  let good := frameBytes RS485_PING_MSG [7] 1 in
  rxRun idle [0xAA; 0; type; c]
  = (mkRx 4 0 type (<[0%nat := c]> buf) 1 (Z.lxor (Z.lxor type 0) c), [])
  ∧ 0xAF ≠ frameChecksum RS485_REMAP_REQUEST_MSG 0 []
  ∧ processRs485 (bad ++ good) (set_rx idle s)
    = set_rx (mkRx 0 0 RS485_REMAP_REQUEST_MSG (<[0%nat := 0xAF]> buf) 1 0xAA)
             (set_networkHealthy false (set_remapRequested true s)).
Proof.
  intros idle bad good. split; [|split; [done|]].
  { cbn [rxRun]. unfold rxStep. by cbn. }
  rewrite processRs485_rxRun, rx_set_rx.
  subst idle bad good.
  lazy -[insert set_rx set_networkHealthy set_remapRequested].
  reflexivity.
Qed.

(** ** Frames longer than the buffer *)

(** While the declared length is not reached, state 3 stores bytes and
    stays in state 3. *)
Lemma rxRun_fill L ty body :
  ∀ buf (p : nat) ck,
    (p + length body <= 32)%nat →
    Z.of_nat (p + length body) < L →
    length buf = 32%nat →
    rxRun (mkRx 3 L ty buf (Z.of_nat p) ck) body
    = (mkRx 3 L ty (take p buf ++ body ++ drop (p + length body) buf)
            (Z.of_nat (p + length body)) (foldl Z.lxor ck body), []).
Proof.
  induction body as [|b body IH]; intros buf p ck Hcap HL Hbuf.
  { cbn. by rewrite Nat.add_0_r, take_drop. }
  cbn [length] in *. cbn [rxRun]. unfold rxStep at 1.
  cbn [rx_state rx_len rx_type rx_buf rx_pos rx_checksum].
  change (3 =? 0) with false. change (3 =? 1) with false.
  change (3 =? 2) with false. change (3 =? 3) with true. cbn iota.
  unfold RX_BUF_SIZE.
  destruct (Z.ltb_spec (Z.of_nat p) 32) as [_|?]; [|lia].
  cbn [rx_state rx_len rx_type rx_buf rx_pos rx_checksum].
  destruct (Z.geb_spec (Z.of_nat p + 1) L) as [?|_]; [lia|].
  rewrite Nat2Z.id.
  replace (Z.of_nat p + 1) with (Z.of_nat (S p)) by lia.
  rewrite IH; [|lia|lia|by rewrite length_insert].
  cbn [foldl]. do 2 f_equal; [|f_equal; lia].
  rewrite (take_S_r _ _ b) by (apply list_lookup_insert_eq; lia).
  rewrite take_insert_ge by lia.
  rewrite drop_insert_lt by lia.
  rewrite <- app_assoc. cbn.
  replace (S (p + length body)) with (p + S (length body))%nat by lia.
  reflexivity.
Qed.

(** With the buffer full and the declared length beyond it, state 3 takes
    every byte and changes nothing: no transition leaves it. *)
Lemma rxRun_stuck L ty buf pos ck rest :
  RX_BUF_SIZE <= pos → pos < L →
  rxRun (mkRx 3 L ty buf pos ck) rest = (mkRx 3 L ty buf pos ck, []).
Proof.
  intros Hfull HL. induction rest as [|b rest IH]; [done|].
  cbn [rxRun]. unfold rxStep at 1.
  cbn [rx_state rx_len rx_type rx_buf rx_pos rx_checksum].
  change (3 =? 0) with false. change (3 =? 1) with false.
  change (3 =? 2) with false. change (3 =? 3) with true. cbn iota.
  destruct (Z.ltb_spec pos RX_BUF_SIZE) as [?|_]; [lia|].
  cbn [rx_state rx_len rx_type rx_buf rx_pos rx_checksum].
  destruct (Z.geb_spec pos L) as [?|_]; [lia|].
  by rewrite IH.
Qed.

(** C6 (defect in the code).  The specification: when the declared
    payload length exceeds the buffer, the excess bytes are ignored, no
    state is touched and the parser is reset to its initial state, ready
    for the next well-formed frame.  The code never resets: once 32 bytes
    are stored, [rx.pos] stays 32, [rx.pos >= rx.len] never holds, and the
    parser remains in state 3 whatever follows.  Every later byte, a
    well-formed frame included, is swallowed and nothing is ever passed to
    a handler again. *)
Theorem oversize_frame_wedges_parser
    (l0 t0 p0 c0 L type : Z) (buf body rest : list Z) (s : Board) :
  RX_BUF_SIZE < L →
  length body = 32%nat →
  length buf = 32%nat →
  let idle := mkRx 0 l0 t0 buf p0 c0 in
  let wedged := mkRx 3 L type body 32 (foldl Z.lxor (Z.lxor type L) body) in
  rxRun idle (0xAA :: L :: type :: body ++ rest) = (wedged, [])
  ∧ processRs485 (0xAA :: L :: type :: body ++ rest) (set_rx idle s)
    = set_rx wedged s.
Proof.
  intros HL Hbody Hbuf idle wedged. unfold RX_BUF_SIZE in HL.
  assert (Hrun : rxRun idle (0xAA :: L :: type :: body ++ rest)
                 = (wedged, [])).
  { subst idle wedged. cbn [rxRun]. unfold rxStep at 1. cbn.
    pose proof (rxRun_fill L type body buf 0 (Z.lxor type L)) as Hfill.
    change (Z.of_nat 0) with 0 in Hfill.
    rewrite rxRun_app, Hfill by (cbn; lia). cbn [fst snd Nat.add].
    rewrite Hbody, <- Hbuf, drop_all, app_nil_r. cbn [take].
    rewrite rxRun_stuck by (unfold RX_BUF_SIZE; rewrite ?Hbuf; lia).
    by rewrite Hbuf. }
  split; [exact Hrun|].
  rewrite processRs485_rxRun, rx_set_rx, Hrun. apply set_rx_set_rx.
Qed.

(** A frame announcing 33 payload bytes, then a well-formed PING frame:
    the parser is still in state 3 and the PING is not passed on. *)
Lemma oversize_frame_wedges_parser_witness :
  rxRun rxInit
    (0xAA :: 33 :: 1 :: replicate 32 9
       ++ (9 :: 32 :: frameBytes RS485_PING_MSG [7] 1))
  = (mkRx 3 33 1 (replicate 32 9) 32 32, []).
Proof.
  apply (oversize_frame_wedges_parser 0 0 0 0 33 1 (replicate 32 0)
           (replicate 32 9) (9 :: 32 :: frameBytes RS485_PING_MSG [7] 1)
           (mkBoard 0 [] 0 1 false false false false 48 false rxInit 0
                    false 0 0 [] []));
    [unfold RX_BUF_SIZE; lia | reflexivity | reflexivity].
Defined.

(** ** Remote note events *)

Lemma remoteNotes_bus evs bytes :
  remoteNotes (evs ++ (BusWrite <$> bytes)) = remoteNotes evs.
Proof.
  unfold remoteNotes. rewrite List.filter_app.
  replace (List.filter isRemoteNote (BusWrite <$> bytes)) with (@nil Event).
  - apply app_nil_r.
  - induction bytes; [done|]. cbn. done.
Qed.

Lemma out_registerNode nid bidx s :
  out (registerNode nid bidx s) = out s
  ∨ out (registerNode nid bidx s)
    = out s ++ (BusWrite <$> frameBytes RS485_REMAP_REQUEST_MSG [0] 0).
Proof.
  unfold registerNode.
  destruct (registerList nid bidx (nodeList s)) as [nodes' added].
  board_simpl.
  destruct (discoveryDone s && added && (myBoardIndex s =? 0));
    board_simpl; auto.
Qed.

(** The first [n] bytes of a buffer whose front is [body]. *)
Lemma byteAt_app_l (body tail : list Z) (i : nat) :
  (i < length body)%nat → byteAt (body ++ tail) i = byteAt body i.
Proof. intros Hi. unfold byteAt. by rewrite lookup_app_l. Qed.

Lemma byteAt_take (n i : nat) (p : list Z) :
  (i < n)%nat → byteAt (take n p) i = byteAt p i.
Proof. intros Hi. unfold byteAt. by rewrite lookup_take_lt. Qed.

Lemma handleNotePacket_skip payload len s :
  len ≠ 7 ∨ readId payload = myNodeId s →
  handleNotePacket payload len s = s.
Proof.
  intros Hskip. unfold handleNotePacket.
  destruct (Z.eqb_spec len 7) as [->|]; [|done]. cbn.
  destruct Hskip as [|Hid]; [done|]. by rewrite Hid, Z.eqb_refl.
Qed.

Lemma dispatch_note payload len s :
  dispatch RS485_NOTE_MSG payload len s = handleNotePacket payload len s.
Proof. reflexivity. Qed.

(** Only the NOTE handler makes remote-note callbacks. *)
Lemma remoteNotes_dispatch_other type payload len s :
  type ≠ RS485_NOTE_MSG →
  remoteNotes (out (dispatch type payload len s)) = remoteNotes (out s).
Proof.
  intros Hty. unfold dispatch.
  destruct (type =? RS485_ANNOUNCE_MSG).
  { unfold handleAnnouncePacket. destruct (negb (len =? 5)); [done|].
    destruct (out_registerNode (readId payload) (byteAt payload 4) s)
      as [->| ->]; [done|apply remoteNotes_bus]. }
  destruct (Z.eqb_spec type RS485_NOTE_MSG); [done|].
  destruct (type =? RS485_PING_MSG).
  { unfold handlePingPacket, rs485SendPacket.
    destruct (negb (len =? 1)); [done|]. apply remoteNotes_bus. }
  destruct (type =? RS485_PING_REPLY_MSG).
  { unfold handlePingReplyPacket. by repeat case_match. }
  by destruct (type =? RS485_REMAP_REQUEST_MSG).
Qed.

(** C10.  A NOTE frame that carries the board's own identity is dropped:
    the handler returns the board as it was, so no remote note-on or
    note-off callback is made and no state changes; fed as a frame to a
    parser seeking START, only the parser's own fields change.  A handler
    run makes a remote-note callback only for a NOTE frame of length 7
    with another identity, and then makes exactly one: note-on when the
    on/off byte is non-zero, note-off otherwise. *)
Theorem own_note_frame_discarded
    (s : Board) (type len : Z) (payload : list Z) :
  let s' := dispatch type payload len s in
  (type = RS485_NOTE_MSG → readId payload = myNodeId s → s' = s)
  ∧ (remoteNotes (out s') ≠ remoteNotes (out s) →
     type = RS485_NOTE_MSG ∧ len = 7 ∧ readId payload ≠ myNodeId s)
  ∧ (type = RS485_NOTE_MSG → len = 7 → readId payload ≠ myNodeId s →
     out s' = out s ++
       [if byteAt payload 6 =? 0 then RemoteNoteOff (byteAt payload 4)
        else RemoteNoteOn (byteAt payload 4) (byteAt payload 5)])
  ∧ (readId payload = myNodeId s →
     rx_state (rx s) = 0 → length (rx_buf (rx s)) = 32%nat →
     (7 <= length payload)%nat →
     ∃ r, rx_state r = 0
          ∧ processRs485 (frameBytes RS485_NOTE_MSG payload 7) s
            = set_rx r s).
Proof.
  intros s'. subst s'. split; [|split; [|split]].
  - intros -> Hid. rewrite dispatch_note.
    apply handleNotePacket_skip. by right.
  - intros Hfire.
    destruct (Z.eq_dec type RS485_NOTE_MSG) as [->|Hty];
      [|by rewrite remoteNotes_dispatch_other in Hfire].
    rewrite dispatch_note in Hfire.
    destruct (Z.eq_dec len 7) as [->|Hlen];
      [|by rewrite handleNotePacket_skip in Hfire by (by left)].
    destruct (Z.eq_dec (readId payload) (myNodeId s)) as [Hid|Hid];
      [|done].
    by rewrite handleNotePacket_skip in Hfire by (by right).
  - intros -> -> Hid. rewrite dispatch_note. unfold handleNotePacket. cbn.
    destruct (Z.eqb_spec (readId payload) (myNodeId s)); [done|].
    unfold onRemoteNoteOn, onRemoteNoteOff.
    by destruct (byteAt payload 6 =? 0).
  - intros Hid Hst Hbuf Hlen.
    eexists. split; [|rewrite processRs485_frame;
                       [|done|done|unfold RX_BUF_SIZE; lia|lia]].
    2:{ f_equal. rewrite dispatch_note. apply handleNotePacket_skip.
        right. rewrite <- Hid. unfold readId.
        rewrite !byteAt_app_l, !byteAt_take;
          first [lia | rewrite length_take; lia | reflexivity]. }
    reflexivity.
Qed.

(** ** The node registry *)

Section registry.
Implicit Types (nodes : list NodeInfo) (nid bidx : Z) (n : NodeInfo).

Lemma nodeId_overwrite nid bidx n : nodeId (overwrite nid bidx n) = nodeId n.
Proof. unfold overwrite. by destruct (nodeId n =? nid). Qed.

Lemma ids_overwrite nid bidx nodes :
  nodeId <$> (overwrite nid bidx <$> nodes) = nodeId <$> nodes.
Proof.
  rewrite <- list_fmap_compose. apply list_fmap_ext.
  intros i n _. apply nodeId_overwrite.
Qed.

Lemma overwrite_absent nid bidx nodes :
  nid ∉ (nodeId <$> nodes) → overwrite nid bidx <$> nodes = nodes.
Proof.
  induction nodes as [|n nodes IH]; [done|].
  rewrite fmap_cons, not_elem_of_cons. intros [Hne Hnot].
  cbn. rewrite IH by done. unfold overwrite.
  by destruct (Z.eqb_spec (nodeId n) nid).
Qed.

Lemma updateNode_None nid bidx nodes :
  updateNode nid bidx nodes = None ↔ nid ∉ (nodeId <$> nodes).
Proof.
  induction nodes as [|n nodes IH]; cbn.
  { split; [intros _; apply not_elem_of_nil|done]. }
  destruct (Z.eqb_spec (nodeId n) nid) as [Heq|Hne].
  - split; [done|]. intros Hnot. exfalso. apply Hnot. subst nid. left.
  - destruct (updateNode nid bidx nodes); cbn.
    + split; [done|]. intros Hnot. exfalso.
      assert (Hrest : nid ∉ (nodeId <$> nodes))
        by (intros ?; apply Hnot; by right).
      by apply IH in Hrest.
    + split; [|done]. intros _ Hin.
      apply elem_of_cons in Hin as [?|Hin]; [congruence|].
      by apply (proj1 IH).
Qed.

(** With unique identities the search loop rewrites exactly the entry of
    [nid], where it stands. *)
Lemma updateNode_Some nid bidx nodes :
  NoDup (nodeId <$> nodes) → nid ∈ (nodeId <$> nodes) →
  updateNode nid bidx nodes = Some (overwrite nid bidx <$> nodes).
Proof.
  induction nodes as [|n nodes IH]; intros Hnd Hin.
  { by apply elem_of_nil in Hin. }
  rewrite fmap_cons in Hnd, Hin.
  apply NoDup_cons in Hnd as [Hnot Hnd]. apply elem_of_cons in Hin.
  cbn. unfold overwrite at 1.
  destruct (Z.eqb_spec (nodeId n) nid) as [Heq|Hne].
  - subst nid. by rewrite overwrite_absent.
  - destruct Hin as [?|Hin]; [done|]. by rewrite IH.
Qed.

Lemma registerList_present nid bidx nodes :
  NoDup (nodeId <$> nodes) → nid ∈ (nodeId <$> nodes) →
  registerList nid bidx nodes = (overwrite nid bidx <$> nodes, false).
Proof. intros Hnd Hin. unfold registerList. by rewrite updateNode_Some. Qed.

Lemma registerList_new nid bidx nodes :
  nid ∉ (nodeId <$> nodes) → Z.of_nat (length nodes) < RS485_MAX_NODES →
  registerList nid bidx nodes = (nodes ++ [mkNode nid bidx], true).
Proof.
  intros Hnot Hlen. unfold registerList.
  rewrite (proj2 (updateNode_None nid bidx nodes) Hnot).
  by destruct (Z.ltb_spec (Z.of_nat (length nodes)) RS485_MAX_NODES);
    [|lia].
Qed.

Lemma registerList_full nid bidx nodes :
  nid ∉ (nodeId <$> nodes) → RS485_MAX_NODES <= Z.of_nat (length nodes) →
  registerList nid bidx nodes = (nodes, false).
Proof.
  intros Hnot Hlen. unfold registerList.
  rewrite (proj2 (updateNode_None nid bidx nodes) Hnot).
  by destruct (Z.ltb_spec (Z.of_nat (length nodes)) RS485_MAX_NODES);
    [lia|].
Qed.

(** The three cases of a call. *)
Lemma registerList_cases nid bidx nodes :
  NoDup (nodeId <$> nodes) →
  (nid ∈ (nodeId <$> nodes)
   ∧ registerList nid bidx nodes = (overwrite nid bidx <$> nodes, false))
  ∨ ((nid ∉ (nodeId <$> nodes))
     ∧ (Z.of_nat (length nodes) < RS485_MAX_NODES)
     ∧ registerList nid bidx nodes = (nodes ++ [mkNode nid bidx], true))
  ∨ ((nid ∉ (nodeId <$> nodes))
     ∧ (RS485_MAX_NODES <= Z.of_nat (length nodes))
     ∧ registerList nid bidx nodes = (nodes, false)).
Proof.
  intros Hnd.
  destruct (decide (nid ∈ (nodeId <$> nodes))) as [Hin|Hnot].
  { left. split; [done|]. by apply registerList_present. }
  right.
  destruct (Z_lt_le_dec (Z.of_nat (length nodes)) RS485_MAX_NODES).
  - left. repeat split; [done|done|]. by apply registerList_new.
  - right. repeat split; [done|done|]. by apply registerList_full.
Qed.

Lemma registerList_regOK nid bidx nodes :
  regOK nodes → regOK (registerList nid bidx nodes).1.
Proof.
  intros [Hnd Hlen].
  destruct (registerList_cases nid bidx nodes Hnd)
    as [[Hin ->]|[(Hnot & Hlt & ->)|(Hnot & Hge & ->)]]; cbn [fst].
  - split; [by rewrite ids_overwrite|by rewrite length_fmap].
  - split.
    + rewrite fmap_app. apply NoDup_app. repeat split; [done| |].
      * intros x Hx Hx'. cbn in Hx'. apply list_elem_of_singleton in Hx'.
        by subst x.
      * apply NoDup_singleton.
    + rewrite length_app. cbn. lia.
  - done.
Qed.

(** After a call, an entry either is the one just registered or was
    there before under another identity. *)
Lemma registerList_elem nid bidx nodes n :
  NoDup (nodeId <$> nodes) → n ∈ (registerList nid bidx nodes).1 →
  (nodeId n = nid ∧ boardIndex n = bidx) ∨ (nodeId n ≠ nid ∧ n ∈ nodes).
Proof.
  intros Hnd.
  destruct (registerList_cases nid bidx nodes Hnd)
    as [[Hin ->]|[(Hnot & Hlt & ->)|(Hnot & Hge & ->)]]; cbn [fst].
  - intros (n0 & -> & Hn0)%list_elem_of_fmap. unfold overwrite.
    destruct (Z.eqb_spec (nodeId n0) nid); [by left|by right].
  - intros [Hn| ->%list_elem_of_singleton]%elem_of_app; [|by left].
    right. split; [|done]. intros <-. apply Hnot.
    by apply list_elem_of_fmap_2.
  - intros Hn. right. split; [|done]. intros <-. apply Hnot.
    by apply list_elem_of_fmap_2.
Qed.

Lemma nodeList_registerNode nid bidx s :
  nodeList (registerNode nid bidx s) = (registerList nid bidx (nodeList s)).1.
Proof.
  unfold registerNode.
  destruct (registerList nid bidx (nodeList s)) as [nodes' added].
  board_simpl.
  by destruct (discoveryDone s && added && (myBoardIndex s =? 0)).
Qed.

Lemma lastRegistered_snoc nid calls c :
  lastRegistered nid (calls ++ [c])
  = if c.1 =? nid then Some c.2 else lastRegistered nid calls.
Proof. unfold lastRegistered. by rewrite foldl_snoc. Qed.

Lemma registerSeq_snoc calls c s :
  registerSeq (calls ++ [c]) s = registerNode c.1 c.2 (registerSeq calls s).
Proof. unfold registerSeq. by rewrite foldl_snoc. Qed.

(** Along any run of calls from an empty registry the invariant holds
    and every entry records the last position registered for it. *)
Lemma registerSeq_inv calls s :
  nodeList s = [] →
  regOK (nodeList (registerSeq calls s))
  ∧ ∀ n, n ∈ nodeList (registerSeq calls s) →
         lastRegistered (nodeId n) calls = Some (boardIndex n).
Proof.
  intros Hempty. induction calls as [|c calls [IHok IHlast]] using rev_ind.
  { cbn. rewrite Hempty. split.
    - split; [apply NoDup_nil_2|cbn; unfold RS485_MAX_NODES; lia].
    - intros n Hn. by apply elem_of_nil in Hn. }
  rewrite registerSeq_snoc, nodeList_registerNode. split.
  { by apply registerList_regOK. }
  intros n Hn. rewrite lastRegistered_snoc.
  apply registerList_elem in Hn as [[Hid Hidx]|[Hid Hn]]; [| |apply IHok].
  - rewrite Hid, Z.eqb_refl. by rewrite Hidx.
  - destruct (Z.eqb_spec c.1 (nodeId n)); [done|]. by apply IHlast.
Qed.
End registry.

(** A board whose identity is [0x01020304] receives its own note-on. *)
Lemma own_note_frame_discarded_witness :
  dispatch RS485_NOTE_MSG [4; 3; 2; 1; 60; 100; 1] 7 (bootBoard 0x01020304)
  = bootBoard 0x01020304.
Proof.
  apply (proj1 (own_note_frame_discarded (bootBoard 0x01020304)
                  RS485_NOTE_MSG 7 [4; 3; 2; 1; 60; 100; 1]));
    reflexivity.
Defined.

(** C7.  After any run of [registerNode] calls from an empty registry the
    identities in the registry are pairwise distinct and there are at most
    16 entries, and every entry records the position most recently
    registered for its identity.  One more call for an identity that is
    present rewrites that entry where it stands (same length, same order);
    for a new identity it appends while fewer than 16 entries are used and
    leaves the registry as it is when 16 are. *)
Theorem registry_invariants (s : Board) (calls : list (Z * Z)) :
  nodeList s = [] →
  let s' := registerSeq calls s in
  let reg := nodeList s' in
  NoDup (nodeId <$> reg)
  ∧ (Z.of_nat (length reg) <= 16)
  ∧ (∀ n, n ∈ reg → lastRegistered (nodeId n) calls = Some (boardIndex n))
  ∧ (∀ nid bidx, nid ∈ (nodeId <$> reg) →
       nodeList (registerNode nid bidx s') = overwrite nid bidx <$> reg
       ∧ length (nodeList (registerNode nid bidx s')) = length reg
       ∧ mkNode nid bidx ∈ nodeList (registerNode nid bidx s'))
  ∧ (∀ nid bidx, nid ∉ (nodeId <$> reg) → length reg = 16%nat →
       nodeList (registerNode nid bidx s') = reg)
  ∧ (∀ nid bidx, nid ∉ (nodeId <$> reg) → (length reg < 16)%nat →
       nodeList (registerNode nid bidx s') = reg ++ [mkNode nid bidx]).
Proof.
  intros Hempty s' reg.
  destruct (registerSeq_inv calls s Hempty) as [[Hnd Hlen] Hlast].
  fold s' in Hnd, Hlen, Hlast. fold reg in Hnd, Hlen, Hlast.
  split; [done|]. split; [done|]. split; [done|].
  split; [|split].
  - intros nid bidx Hin. rewrite nodeList_registerNode. fold reg.
    rewrite registerList_present by done. cbn [fst].
    split; [done|]. split; [by rewrite length_fmap|].
    apply list_elem_of_fmap in Hin as (n & -> & Hn).
    apply list_elem_of_fmap. exists n. split; [|done].
    unfold overwrite. by rewrite Z.eqb_refl.
  - intros nid bidx Hnot Hfull. rewrite nodeList_registerNode. fold reg.
    rewrite registerList_full; [done|done|]. unfold RS485_MAX_NODES. lia.
  - intros nid bidx Hnot Hroom. rewrite nodeList_registerNode. fold reg.
    rewrite registerList_new; [done|done|]. unfold RS485_MAX_NODES. lia.
Qed.

(** Identity 1 registered at 0, identity 2 at 1, identity 1 again at 5. *)
Lemma registry_invariants_witness :
  nodeList (bootBoard 7) = []
  ∧ nodeList (registerSeq [(1, 0); (2, 1); (1, 5)] (bootBoard 7))
    = [mkNode 1 5; mkNode 2 1]
  ∧ NoDup (nodeId <$>
             nodeList (registerSeq [(1, 0); (2, 1); (1, 5)] (bootBoard 7))).
Proof.
  split; [reflexivity|]. split; [reflexivity|].
  apply (registry_invariants (bootBoard 7) [(1, 0); (2, 1); (1, 5)]).
  reflexivity.
Defined.

(** [added] is set exactly for an identity that is not yet present while
    fewer than 16 entries are used. *)
Lemma registerList_added nid bidx nodes :
  (registerList nid bidx nodes).2 = true
  ↔ (nid ∉ (nodeId <$> nodes))
    ∧ (Z.of_nat (length nodes) < RS485_MAX_NODES).
Proof.
  unfold registerList.
  destruct (updateNode nid bidx nodes) as [nodes'|] eqn:Hupd.
  - cbn. split; [done|]. intros [Hnot _].
    apply (updateNode_None nid bidx) in Hnot. congruence.
  - apply updateNode_None in Hupd.
    destruct (Z.ltb_spec (Z.of_nat (length nodes)) RS485_MAX_NODES); cbn.
    + done.
    + split; [done|]. intros [_ ?]. lia.
Qed.

(** C8.  [registerNode] writes a REMAP_REQUEST frame to the bus, sets the
    pending-remap flag and marks the network unhealthy exactly when
    discovery is done, the board is at position 0 and the call admits an
    identity that was not in the registry.  In every other case --
    a known identity, a full registry, discovery not done, another
    position -- it writes nothing and leaves both flags as they were. *)
Theorem new_node_triggers_remap (s : Board) (nid bidx : Z) :
  let s' := registerNode nid bidx s in
  let admitted :=
    (nid ∉ (nodeId <$> nodeList s))
    ∧ (Z.of_nat (length (nodeList s)) < RS485_MAX_NODES) in
  let trigger := discoveryDone s = true ∧ myBoardIndex s = 0 ∧ admitted in
  (trigger →
     out s' = out s ++ (BusWrite <$> [0xAA; 0; RS485_REMAP_REQUEST_MSG; 0x05])
     ∧ remapRequested s' = true
     ∧ networkHealthy s' = false)
  ∧ (¬ trigger →
     out s' = out s
     ∧ remapRequested s' = remapRequested s
     ∧ networkHealthy s' = networkHealthy s).
Proof.
  intros s' admitted trigger. subst s'. unfold registerNode.
  pose proof (registerList_added nid bidx (nodeList s)) as Hadded.
  destruct (registerList nid bidx (nodeList s)) as [nodes' added].
  cbn [snd] in Hadded. board_simpl.
  assert (Hdec : discoveryDone s && added && (myBoardIndex s =? 0) = true
                 ↔ trigger).
  { subst trigger admitted. rewrite !andb_true_iff, Z.eqb_eq, <- Hadded.
    tauto. }
  destruct (discoveryDone s && added && (myBoardIndex s =? 0));
    board_simpl; split.
  - intros _. unfold rs485SendPacket. board_simpl. done.
  - intros Hno. exfalso. apply Hno. by apply Hdec.
  - intros Htr. by apply Hdec in Htr.
  - done.
Qed.

(** A converged root admitting a first foreign identity. *)
Lemma new_node_triggers_remap_witness :
  let s := set_discoveryDone true (bootBoard 7) in
  out (registerNode 9 1 s) = BusWrite <$> [0xAA; 0; 0x05; 0x05]
  ∧ remapRequested (registerNode 9 1 s) = true
  ∧ networkHealthy (registerNode 9 1 s) = false.
Proof.
  apply (proj1 (new_node_triggers_remap
                  (set_discoveryDone true (bootBoard 7)) 9 1)).
  split; [reflexivity|]. split; [reflexivity|].
  split; [by intros Hin; apply elem_of_nil in Hin|].
  unfold RS485_MAX_NODES. cbn. lia.
Defined.

(** ** The ping cycle *)

Lemma pingMissing_false count (flags : list bool) :
  pingMissing count flags = false
  ↔ ∀ i, (i < count)%nat → flags !! i = Some true.
Proof.
  unfold pingMissing. split.
  - intros Hnone i Hi.
    destruct (flags !! i) as [[|]|] eqn:Hflag; [done| |];
      exfalso; apply not_true_iff_false in Hnone; apply Hnone;
      apply existsb_exists; exists i;
      (split; [apply in_seq; lia|by rewrite Hflag]).
  - intros Hall. apply not_true_iff_false.
    intros (i & Hi & Hneg)%existsb_exists. apply in_seq in Hi.
    rewrite Hall in Hneg by lia. done.
Qed.

(** C3.  On the board at position 0 with more than one board known, while
    replies are awaited and once the reply window has run out: if the slot
    of every registry entry is marked received, the network is marked
    healthy, nothing is written to the bus and no remap is requested;
    otherwise the network is marked unhealthy, one REMAP_REQUEST frame is
    written and a remap is pending.  Either way the cycle is over, and a
    later pass of the monitor can only do nothing or start a new cycle with
    a PING, so the cycle produces no second REMAP_REQUEST. *)
Theorem ping_window_expiry (s : Board) (nowMs pingMs : Z) :
  myBoardIndex s = 0 → totalBoards s > 1 →
  awaitingPingReplies s = true →
  u32 (nowMs - pingStartMs s) > PING_TIMEOUT_MS →
  let s' := healthMonitor nowMs pingMs s in
  let allReplied :=
    ∀ i, (i < length (nodeList s))%nat → pingReceived s !! i = Some true in
  awaitingPingReplies s' = false
  ∧ (allReplied →
       networkHealthy s' = true ∧ out s' = out s
       ∧ remapRequested s' = remapRequested s)
  ∧ (¬ allReplied →
       networkHealthy s' = false
       ∧ out s' = out s
                  ++ (BusWrite <$> [0xAA; 0; RS485_REMAP_REQUEST_MSG; 0x05])
       ∧ remapRequested s' = true)
  ∧ (∀ now' ping',
       healthMonitor now' ping' s' = s'
       ∨ healthMonitor now' ping' s' = set_lastPingMs now' (sendPing ping' s')).
Proof.
  intros Hroot Htotal Hwait Hexp s' allReplied.
  assert (Hs' : s' =
    let s1 := set_awaitingPingReplies false s in
    if pingMissing (length (nodeList s)) (pingReceived s) then
      set_remapRequested true
        (rs485SendPacket RS485_REMAP_REQUEST_MSG [0] 0
           (set_networkHealthy false s1))
    else set_networkHealthy true s1).
  { subst s'. unfold healthMonitor. rewrite Hroot, Hwait. cbn [negb andb].
    destruct (Z.gtb_spec (totalBoards s) 1); [|lia].
    destruct (Z.gtb_spec (u32 (nowMs - pingStartMs s)) PING_TIMEOUT_MS);
      [|lia].
    reflexivity. }
  pose proof (pingMissing_false (length (nodeList s)) (pingReceived s))
    as Hmiss.
  fold allReplied in Hmiss. cbn zeta in Hs'.
  destruct (pingMissing (length (nodeList s)) (pingReceived s)).
  - assert (Hnot : ¬ allReplied) by (intros Hall; by apply Hmiss in Hall).
    rewrite Hs'. unfold rs485SendPacket. board_simpl.
    split; [done|]. split; [done|]. split; [done|].
    intros now' ping'. unfold healthMonitor. board_simpl.
    rewrite Hroot. cbn [negb andb].
    repeat case_match; auto.
  - assert (Hall : allReplied) by (by apply Hmiss).
    rewrite Hs'. board_simpl.
    split; [done|]. split; [done|]. split; [done|].
    intros now' ping'. unfold healthMonitor. board_simpl.
    rewrite Hroot. cbn [negb andb].
    repeat case_match; auto.
Qed.

(** A root with one other board known whose reply did not arrive. *)
Lemma ping_window_expiry_witness :
  let s := mkBoard 7 [mkNode 7 0; mkNode 9 1] 0 2 true false false true
                   GLOBAL_BASE_NOTE false rxInit 1 true 1000 1000
                   (true :: replicate 15 false) [] in
  networkHealthy (healthMonitor 1201 1201 s) = false
  ∧ out (healthMonitor 1201 1201 s) = BusWrite <$> [0xAA; 0; 0x05; 0x05]
  ∧ remapRequested (healthMonitor 1201 1201 s) = true.
Proof.
  intros s.
  apply (ping_window_expiry s 1201 1201);
    [reflexivity | reflexivity | reflexivity | reflexivity |].
  intros Hall. specialize (Hall 1%nat). cbn in Hall.
  assert (Hlt : (1 < 2)%nat) by lia. by specialize (Hall Hlt).
Defined.

(** ** Chain discovery: positions *)

Lemma maxKnownIdx_highestAssigned start nodes :
  0 <= start →
  maxKnownIdx start nodes = Z.max start (highestAssigned nodes).
Proof.
  unfold maxKnownIdx, highestAssigned. revert start.
  induction nodes as [|n nodes IH]; intros start Hstart; cbn; [lia|].
  destruct (Z.eqb_spec (boardIndex n) 255) as [_|_]; cbn [negb andb].
  - by apply IH.
  - destruct (Z.gtb_spec (boardIndex n) start); rewrite IH; lia.
Qed.

Lemma highestAssigned_range nodes :
  byteIndices nodes → 0 <= highestAssigned nodes <= 254.
Proof.
  unfold highestAssigned.
  induction 1 as [|n nodes Hn _ IH]; cbn; [lia|].
  destruct (Z.eqb_spec (boardIndex n) 255); lia.
Qed.

(** [highestAssigned] is the greatest index other than [0xFF] in the
    registry, and 0 when that is below 0 or there is none. *)
Lemma highestAssigned_spec nodes :
  0 <= highestAssigned nodes
  ∧ (∀ n, n ∈ nodes → boardIndex n ≠ 0xFF →
          boardIndex n <= highestAssigned nodes)
  ∧ (highestAssigned nodes = 0
     ∨ ∃ n, n ∈ nodes ∧ boardIndex n ≠ 0xFF
            ∧ boardIndex n = highestAssigned nodes).
Proof.
  unfold highestAssigned.
  induction nodes as [|n nodes (IH0 & IHle & IHmax)]; cbn.
  { split; [lia|]. split; [|by left]. intros n Hn. by apply elem_of_nil in Hn. }
  destruct (Z.eqb_spec (boardIndex n) 255) as [Hff|Hff].
  - split; [done|]. split.
    + intros n' [->|Hn']%elem_of_cons Hne; [done|by apply IHle].
    + destruct IHmax as [?|(n' & Hn' & Hne & Heq)]; [by left|].
      right. exists n'. split; [by right|done].
  - split; [lia|]. split.
    + intros n' [->|Hn']%elem_of_cons Hne; [lia|].
      specialize (IHle n' Hn' Hne). lia.
    + destruct (Z.max_spec (boardIndex n)
                  (foldr (fun n0 m => if boardIndex n0 =? 255 then m
                                      else boardIndex n0 `max` m) 0 nodes))
        as [[_ ->]|[_ ->]].
      * destruct IHmax as [?|(n' & Hn' & Hne & Heq)]; [by left|].
        right. exists n'. split; [by right|done].
      * right. exists n. split; [by left|done].
Qed.

(** Without an [0xFF] entry the two maxima agree. *)
Lemma highestAssigned_highestKnown nodes :
  Forall (fun n => boardIndex n ≠ 0xFF) nodes →
  highestAssigned nodes = highestKnown nodes.
Proof.
  unfold highestAssigned, highestKnown.
  induction 1 as [|n nodes Hn _ IH]; cbn; [done|].
  destruct (Z.eqb_spec (boardIndex n) 255); [done|]. by rewrite IH.
Qed.

Lemma registerNode_quiet nid bidx s :
  discoveryDone s = false →
  registerNode nid bidx s
  = set_nodeList (registerList nid bidx (nodeList s)).1 s.
Proof.
  intros Hrun. unfold registerNode.
  destruct (registerList nid bidx (nodeList s)) as [nodes' added].
  board_simpl. by rewrite Hrun.
Qed.

(** A turn without a falling edge, or of a board that has its position,
    only drains the bus. *)
Lemma discoveryTurn_no_edge tStart leftPrev tk s :
  leftPrev = false ∨ tk_left tk = true
  ∨ myBoardIndex (processRs485 (tk_rx tk) s) ≠ 0xFF →
  (discoveryTurn tStart leftPrev tk s).1 = processRs485 (tk_rx tk) s.
Proof.
  intros Hno. unfold discoveryTurn. cbn [fst].
  destruct Hno as [->|[->|Hset]];
    [done|by rewrite andb_false_r|].
  destruct (Z.eqb_spec (myBoardIndex (processRs485 (tk_rx tk) s)) 255);
    [done|by rewrite andb_false_r].
Qed.

(** C1.  In a turn of the wait loop in which the board is still
    unassigned after the bus has been drained, the previous sample of the
    left input was HIGH and the present one is LOW, the board takes as its
    position one more than the highest position in its registry, 0
    standing for "none"; it writes an ANNOUNCE frame with its identity and
    that position, enters itself in the registry, and then pulses the
    right output low and high.  Positions are 0..254: an entry whose index
    byte is [0xFF], the value a board holds while it has no position, is
    not a position and is passed over by the scan ([highestAssigned]);
    on a registry of positions the result is one more than the plain
    maximum ([highestKnown]). *)
Theorem edge_assigns_next_position (tStart : Z) (tk : Tick) (s : Board) :
  let s1 := processRs485 (tk_rx tk) s in
  let pos := highestAssigned (nodeList s1) + 1 in
  let s' := (discoveryTurn tStart true tk s).1 in
  myBoardIndex s1 = 0xFF → discoveryDone s1 = false →
  tk_left tk = false → byteIndices (nodeList s1) →
  myBoardIndex s' = pos
  ∧ out s' = out s1
             ++ (BusWrite <$> frameBytes RS485_ANNOUNCE_MSG
                                (idBytes (myNodeId s1) ++ [pos]) 5)
             ++ [RightPin false; RightPin true]
  ∧ nodeList s' = (registerList (myNodeId s1) pos (nodeList s1)).1
  ∧ (Forall (fun n => boardIndex n ≠ 0xFF) (nodeList s1) →
     pos = highestKnown (nodeList s1) + 1).
Proof.
  intros s1 pos s' Hun Hrun Hlow Hbytes.
  assert (Hplain : Forall (fun n => boardIndex n ≠ 0xFF) (nodeList s1) →
                   pos = highestKnown (nodeList s1) + 1)
    by (intros Hno; subst pos; by rewrite highestAssigned_highestKnown).
  pose proof (highestAssigned_range _ Hbytes) as Hrange.
  subst s'. unfold discoveryTurn. fold s1. rewrite Hlow, Hun.
  cbn [negb andb fst]. change (255 =? 255) with true. cbn iota.
  unfold assignOnEdge. rewrite Hun. change (255 =? 255) with true.
  cbn iota. rewrite maxKnownIdx_highestAssigned by lia.
  rewrite Z.max_r by lia. fold pos.
  replace (u8 pos) with pos by (unfold u8; subst pos; rewrite Z.mod_small; lia).
  unfold pulseRightNeighbor, sendIdAnnounce, rs485SendPacket. board_simpl.
  rewrite registerNode_quiet by done. board_simpl.
  by rewrite <- app_assoc.
Qed.

(** Three boards have announced positions 2, 8 and 5 when the edge
    arrives: the board takes position 9, one more than the highest of
    them, which is not the last one received.  It takes 9 as well when a
    further entry carries [0xFF]. *)
Lemma edge_assigns_next_position_witness :
  nodeList (processRs485 (tk_rx chainTick) waitingBoard)
  = [mkNode 4 2; mkNode 5 8; mkNode 6 5]
  ∧ myBoardIndex (discoveryTurn 0 true chainTick waitingBoard).1
    = highestKnown (nodeList (processRs485 (tk_rx chainTick) waitingBoard))
      + 1
  ∧ myBoardIndex (discoveryTurn 0 true chainTick waitingBoard).1 = 9
  ∧ nodeList (processRs485 (tk_rx edgeTick) waitingBoard)
    = [mkNode 4 2; mkNode 5 8; mkNode 6 5; mkNode 9 0xFF]
  ∧ myBoardIndex (discoveryTurn 0 true edgeTick waitingBoard).1 = 9.
Proof.
  assert (Hreg : nodeList (processRs485 (tk_rx chainTick) waitingBoard)
                 = [mkNode 4 2; mkNode 5 8; mkNode 6 5])
    by (by vm_compute).
  assert (Hreg' : nodeList (processRs485 (tk_rx edgeTick) waitingBoard)
                  = [mkNode 4 2; mkNode 5 8; mkNode 6 5; mkNode 9 0xFF])
    by (by vm_compute).
  assert (Hbytes : byteIndices
                     (nodeList (processRs485 (tk_rx chainTick) waitingBoard)))
    by (rewrite Hreg; repeat constructor).
  assert (Hpos : Forall (fun n => boardIndex n ≠ 0xFF)
                   (nodeList (processRs485 (tk_rx chainTick) waitingBoard)))
    by (rewrite Hreg; repeat (constructor; [by vm_compute|]); constructor).
  assert (Hbytes' : byteIndices
                      (nodeList (processRs485 (tk_rx edgeTick) waitingBoard)))
    by (rewrite Hreg'; repeat constructor).
  destruct (edge_assigns_next_position 0 chainTick waitingBoard
              eq_refl eq_refl eq_refl Hbytes) as (Hidx & _ & _ & Hplain).
  destruct (edge_assigns_next_position 0 edgeTick waitingBoard
              eq_refl eq_refl eq_refl Hbytes') as (Hidx' & _).
  split; [exact Hreg|].
  split; [by rewrite Hidx, (Hplain Hpos)|].
  split; [by rewrite Hidx, Hreg|].
  split; [exact Hreg'|].
  by rewrite Hidx', Hreg'.
Defined.

(** C2, counterexample to the specification's wording.  The board is at
    position 9 and its registry holds positions 8, 9 and 255.  The code
    sets the board count to 10, not to 255 + 1, and the note base to 8,
    not to 48 + 9 * 24. *)
Lemma finish_totals_counterexample :
  discoveryLoop 0 true (de_ticks tenthBoardEnv)
    (discoveryBegin tenthBoardEnv (bootBoard 7)) = Some tenthBoard
  ∧ totalBoards (discoveryFinish tenthBoard) = 10
  ∧ highestKnown (nodeList tenthBoard) + 1 = 256
  ∧ boardBaseNote (discoveryFinish tenthBoard) = 8
  ∧ GLOBAL_BASE_NOTE + 9 * BOARD_NOTE_SPAN = 264
  ∧ ¬ finish_as_stated tenthBoard.
Proof.
  split; [by vm_compute|]. split; [by vm_compute|]. split; [by vm_compute|].
  split; [by vm_compute|]. split; [by vm_compute|].
  unfold finish_as_stated. intros (_ & _ & Hbase). by vm_compute in Hbase.
Qed.

(** C2 (amended).  After the wait loop: a board that is still unassigned
    takes position 0; the board count is one more than the highest of the
    board's own position and the positions in its registry, entries with
    index [0xFF] left aside; the note base is 48 plus 24 times the board's
    position, reduced modulo 256 as the 8-bit variable holds it, which is
    that sum itself for positions up to 8.  When no registry entry has
    index [0xFF] the count is one more than the highest position known. *)
Theorem discovery_finish_totals (s : Board) :
  let own := if myBoardIndex s =? 0xFF then 0 else myBoardIndex s in
  let s' := discoveryFinish s in
  0 <= myBoardIndex s < 256 → byteIndices (nodeList s) →
  (myBoardIndex s = 0xFF → myBoardIndex s' = 0)
  ∧ myBoardIndex s' = own
  ∧ totalBoards s' = Z.max own (highestAssigned (nodeList s)) + 1
  ∧ boardBaseNote s' = (GLOBAL_BASE_NOTE + own * BOARD_NOTE_SPAN) mod 256
  ∧ (own <= 8 → boardBaseNote s' = GLOBAL_BASE_NOTE + own * BOARD_NOTE_SPAN)
  ∧ (Forall (fun n => boardIndex n ≠ 0xFF) (nodeList s) →
     totalBoards s' = Z.max own (highestKnown (nodeList s)) + 1).
Proof.
  intros own s' Hidx Hbytes.
  pose proof (highestAssigned_range _ Hbytes) as Hrange.
  assert (Hown : 0 <= own <= 254).
  { subst own. destruct (Z.eqb_spec (myBoardIndex s) 255); lia. }
  assert (Hmy : myBoardIndex s' = own).
  { subst s' own. unfold discoveryFinish. board_simpl.
    by destruct (myBoardIndex s =? 255). }
  assert (Hbase : boardBaseNote s'
                  = (GLOBAL_BASE_NOTE + own * BOARD_NOTE_SPAN) mod 256).
  { subst s' own. unfold discoveryFinish. board_simpl.
    by destruct (myBoardIndex s =? 255). }
  assert (Htotal : totalBoards s'
                   = Z.max own (highestAssigned (nodeList s)) + 1).
  2:{ split; [|split; [done|split; [done|split; [done|split]]]].
      - intros H255. rewrite Hmy. subst own. by rewrite H255.
      - intros Hsmall. rewrite Hbase.
        unfold GLOBAL_BASE_NOTE, BOARD_NOTE_SPAN. rewrite Z.mod_small; lia.
      - intros Hno. by rewrite Htotal, highestAssigned_highestKnown. }
  - subst s'. unfold discoveryFinish. board_simpl. fold own.
    rewrite maxKnownIdx_highestAssigned by lia.
    assert (Htot : totalBoards
              (if myBoardIndex s =? 255
               then set_myBoardIndex 0
                      (set_totalBoards
                         (u8 (own `max` highestAssigned (nodeList s) + 1)) s)
               else set_totalBoards
                      (u8 (own `max` highestAssigned (nodeList s) + 1)) s)
            = u8 (own `max` highestAssigned (nodeList s) + 1))
      by (by destruct (myBoardIndex s =? 255)).
    rewrite Htot. unfold u8. rewrite Z.mod_small; lia.
Qed.

(** The third board of a chain: position 2, positions 0, 1 and 2 known. *)
Lemma discovery_finish_totals_witness :
  let s := mkBoard 7 [mkNode 3 0; mkNode 5 1; mkNode 7 2] 2 1 false false
                   true false GLOBAL_BASE_NOTE true rxInit 0 false 0 0
                   (replicate 16 false) [] in
  totalBoards (discoveryFinish s) = 3 ∧ boardBaseNote (discoveryFinish s) = 96.
Proof.
  intros s.
  assert (Hidx : 0 <= myBoardIndex s < 256) by (cbn; lia).
  assert (Hbytes : byteIndices (nodeList s)) by (repeat constructor).
  destruct (discovery_finish_totals s Hidx Hbytes)
    as (_ & _ & Htotal & _ & Hbase).
  split; [exact Htotal|]. apply Hbase. cbn. lia.
Defined.

(** ** A remap request during a run *)

Ltac pv_open H :=
  let Hreq := fresh "Hreq" in
  let Heq := fresh "Heq" in
  destruct H as [Hreq Heq];
  match type of Heq with
  | flagsErased ?a = flagsErased ?b =>
      destruct a, b; unfold flagsErased in Heq; board_simpl; simplify_eq
  end.

Section pending.
Implicit Types (a b : Board).

Lemma pendingVariant_refl a : remapRequested a = true → pendingVariant a a.
Proof. by split. Qed.

Lemma pendingVariant_handleRemap payload len a :
  pendingVariant a (handleRemapRequestPacket payload len a).
Proof. by destruct a. Qed.

Lemma pv_registerNode nid bidx a b :
  pendingVariant a b →
  pendingVariant (registerNode nid bidx a) (registerNode nid bidx b).
Proof.
  intros Hpv. pv_open Hpv. unfold registerNode. board_simpl.
  destruct (registerList nid bidx _) as [nodes' added]. board_simpl.
  by destruct (_ && added && _).
Qed.

Lemma pv_dispatch type payload len a b :
  pendingVariant a b →
  pendingVariant (dispatch type payload len a) (dispatch type payload len b).
Proof.
  intros Hpv. unfold dispatch.
  destruct (type =? RS485_ANNOUNCE_MSG).
  { unfold handleAnnouncePacket. destruct (negb (len =? 5)); [done|].
    by apply pv_registerNode. }
  pv_open Hpv.
  unfold handleNotePacket, handlePingPacket, handlePingReplyPacket,
    handleRemapRequestPacket, onRemoteNoteOn, onRemoteNoteOff.
  board_simpl. by repeat case_match.
Qed.

Lemma pv_rx a b : pendingVariant a b → rx a = rx b.
Proof. intros Hpv. by pv_open Hpv. Qed.

Lemma pv_set_rx r a b :
  pendingVariant a b → pendingVariant (set_rx r a) (set_rx r b).
Proof. intros Hpv. by pv_open Hpv. Qed.

Lemma pv_processByte x a b :
  pendingVariant a b → pendingVariant (processByte a x) (processByte b x).
Proof.
  intros Hpv. unfold processByte. rewrite <- (pv_rx a b Hpv).
  destruct (rxStep (rx a) x) as [r' [[[t p] l]|]]; apply pv_set_rx;
    [by apply pv_dispatch|done].
Qed.

Lemma pv_processRs485 bytes a b :
  pendingVariant a b →
  pendingVariant (processRs485 bytes a) (processRs485 bytes b).
Proof.
  revert a b. unfold processRs485.
  induction bytes as [|x bytes IH]; intros a b Hpv; [done|].
  cbn. by apply IH, pv_processByte.
Qed.

Lemma pv_myBoardIndex a b :
  pendingVariant a b → myBoardIndex a = myBoardIndex b.
Proof. intros Hpv. by pv_open Hpv. Qed.

Lemma pv_myNodeId a b : pendingVariant a b → myNodeId a = myNodeId b.
Proof. intros Hpv. by pv_open Hpv. Qed.

Lemma pv_nodeList a b : pendingVariant a b → nodeList a = nodeList b.
Proof. intros Hpv. by pv_open Hpv. Qed.

Lemma pv_emit evs a b :
  pendingVariant a b → pendingVariant (emit evs a) (emit evs b).
Proof. intros Hpv. by pv_open Hpv. Qed.

Lemma pv_set_myBoardIndex v a b :
  pendingVariant a b →
  pendingVariant (set_myBoardIndex v a) (set_myBoardIndex v b).
Proof. intros Hpv. by pv_open Hpv. Qed.

Lemma pv_assignOnEdge a b :
  pendingVariant a b → pendingVariant (assignOnEdge a) (assignOnEdge b).
Proof.
  intros Hpv. unfold assignOnEdge, pulseRightNeighbor, sendIdAnnounce,
    rs485SendPacket.
  board_simpl.
  rewrite (pv_myNodeId a b), (pv_myBoardIndex a b), (pv_nodeList a b)
    by done.
  by apply pv_emit, pv_registerNode, pv_emit, pv_set_myBoardIndex.
Qed.

Lemma pv_discoveryTurn tStart leftPrev tk a b :
  pendingVariant a b →
  pendingVariant (discoveryTurn tStart leftPrev tk a).1
                 (discoveryTurn tStart leftPrev tk b).1
  ∧ (discoveryTurn tStart leftPrev tk a).2
    = (discoveryTurn tStart leftPrev tk b).2.
Proof.
  intros Hpv. apply (pv_processRs485 (tk_rx tk)) in Hpv.
  unfold discoveryTurn. cbn [fst snd].
  rewrite <- (pv_myBoardIndex _ _ Hpv).
  destruct (leftPrev && negb (tk_left tk)
            && (myBoardIndex (processRs485 (tk_rx tk) a) =? 255)).
  - apply pv_assignOnEdge in Hpv.
    by rewrite <- (pv_myBoardIndex _ _ Hpv).
  - by rewrite <- (pv_myBoardIndex _ _ Hpv).
Qed.

Lemma pv_discoveryLoop tStart ticks :
  ∀ leftPrev a b a',
    pendingVariant a b →
    discoveryLoop tStart leftPrev ticks a = Some a' →
    ∃ b', discoveryLoop tStart leftPrev ticks b = Some b'
          ∧ pendingVariant a' b'.
Proof.
  induction ticks as [|tk ticks IH]; intros leftPrev a b a' Hpv; [done|].
  cbn [discoveryLoop].
  destruct (u32 (tk_now tk - tStart) <? DISCOVERY_MAX_MS).
  2:{ intros [= <-]. by exists b. }
  destruct (pv_discoveryTurn tStart leftPrev tk a b Hpv) as [Hpv' Hbrk].
  destruct (discoveryTurn tStart leftPrev tk a) as [a2 brk].
  destruct (discoveryTurn tStart leftPrev tk b) as [b2 brk'].
  cbn [fst snd] in *. subst brk'. destruct brk.
  - intros [= <-]. by exists b2.
  - by apply IH.
Qed.

(** The end of the run leaves the request flag alone. *)
Lemma pv_discoveryFinish a b :
  pendingVariant a b →
  discoveryFinish b = set_remapRequested true (discoveryFinish a).
Proof.
  intros Hpv. pv_open Hpv. unfold discoveryFinish. board_simpl.
  by repeat case_match.
Qed.

Lemma pv_discoveryRest tStart leftPrev ticks a b aEnd :
  pendingVariant a b →
  discoveryRest tStart leftPrev ticks a = Some aEnd →
  discoveryRest tStart leftPrev ticks b
  = Some (set_remapRequested true aEnd).
Proof.
  unfold discoveryRest. intros Hpv Hrun.
  destruct (discoveryLoop tStart leftPrev ticks a) as [a'|] eqn:Ha;
    [|done].
  destruct (pv_discoveryLoop tStart ticks leftPrev a b a' Hpv Ha)
    as (b' & -> & Hpv').
  cbn in *. injection Hrun as <-. by rewrite (pv_discoveryFinish a' b').
Qed.
End pending.

(** C5, counterexample to the specification's wording.  The run is
    completed and reaches Done with the request still pending, and the
    next pass of the main loop performs a second run. *)
Lemma remap_cleared_counterexample :
  (discoveryDone <$> startDiscovery remapDuringRunEnv (bootBoard 7))
  = Some true
  ∧ (remapRequested <$> startDiscovery remapDuringRunEnv (bootBoard 7))
    = Some true
  ∧ (out <$> startDiscovery remapDuringRunEnv (bootBoard 7))
    = Some rootRunOut
  ∧ (out <$> (startDiscovery remapDuringRunEnv (bootBoard 7)
              ≫= loopRemap quietRunEnv))
    = Some (rootRunOut ++ rootRunOut)
  ∧ ¬ remap_cleared_as_stated remapDuringRunEnv (bootBoard 7).
Proof.
  split; [by vm_compute|]. split; [by vm_compute|].
  split; [by vm_compute|]. split; [by vm_compute|].
  intros Hspec.
  destruct (startDiscovery remapDuringRunEnv (bootBoard 7)) as [sEnd|] eqn:Hrun;
    [|by vm_compute in Hrun].
  destruct (Hspec sEnd Hrun) as [Hflag _].
  assert (Hpending : remapRequested <$> Some sEnd = Some true)
    by (rewrite <- Hrun; by vm_compute).
  cbn in Hpending. congruence.
Qed.

(** The wait loop ends whenever the clock reaches the budget: if one of
    the turns supplied reads a time at or past [DISCOVERY_MAX_MS], the loop
    returns. *)
Lemma discoveryLoop_total tStart ticks :
  ∀ leftPrev s,
    Exists (fun tk => DISCOVERY_MAX_MS <= u32 (tk_now tk - tStart)) ticks →
    is_Some (discoveryLoop tStart leftPrev ticks s).
Proof.
  induction ticks as [|tk ticks IH]; intros leftPrev s Hpast.
  { by apply Exists_nil in Hpast. }
  cbn [discoveryLoop].
  destruct (Z.ltb_spec (u32 (tk_now tk - tStart)) DISCOVERY_MAX_MS)
    as [Hin|Hout]; [|done].
  destruct (discoveryTurn tStart leftPrev tk s) as [s2 [|]]; [done|].
  apply IH. apply Exists_cons in Hpast as [Hhere|Hlater]; [lia|done].
Qed.

(** C5 (amended).  A REMAP_REQUEST handled while a run is in progress sets
    the request flag and clears the health flag and touches nothing else.
    The run is neither restarted nor aborted: from inside the wait loop it
    goes on over the same inputs and ends -- it does end, once the clock
    reaches the budget -- in the board it would have ended in without the
    request, except that the request flag is set: the end of the run sets
    "done" and "healthy" and clears "remapping" but does not clear the
    request.  The next pass of the main loop therefore clears the flag and
    performs one more run.  (The board [s] is the board when the handler
    is entered; the first of [ticks] carries what is left of the turn in
    which the frame arrived.) *)
Theorem remap_during_discovery
    (tStart : Z) (leftPrev : bool) (ticks : list Tick)
    (payload : list Z) (len : Z) (s : Board) (env : DiscoveryEnv) :
  Exists (fun tk => DISCOVERY_MAX_MS <= u32 (tk_now tk - tStart)) ticks →
  let s1 := handleRemapRequestPacket payload len s in
  flagsErased s1 = flagsErased s
  ∧ remapRequested s1 = true
  ∧ networkHealthy s1 = false
  ∧ ∃ sEnd,
      discoveryRest tStart leftPrev ticks s = Some sEnd
      ∧ discoveryRest tStart leftPrev ticks s1
        = Some (set_remapRequested true sEnd)
      ∧ discoveryDone sEnd = true
      ∧ isRemapping sEnd = false
      ∧ networkHealthy sEnd = true
      ∧ loopRemap env (set_remapRequested true sEnd)
        = startDiscovery env (set_remapRequested false sEnd).
Proof.
  intros Hpast s1.
  assert (Hpv : pendingVariant s s1)
    by apply pendingVariant_handleRemap.
  split; [symmetry; apply Hpv|]. split; [apply Hpv|].
  split; [reflexivity|].
  destruct (discoveryLoop_total tStart ticks leftPrev s Hpast)
    as [s' Hloop].
  assert (Hrun : discoveryRest tStart leftPrev ticks s
                 = Some (discoveryFinish s'))
    by (unfold discoveryRest; by rewrite Hloop).
  exists (discoveryFinish s'). split; [done|].
  split; [by apply (pv_discoveryRest tStart leftPrev ticks s s1)|].
  unfold discoveryFinish, loopRemap. board_simpl. by repeat case_match.
Qed.

(** The request arrives in the first turn of a root's wait loop. *)
Lemma remap_during_discovery_witness :
  let s := discoveryBegin remapDuringRunEnv (bootBoard 7) in
  remapRequested <$>
    discoveryRest 0 true
      [mkTick 1 [] true 2; mkTick 101 [] true 102; mkTick 1000 [] true 1000]
      (handleRemapRequestPacket [] 0 s)
  = Some true.
Proof.
  intros s.
  destruct (remap_during_discovery 0 true
              [mkTick 1 [] true 2; mkTick 101 [] true 102;
               mkTick 1000 [] true 1000] [] 0 s quietRunEnv)
    as (_ & _ & _ & sEnd & _ & -> & _).
  - apply Exists_cons_tl, Exists_cons_tl, Exists_cons_hd. by vm_compute.
  - reflexivity.
Defined.

(** * Further properties *)

(** ** Identities on the wire *)

Lemma testbit_255 n : 0 <= n → Z.testbit 255 n = (n <? 8).
Proof.
  intros Hn. change 255 with (Z.ones 8).
  destruct (Z.ltb_spec n 8).
  - apply Z.ones_spec_low. lia.
  - apply Z.ones_spec_high. lia.
Qed.

(** Bit [n] of the byte cut out at bit [k] and put back there. *)
Lemma testbit_byte_at id k n :
  0 <= n → 0 <= k →
  Z.testbit (Z.shiftl (Z.land (Z.shiftr id k) 255) k) n
  = Z.testbit id n && (k <=? n) && (n <? k + 8).
Proof.
  intros Hn Hk. rewrite Z.shiftl_spec by done.
  destruct (Z.leb_spec k n) as [Hle|Hlt].
  - rewrite Z.land_spec, Z.shiftr_spec, testbit_255 by lia.
    replace (n - k + k) with n by lia.
    destruct (Z.ltb_spec (n - k) 8), (Z.ltb_spec n (k + 8)); try lia;
      by rewrite ?andb_true_r, ?andb_false_r.
  - rewrite Z.testbit_neg_r by lia. by rewrite andb_false_r.
Qed.

(** The bytes [idBytes] cuts out are read back as the number. *)
Lemma readId_idBytes_app (id : Z) (rest : list Z) :
  0 <= id < 4294967296 → readId (idBytes id ++ rest) = id.
Proof.
  intros Hid. unfold readId, idBytes, byteAt. cbn.
  apply Z.bits_inj'. intros n Hn.
  rewrite !Z.lor_spec.
  rewrite (testbit_byte_at id 8), (testbit_byte_at id 16),
    (testbit_byte_at id 24) by lia.
  rewrite Z.land_spec, testbit_255 by done.
  destruct (Z.ltb_spec n 32) as [Hlow|Hhigh].
  - destruct (Z.testbit id n); cbn [andb orb]; [|done].
    destruct (Z.ltb_spec n 8), (Z.leb_spec 8 n), (Z.ltb_spec n (8 + 8)),
      (Z.leb_spec 16 n), (Z.ltb_spec n (16 + 8)), (Z.leb_spec 24 n),
      (Z.ltb_spec n (24 + 8)); cbn; lia.
  - assert (Hbit : Z.testbit id n = false).
    { rewrite <- (Z.mod_small id (2 ^ 32)) by lia.
      apply Z.mod_pow2_bits_high. lia. }
    rewrite Hbit. reflexivity.
Qed.

Lemma land_255_byte x : 0 <= Z.land x 255 < 256.
Proof.
  change 255 with (Z.ones 8). rewrite Z.land_ones by lia.
  apply Z.mod_pos_bound. lia.
Qed.

(** X1.  The identity is sent as four bytes, least significant first:
    each of them fits a byte, the handlers read them back as the identity
    itself whatever follows in the payload, and two boards with different
    identities never send the same four bytes. *)
Theorem identity_bytes_round_trip (id id' : Z) (rest : list Z) :
  0 <= id < 4294967296 → 0 <= id' < 4294967296 →
  Forall (fun b => 0 <= b < 256) (idBytes id)
  ∧ length (idBytes id) = 4%nat
  ∧ readId (idBytes id ++ rest) = id
  ∧ (idBytes id = idBytes id' → id = id').
Proof.
  intros Hid Hid'. split; [|split; [done|split]].
  - unfold idBytes. repeat constructor; apply land_255_byte.
  - by apply readId_idBytes_app.
  - intros Heq.
    rewrite <- (readId_idBytes_app id []), <- (readId_idBytes_app id' [])
      by done.
    by rewrite Heq.
Qed.

Lemma identity_bytes_round_trip_witness :
  idBytes 0xDEADBEEF = [0xEF; 0xBE; 0xAD; 0xDE]
  ∧ readId (idBytes 0xDEADBEEF ++ [9]) = 0xDEADBEEF.
Proof.
  split; [reflexivity|].
  apply (identity_bytes_round_trip 0xDEADBEEF 1 [9]); lia.
Defined.

(** ** The parser from boot on *)







(** ** Noise, and frames one after another *)

(** While it seeks START the parser drops every byte that is not [0xAA]. *)
Lemma rxRun_skip l0 t0 buf p0 c0 noise rest :
  Forall (fun b => b ≠ 0xAA) noise →
  rxRun (mkRx 0 l0 t0 buf p0 c0) (noise ++ rest)
  = rxRun (mkRx 0 l0 t0 buf p0 c0) rest.
Proof.
  induction 1 as [|b noise Hb _ IH]; [done|].
  cbn [app rxRun]. unfold rxStep at 1. cbn.
  destruct (Z.eqb_spec b 170); [done|]. rewrite IH.
  by destruct (rxRun _ rest).
Qed.

(** X3.  Bytes that arrive while the parser seeks START and are not the
    START byte are skipped without a trace: a frame of 1 to 32 payload
    bytes that follows them is handed over once, with its type, length and
    payload, exactly as if the line had been silent before it. *)
Theorem noise_before_frame_skipped
    (l0 t0 p0 c0 type len : Z) (buf noise payload : list Z) :
  Forall (fun b => b ≠ 0xAA) noise →
  1 <= len <= RX_BUF_SIZE → len <= Z.of_nat (length payload) →
  length buf = 32%nat →
  let body := take (Z.to_nat len) payload in
  let buf' := body ++ drop (Z.to_nat len) buf in
  rxRun (mkRx 0 l0 t0 buf p0 c0) (noise ++ frameBytes type payload len)
  = (mkRx 0 len type buf' len (frameChecksum type len body),
     [(type, buf', len)])
  ∧ take (Z.to_nat len) buf' = body.
Proof.
  intros Hnoise Hlen Hpay Hbuf body buf'.
  rewrite rxRun_skip by done. split; [by apply rxRun_frame|].
  subst buf'. rewrite take_app_length'; [done|].
  subst body. rewrite length_take. lia.
Qed.

Lemma noise_before_frame_skipped_witness :
  (rxRun rxInit ([0; 0xFF; 3; 0x55] ++ frameBytes RS485_PING_MSG [7] 1)).2
  = [(RS485_PING_MSG, 7 :: replicate 31 0, 1)].
Proof.
  assert (Hnoise : Forall (fun b => b ≠ 0xAA) [0; 0xFF; 3; 0x55])
    by (repeat constructor; discriminate).
  assert (Hlen : 1 <= 1 <= RX_BUF_SIZE) by (unfold RX_BUF_SIZE; lia).
  assert (Hpay : 1 <= Z.of_nat (length [7])) by (cbn; lia).
  destruct (noise_before_frame_skipped 0 0 0 0 RS485_PING_MSG 1
              (replicate 32 0) [0; 0xFF; 3; 0x55] [7]
              Hnoise Hlen Hpay eq_refl) as [Hrun _].
  unfold rxInit. rewrite Hrun. reflexivity.
Defined.

Lemma take_whole (payload : list Z) :
  take (Z.to_nat (Z.of_nat (length payload))) payload = payload.
Proof. rewrite Nat2Z.id. apply take_ge. lia. Qed.

(** X4.  Frames written back to back, each with 1 to 32 payload bytes,
    are handed to the handlers one for one and in the order they were
    sent, each with the type and payload it was sent with; the parser
    seeks START again after the last. *)
Theorem frames_delivered_in_order
    (l0 t0 p0 c0 : Z) (buf : list Z) (frames : list (Z * list Z)) :
  Forall (fun f => 1 <= Z.of_nat (length f.2) <= RX_BUF_SIZE) frames →
  length buf = 32%nat →
  rx_state (rxRun (mkRx 0 l0 t0 buf p0 c0) (wireOf frames)).1 = 0
  ∧ payloadOf <$> (rxRun (mkRx 0 l0 t0 buf p0 c0) (wireOf frames)).2
    = frames.
Proof.
  revert l0 t0 buf p0 c0.
  induction frames as [|[type payload] frames IH];
    intros l0 t0 buf p0 c0 Hwf Hbuf; [done|].
  apply Forall_cons in Hwf as [Hlen Hwf]. cbn [fst snd] in Hlen.
  unfold wireOf. cbn [fmap list_fmap concat fst snd]. fold (wireOf frames).
  rewrite rxRun_app, rxRun_frame by (done || lia).
  cbn [fst snd]. rewrite take_whole.
  destruct (IH (Z.of_nat (length payload)) type
              (payload ++ drop (Z.to_nat (Z.of_nat (length payload))) buf)
              (Z.of_nat (length payload))
              (frameChecksum type (Z.of_nat (length payload)) payload) Hwf)
    as [Hst Hds].
  { unfold RX_BUF_SIZE in Hlen.
    rewrite length_app, length_drop, Nat2Z.id. lia. }
  split; [done|].
  cbn [fmap list_fmap app]. fold (payloadOf <$> (rxRun
    (mkRx 0 (Z.of_nat (length payload)) type
       (payload ++ drop (Z.to_nat (Z.of_nat (length payload))) buf)
       (Z.of_nat (length payload))
       (frameChecksum type (Z.of_nat (length payload)) payload))
    (wireOf frames)).2).
  rewrite Hds. f_equal. unfold payloadOf. cbn [fst snd].
  rewrite Nat2Z.id. by rewrite take_app_length.
Qed.

Lemma frames_delivered_in_order_witness :
  payloadOf <$>
    (rxRun rxInit
       (wireOf [(RS485_ANNOUNCE_MSG, [5; 0; 0; 0; 1]);
                (RS485_PING_MSG, [7]);
                (RS485_NOTE_MSG, [5; 0; 0; 0; 60; 100; 1])])).2
  = [(RS485_ANNOUNCE_MSG, [5; 0; 0; 0; 1]);
     (RS485_PING_MSG, [7]);
     (RS485_NOTE_MSG, [5; 0; 0; 0; 60; 100; 1])].
Proof.
  apply (frames_delivered_in_order 0 0 0 0 (replicate 32 0)
           [(RS485_ANNOUNCE_MSG, [5; 0; 0; 0; 1]);
            (RS485_PING_MSG, [7]);
            (RS485_NOTE_MSG, [5; 0; 0; 0; 60; 100; 1])]);
    [|reflexivity].
  unfold RX_BUF_SIZE. repeat constructor; cbn; lia.
Defined.

(** ** Frames the handlers do not act on *)

Lemma dispatch_not_accepted type payload len s :
  accepted type len = false → dispatch type payload len s = s.
Proof.
  unfold accepted, dispatch, handleAnnouncePacket, handleNotePacket,
    handlePingPacket, handlePingReplyPacket.
  destruct (type =? RS485_ANNOUNCE_MSG), (type =? RS485_NOTE_MSG),
    (type =? RS485_PING_MSG), (type =? RS485_PING_REPLY_MSG),
    (type =? RS485_REMAP_REQUEST_MSG), (len =? 5), (len =? 7), (len =? 1);
    cbn; intros; done.
Qed.

(** X5.  A checksum-valid frame of 1 to 32 payload bytes whose type is not
    one of the five, or whose length is not the one its handler expects
    (5 for ANNOUNCE and PING_REPLY, 7 for NOTE, 1 for PING), changes
    nothing but the parser's own fields: no registry entry, flag or
    output. *)
Theorem unexpected_frame_ignored
    (s : Board) (type len : Z) (payload : list Z) :
  accepted type len = false →
  rx_state (rx s) = 0 → length (rx_buf (rx s)) = 32%nat →
  1 <= len <= RX_BUF_SIZE → len <= Z.of_nat (length payload) →
  ∃ r, rx_state r = 0
       ∧ processRs485 (frameBytes type payload len) s = set_rx r s.
Proof.
  intros Hno Hst Hbuf Hlen Hpay.
  rewrite processRs485_frame by done.
  rewrite dispatch_not_accepted by done.
  eexists. split; [|reflexivity]. reflexivity.
Qed.

(** A NOTE frame one byte short. *)
Lemma unexpected_frame_ignored_witness :
  ∃ r, rx_state r = 0
       ∧ processRs485 (frameBytes RS485_NOTE_MSG [5; 0; 0; 0; 60; 100] 6)
           (bootBoard 7)
         = set_rx r (bootBoard 7).
Proof.
  apply (unexpected_frame_ignored (bootBoard 7) RS485_NOTE_MSG 6
           [5; 0; 0; 0; 60; 100]);
    [reflexivity | reflexivity | reflexivity
    | unfold RX_BUF_SIZE; lia | cbn; lia].
Defined.

(** ** Messages from one board to another *)

Lemma set_pingReceived_same s : set_pingReceived (pingReceived s) s = s.
Proof. by destruct s. Qed.

(** An ANNOUNCE frame for identity [id] at position [p], received by a
    board whose parser seeks START, is a call of [registerNode]. *)
Lemma processRs485_announce id p s :
  0 <= id < 4294967296 →
  rx_state (rx s) = 0 → length (rx_buf (rx s)) = 32%nat →
  ∃ r, rx_state r = 0
       ∧ processRs485 (frameBytes RS485_ANNOUNCE_MSG (idBytes id ++ [p]) 5) s
         = set_rx r (registerNode id p s).
Proof.
  intros Hid Hst Hbuf.
  rewrite processRs485_frame; [|done|done|unfold RX_BUF_SIZE; lia|cbn; lia].
  eexists. split; [|f_equal]; [reflexivity|].
  unfold dispatch, handleAnnouncePacket. cbn [Z.eqb Pos.eqb negb].
  change (take (Z.to_nat 5) (idBytes id ++ [p])) with (idBytes id ++ [p]).
  rewrite <- app_assoc, readId_idBytes_app by done. reflexivity.
Qed.

(** X6.  What [sendIdAnnounce] writes to the bus is one ANNOUNCE frame for
    the sender's identity and position (followed by nothing else while
    discovery runs), and a board that receives this frame with its parser
    seeking START registers exactly that identity at that position: its
    registry afterwards is the one [registerNode] produces. *)
Theorem announce_reaches_registry (a b : Board) (p : Z) :
  0 <= myNodeId a < 4294967296 →
  rx_state (rx b) = 0 → length (rx_buf (rx b)) = 32%nat →
  let wire :=
    frameBytes RS485_ANNOUNCE_MSG (idBytes (myNodeId a) ++ [p]) 5 in
  (∃ tail, out (sendIdAnnounce p a) = out a ++ (BusWrite <$> wire) ++ tail
           ∧ (discoveryDone a = false → tail = []))
  ∧ nodeList (processRs485 wire b)
    = (registerList (myNodeId a) p (nodeList b)).1
  ∧ myBoardIndex (processRs485 wire b) = myBoardIndex b.
Proof.
  intros Hid Hst Hbuf wire. split; [|split].
  - unfold sendIdAnnounce, rs485SendPacket. fold wire.
    destruct (out_registerNode (myNodeId a) p
                (emit (BusWrite <$> wire) a)) as [Hout|Hout];
      rewrite Hout; board_simpl.
    + exists []. by rewrite app_nil_r.
    + exists (BusWrite <$> frameBytes RS485_REMAP_REQUEST_MSG [0] 0).
      rewrite <- app_assoc. split; [done|]. intros Hrun.
      unfold registerNode in Hout. board_simpl.
      destruct (registerList _ _ _) as [nodes' added]. board_simpl.
      rewrite Hrun in Hout. cbn in Hout.
      apply (f_equal length) in Hout. rewrite !length_app in Hout.
      cbn in Hout. lia.
  - subst wire.
    destruct (processRs485_announce (myNodeId a) p b Hid Hst Hbuf)
      as (r & _ & ->).
    board_simpl. apply nodeList_registerNode.
  - subst wire.
    destruct (processRs485_announce (myNodeId a) p b Hid Hst Hbuf)
      as (r & _ & ->).
    board_simpl. unfold registerNode.
    destruct (registerList _ _ _) as [nodes' added]. board_simpl.
    by destruct (_ && _ && _).
Qed.

(** The root announces position 0 to a board that has just booted. *)
Lemma announce_reaches_registry_witness :
  nodeList
    (processRs485
       (frameBytes RS485_ANNOUNCE_MSG (idBytes 0x01020304 ++ [0]) 5)
       (bootBoard 7))
  = [mkNode 0x01020304 0].
Proof.
  apply (announce_reaches_registry (bootBoard 0x01020304) (bootBoard 7) 0);
    [cbn; lia | reflexivity | reflexivity].
Defined.

(** X7.  [broadcastNoteEvent] writes one NOTE frame carrying the sender's
    identity, the note, the velocity and the on/off flag, and changes
    nothing else.  A board with another identity that receives the frame
    makes exactly one remote callback, note-on with that note and velocity
    or note-off with that note; a board with the same identity -- the
    sender hearing itself -- makes none and is left as it was. *)
Theorem note_broadcast_delivered
    (a b : Board) (note velocity : Z) (on : bool) :
  0 <= myNodeId a < 4294967296 →
  rx_state (rx b) = 0 → length (rx_buf (rx b)) = 32%nat →
  let wire :=
    frameBytes RS485_NOTE_MSG
      (idBytes (myNodeId a) ++ [note; velocity; if on then 1 else 0]) 7 in
  broadcastNoteEvent note velocity on a = emit (BusWrite <$> wire) a
  ∧ ∃ r, rx_state r = 0
         ∧ processRs485 wire b
           = set_rx r
               (if myNodeId a =? myNodeId b then b
                else emit [if on then RemoteNoteOn note velocity
                           else RemoteNoteOff note] b).
Proof.
  intros Hid Hst Hbuf wire. split; [reflexivity|].
  subst wire.
  rewrite processRs485_frame; [|done|done|unfold RX_BUF_SIZE; lia|cbn; lia].
  eexists. split; [|f_equal]; [reflexivity|].
  rewrite dispatch_note. unfold handleNotePacket. cbn [Z.eqb Pos.eqb negb].
  change (take (Z.to_nat 7) (idBytes (myNodeId a) ++ ?l))
    with (idBytes (myNodeId a) ++ l).
  rewrite <- app_assoc, readId_idBytes_app by done.
  destruct (myNodeId a =? myNodeId b); [done|].
  unfold onRemoteNoteOn, onRemoteNoteOff. by destruct on.
Qed.

Lemma note_broadcast_delivered_witness :
  out (processRs485
         (frameBytes RS485_NOTE_MSG (idBytes 9 ++ [60; 100; 1]) 7)
         (bootBoard 7))
  = [RemoteNoteOn 60 100].
Proof.
  destruct (note_broadcast_delivered (bootBoard 9) (bootBoard 7) 60 100 true)
    as (_ & r & _ & Hrx); [cbn; lia | reflexivity | reflexivity |].
  etransitivity; [exact (f_equal out Hrx)|reflexivity].
Defined.

(** ** The ping cycle, end to end *)

Lemma findNode_Some nid nodes i :
  findNode nid nodes = Some i →
  (i < length nodes)%nat ∧ ∃ n, nodes !! i = Some n ∧ nodeId n = nid.
Proof.
  revert i. induction nodes as [|n nodes IH]; intros i; cbn; [done|].
  destruct (Z.eqb_spec (nodeId n) nid) as [Heq|Hne].
  - intros [= <-]. split; [lia|]. by exists n.
  - destruct (findNode nid nodes) as [j|]; cbn; [|done].
    intros [= <-]. destruct (IH j eq_refl) as (Hj & m & Hm & Hid).
    split; [lia|]. by exists m.
Qed.

(** With distinct identities every entry is found where it stands. *)
Lemma findNode_lookup nodes i n :
  NoDup (nodeId <$> nodes) → nodes !! i = Some n →
  findNode (nodeId n) nodes = Some i.
Proof.
  revert i. induction nodes as [|m nodes IH]; intros i Hnd Hi; [done|].
  rewrite fmap_cons in Hnd. apply NoDup_cons in Hnd as [Hnot Hnd].
  cbn. destruct i as [|i]; cbn in Hi.
  - injection Hi as ->. by rewrite Z.eqb_refl.
  - destruct (Z.eqb_spec (nodeId m) (nodeId n)) as [Heq|_].
    + exfalso. apply Hnot. rewrite Heq. apply list_elem_of_fmap_2.
      by apply list_elem_of_lookup_2 in Hi.
    + by rewrite (IH i Hnd Hi).
Qed.

(** A PING_REPLY of the board [id] for the sequence awaited. *)
Lemma handlePingReply_awaited id s :
  0 <= id < 4294967296 → awaitingPingReplies s = true →
  handlePingReplyPacket (idBytes id ++ [pingSequence s]) 5 s
  = match findNode id (nodeList s) with
    | Some i => set_pingReceived (<[i := true]> (pingReceived s)) s
    | None => s
    end.
Proof.
  intros Hid Hwait. unfold handlePingReplyPacket. cbn [Z.eqb Pos.eqb negb].
  rewrite Hwait, readId_idBytes_app by done. cbn [negb].
  change (byteAt (idBytes id ++ [pingSequence s]) 4) with (pingSequence s).
  by rewrite Z.eqb_refl.
Qed.

Lemma sendPing_fields now s :
  let s1 := sendPing now s in
  nodeList s1 = nodeList s ∧ myNodeId s1 = myNodeId s
  ∧ myBoardIndex s1 = myBoardIndex s ∧ totalBoards s1 = totalBoards s
  ∧ rx s1 = rx s ∧ awaitingPingReplies s1 = true ∧ pingStartMs s1 = now
  ∧ pingSequence s1 = u8 (pingSequence s + 1)
  ∧ remapRequested s1 = remapRequested s
  ∧ out s1 = out s
             ++ (BusWrite <$> frameBytes RS485_PING_MSG
                                [u8 (pingSequence s + 1)] 1)
  ∧ pingReceived s1
    = match findNode (myNodeId s) (nodeList s) with
      | Some i => <[i := true]> (replicate 16 false)
      | None => replicate 16 false
      end.
Proof. unfold sendPing, rs485SendPacket. board_simpl. by repeat split. Qed.

(** X8.  One probe and its answer.  [sendPing] writes a PING frame with
    the incremented sequence.  A board that receives it answers with one
    PING_REPLY frame carrying its own identity and that sequence and
    changes nothing else.  When the root, still awaiting replies, receives
    that answer, it marks the registry slot of the answering board and
    nothing else; an answer from a board that is not in the registry
    changes nothing. *)
Theorem ping_reply_round_trip (root peer : Board) (now : Z) :
  0 <= myNodeId peer < 4294967296 →
  rx_state (rx peer) = 0 → length (rx_buf (rx peer)) = 32%nat →
  rx_state (rx root) = 0 → length (rx_buf (rx root)) = 32%nat →
  let root1 := sendPing now root in
  let seq := pingSequence root1 in
  let pingWire := frameBytes RS485_PING_MSG [seq] 1 in
  let replyWire :=
    frameBytes RS485_PING_REPLY_MSG (idBytes (myNodeId peer) ++ [seq]) 5 in
  out root1 = out root ++ (BusWrite <$> pingWire)
  ∧ (∃ r, rx_state r = 0
          ∧ processRs485 pingWire peer
            = set_rx r (emit (BusWrite <$> replyWire) peer))
  ∧ (∃ r, rx_state r = 0
          ∧ processRs485 replyWire root1
            = set_rx r
                match findNode (myNodeId peer) (nodeList root) with
                | Some i =>
                    set_pingReceived (<[i := true]> (pingReceived root1)) root1
                | None => root1
                end).
Proof.
  intros Hid Hpst Hpbuf Hrst Hrbuf root1 seq pingWire replyWire.
  destruct (sendPing_fields now root)
    as (Hnodes & _ & _ & _ & Hrx & Hwait & _ & Hseq & _ & Hout & _).
  fold root1 in Hnodes, Hrx, Hwait, Hseq, Hout.
  split; [|split].
  - subst pingWire seq. by rewrite Hseq.
  - subst pingWire.
    rewrite processRs485_frame; [|done|done|unfold RX_BUF_SIZE; lia|cbn; lia].
    eexists. split; [|f_equal]; reflexivity.
  - subst replyWire.
    rewrite processRs485_frame;
      [|by rewrite Hrx|by rewrite Hrx|unfold RX_BUF_SIZE; lia|cbn; lia].
    eexists. split; [|f_equal]; [reflexivity|].
    change (take (Z.to_nat 5) (idBytes (myNodeId peer) ++ [seq]))
      with (idBytes (myNodeId peer) ++ [seq]).
    unfold dispatch. cbn [Z.eqb Pos.eqb RS485_PING_REPLY_MSG
      RS485_ANNOUNCE_MSG RS485_NOTE_MSG RS485_PING_MSG].
    unfold handlePingReplyPacket. cbn [Z.eqb Pos.eqb negb].
    rewrite Hwait, <- app_assoc, readId_idBytes_app by done. cbn [negb].
    change (byteAt (idBytes (myNodeId peer) ++ [seq] ++ _) 4) with seq.
    subst seq. by rewrite Z.eqb_refl, Hnodes.
Qed.

(** Root 7 with board 9 at slot 1: the reply sets slot 1. *)
Lemma ping_reply_round_trip_witness :
  let root := mkBoard 7 [mkNode 7 0; mkNode 9 1] 0 2 true false false true
                      GLOBAL_BASE_NOTE false rxInit 0 false 0 0
                      (replicate 16 false) [] in
  pingReceived
    (processRs485 (frameBytes RS485_PING_REPLY_MSG (idBytes 9 ++ [1]) 5)
       (sendPing 1000 root))
  = true :: true :: replicate 14 false.
Proof.
  intros root.
  destruct (ping_reply_round_trip root (bootBoard 9) 1000)
    as (_ & _ & r & _ & Hreply);
    [cbn; lia | reflexivity | reflexivity | reflexivity | reflexivity |].
  etransitivity; [exact (f_equal pingReceived Hreply)|reflexivity].
Defined.

Lemma pingReplies_markAll ids :
  ∀ s, Forall (fun id => 0 <= id < 4294967296) ids →
       awaitingPingReplies s = true →
       pingReplies ids s
       = set_pingReceived (markAll (nodeList s) ids (pingReceived s)) s.
Proof.
  unfold pingReplies, markAll.
  induction ids as [|id ids IH]; intros s Hids Hwait.
  { cbn. by rewrite set_pingReceived_same. }
  apply Forall_cons in Hids as [Hid Hids]. cbn [foldl].
  rewrite handlePingReply_awaited by done.
  destruct (findNode id (nodeList s)) as [i|]; [|by apply IH].
  rewrite IH by done. by destruct s.
Qed.

Lemma length_markAll nodes ids :
  ∀ flags, length (markAll nodes ids flags) = length flags.
Proof.
  unfold markAll. induction ids as [|id ids IH]; intros flags; [done|].
  cbn. rewrite IH. destruct (findNode id nodes); [|done].
  apply length_insert.
Qed.

(** A slot is set after the replies when it was set before or one of the
    repliers is found at it. *)
Lemma markAll_lookup nodes ids :
  ∀ flags i,
    (length nodes <= length flags)%nat →
    markAll nodes ids flags !! i = Some true
    ↔ flags !! i = Some true
      ∨ ∃ id, id ∈ ids ∧ findNode id nodes = Some i.
Proof.
  unfold markAll.
  induction ids as [|id ids IH]; intros flags i Hlen.
  { cbn. split; [by left|]. intros [?|(id & Hin & _)]; [done|].
    by apply elem_of_nil in Hin. }
  cbn [foldl]. destruct (findNode id nodes) as [j|] eqn:Hfind.
  - rewrite IH by (by rewrite length_insert).
    apply findNode_Some in Hfind as Hj. destruct Hj as [Hj _].
    split.
    + intros [Hset|(id' & Hin & Hfind')].
      * destruct (decide (j = i)) as [->|Hne].
        -- right. exists id. split; [by left|done].
        -- left. by rewrite list_lookup_insert_ne in Hset.
      * right. exists id'. split; [by right|done].
    + intros [Hset|(id' & Hin & Hfind')].
      * left. destruct (decide (j = i)) as [->|Hne].
        -- apply list_lookup_insert_eq. lia.
        -- by rewrite list_lookup_insert_ne.
      * apply elem_of_cons in Hin as [->|Hin].
        -- left. rewrite Hfind in Hfind'. injection Hfind' as ->.
           apply list_lookup_insert_eq. lia.
        -- right. by exists id'.
  - rewrite IH by done. split.
    + intros [?|(id' & Hin & Hfind')]; [by left|].
      right. exists id'. split; [by right|done].
    + intros [?|(id' & Hin & Hfind')]; [by left|].
      apply elem_of_cons in Hin as [->|Hin]; [congruence|].
      right. by exists id'.
Qed.

(** X9.  A whole ping cycle on the root.  After [sendPing], the replies of
    the boards [ids] (for the sequence awaited, in any order, repeated or
    from boards unknown to the root) and the end of the reply window, the
    network is marked healthy exactly when every identity in the registry
    is the root's own or one that replied; otherwise it is marked
    unhealthy and a remap is pending.  In both cases the cycle is over. *)
Theorem ping_cycle_outcome
    (s : Board) (ids : list Z) (now t tPing : Z) :
  regOK (nodeList s) →
  Forall (fun id => 0 <= id < 4294967296) ids →
  myBoardIndex s = 0 → totalBoards s > 1 →
  u32 (t - now) > PING_TIMEOUT_MS →
  let s2 := pingReplies ids (sendPing now s) in
  let s3 := healthMonitor t tPing s2 in
  let accounted :=
    ∀ n, n ∈ nodeList s → nodeId n = myNodeId s ∨ nodeId n ∈ ids in
  (networkHealthy s3 = true ↔ accounted)
  ∧ (networkHealthy s3 = false →
     remapRequested s3 = true
     ∧ out s3 = out s2
                ++ (BusWrite <$> frameBytes RS485_REMAP_REQUEST_MSG [0] 0))
  ∧ awaitingPingReplies s3 = false.
Proof.
  intros [Hnd Hcap] Hids Hroot Htotal Hexp s2 s3 accounted.
  destruct (sendPing_fields now s)
    as (Hnodes & Hmy & Hidx & Htot & _ & Hwait & Hstart & _ & _ & _ & Hfl).
  assert (Hs2 : s2 = set_pingReceived
                       (markAll (nodeList s) ids
                          (pingReceived (sendPing now s)))
                       (sendPing now s)).
  { subst s2. rewrite pingReplies_markAll by done. by rewrite Hnodes. }
  assert (Hmiss : pingMissing (length (nodeList s2)) (pingReceived s2) = false
                  ↔ accounted).
  { rewrite pingMissing_false, Hs2. board_simpl. rewrite Hnodes.
    assert (Hlen : (length (nodeList s)
                    <= length (pingReceived (sendPing now s)))%nat).
    { rewrite Hfl. unfold RS485_MAX_NODES in Hcap.
      destruct (findNode _ _); rewrite ?length_insert, length_replicate; lia. }
    split.
    - intros Hall n Hn.
      apply list_elem_of_lookup in Hn as [i Hi].
      assert (Hi' : (i < length (nodeList s))%nat)
        by (by apply lookup_lt_Some in Hi).
      apply Hall in Hi'. apply markAll_lookup in Hi'; [|done].
      destruct Hi' as [Hown|(id & Hin & Hfind)].
      + left. rewrite Hfl in Hown.
        destruct (findNode (myNodeId s) (nodeList s)) as [j|] eqn:Hfind.
        * destruct (decide (j = i)) as [->|Hne].
          -- apply findNode_Some in Hfind as (_ & m & Hm & Hid). congruence.
          -- rewrite list_lookup_insert_ne in Hown by done.
             by apply lookup_replicate in Hown as [? _].
        * by apply lookup_replicate in Hown as [? _].
      + right. apply findNode_Some in Hfind as (_ & m & Hm & Hid).
        assert (m = n) by congruence. subst m. by rewrite <- Hid in Hin.
    - intros Hacc i Hi. apply markAll_lookup; [done|].
      destruct (lookup_lt_is_Some_2 _ _ Hi) as [n Hn].
      pose proof (findNode_lookup _ _ _ Hnd Hn) as Hfind.
      destruct (Hacc n (list_elem_of_lookup_2 _ _ _ Hn)) as [Hown|Hin].
      + left. rewrite Hfl, <- Hown, Hfind.
        apply list_lookup_insert_eq. rewrite length_replicate.
        unfold RS485_MAX_NODES in Hcap. lia.
      + right. by exists (nodeId n). }
  assert (Hs3 : s3 =
    let s1 := set_awaitingPingReplies false s2 in
    if pingMissing (length (nodeList s2)) (pingReceived s2) then
      set_remapRequested true
        (rs485SendPacket RS485_REMAP_REQUEST_MSG [0] 0
           (set_networkHealthy false s1))
    else set_networkHealthy true s1).
  { subst s3. unfold healthMonitor. rewrite Hs2. board_simpl.
    rewrite Hidx, Hroot, Htot, Hwait, Hstart. cbn [negb andb Z.eqb].
    destruct (Z.gtb_spec (totalBoards s) 1); [|lia].
    destruct (Z.gtb_spec (u32 (t - now)) PING_TIMEOUT_MS); [|lia].
    reflexivity. }
  cbn zeta in Hs3.
  destruct (pingMissing (length (nodeList s2)) (pingReceived s2));
    rewrite Hs3; unfold rs485SendPacket; board_simpl.
  - split; [|done]. split; [done|]. intros Hacc. by apply Hmiss in Hacc.
  - split; [|done]. split; [intros _; by apply Hmiss|done].
Qed.

(** Root 7 knows boards 9 and 11; only 9 replies: unhealthy. *)
Lemma ping_cycle_outcome_witness :
  let s := mkBoard 7 [mkNode 7 0; mkNode 9 1; mkNode 11 2] 0 3 true false
                   false true GLOBAL_BASE_NOTE false rxInit 0 false 0 0
                   (replicate 16 false) [] in
  networkHealthy (healthMonitor 1201 1201 (pingReplies [9] (sendPing 1000 s)))
  = false.
Proof.
  intros s.
  assert (Hok : regOK (nodeList s)).
  { split; [|cbn; unfold RS485_MAX_NODES; lia].
    cbn. repeat (apply NoDup_cons; split;
      [ intros Hin;
        repeat (apply elem_of_cons in Hin as [Hin|Hin]; [discriminate|]);
        by apply elem_of_nil in Hin | ]).
    apply NoDup_nil_2. }
  assert (Hids : Forall (fun id => 0 <= id < 4294967296) [9])
    by (repeat constructor; lia).
  destruct (ping_cycle_outcome s [9] 1000 1201 1201 Hok Hids)
    as [[Hyes _] _]; [reflexivity | reflexivity | reflexivity |].
  destruct (networkHealthy _); [|reflexivity].
  exfalso. destruct (Hyes eq_refl (mkNode 11 2)) as [Hown|Hin].
  - apply list_elem_of_further, list_elem_of_further, list_elem_of_here.
  - discriminate Hown.
  - cbn in Hin. apply list_elem_of_singleton in Hin. discriminate Hin.
Defined.

(** X10.  Replies that are not awaited.  While no reply is awaited a
    PING_REPLY changes nothing.  And a reply that still carries the
    sequence of the previous probe changes nothing once the next probe has
    been sent: the sequence moves on with every probe, wrapping from 255
    to 0. *)
Theorem stale_reply_ignored (s : Board) (id now len : Z) (payload : list Z) :
  0 <= pingSequence s < 256 →
  (awaitingPingReplies s = false → handlePingReplyPacket payload len s = s)
  ∧ pingSequence (sendPing now s) ≠ pingSequence s
  ∧ 0 <= pingSequence (sendPing now s) < 256
  ∧ (pingSequence s = 255 → pingSequence (sendPing now s) = 0)
  ∧ handlePingReplyPacket (idBytes id ++ [pingSequence s]) 5 (sendPing now s)
    = sendPing now s.
Proof.
  intros Hseq.
  destruct (sendPing_fields now s)
    as (_ & _ & _ & _ & _ & _ & _ & Hnew & _).
  assert (Hmoved : u8 (pingSequence s + 1) ≠ pingSequence s).
  { unfold u8. destruct (Z.eq_dec (pingSequence s) 255) as [->|Hne];
      [done|]. rewrite Z.mod_small; lia. }
  split; [|split; [|split; [|split]]].
  - intros Hidle. unfold handlePingReplyPacket. rewrite Hidle.
    by destruct (negb (len =? 5)).
  - by rewrite Hnew.
  - rewrite Hnew. unfold u8. apply Z.mod_pos_bound. lia.
  - intros H255. by rewrite Hnew, H255.
  - unfold handlePingReplyPacket. cbn [Z.eqb Pos.eqb negb].
    change (byteAt (idBytes id ++ [pingSequence s]) 4) with (pingSequence s).
    rewrite Hnew.
    destruct (negb (awaitingPingReplies (sendPing now s))); [done|].
    destruct (Z.eqb_spec (pingSequence s) (u8 (pingSequence s + 1)));
      [congruence|done].
Qed.

Lemma stale_reply_ignored_witness :
  pingSequence (sendPing 0 (set_pingSequence 255 (bootBoard 7))) = 0.
Proof.
  apply (stale_reply_ignored (set_pingSequence 255 (bootBoard 7)) 9 0 5 []);
    [cbn; lia | reflexivity].
Defined.

(** ** What the handlers leave alone *)

Lemma registerNode_fields nid bidx s :
  let s' := registerNode nid bidx s in
  myBoardIndex s' = myBoardIndex s ∧ myNodeId s' = myNodeId s
  ∧ discoveryDone s' = discoveryDone s
  ∧ hasLeftNeighbor s' = hasLeftNeighbor s
  ∧ totalBoards s' = totalBoards s ∧ boardBaseNote s' = boardBaseNote s
  ∧ isRemapping s' = isRemapping s ∧ rx s' = rx s.
Proof.
  unfold registerNode.
  destruct (registerList nid bidx (nodeList s)) as [nodes' added].
  board_simpl. by destruct (_ && added && _).
Qed.

(** No handler touches the board's position, identity, note base or
    discovery state. *)
Lemma dispatch_fields type payload len s :
  let s' := dispatch type payload len s in
  myBoardIndex s' = myBoardIndex s ∧ myNodeId s' = myNodeId s
  ∧ discoveryDone s' = discoveryDone s
  ∧ hasLeftNeighbor s' = hasLeftNeighbor s
  ∧ totalBoards s' = totalBoards s ∧ boardBaseNote s' = boardBaseNote s
  ∧ isRemapping s' = isRemapping s ∧ rx s' = rx s.
Proof.
  unfold dispatch.
  destruct (type =? RS485_ANNOUNCE_MSG).
  { unfold handleAnnouncePacket. destruct (negb (len =? 5)); [done|].
    apply registerNode_fields. }
  unfold handleNotePacket, handlePingPacket, handlePingReplyPacket,
    handleRemapRequestPacket, onRemoteNoteOn, onRemoteNoteOff,
    rs485SendPacket.
  by repeat case_match.
Qed.

Lemma processByte_fields s b :
  let s' := processByte s b in
  myBoardIndex s' = myBoardIndex s ∧ myNodeId s' = myNodeId s
  ∧ discoveryDone s' = discoveryDone s
  ∧ hasLeftNeighbor s' = hasLeftNeighbor s
  ∧ totalBoards s' = totalBoards s ∧ boardBaseNote s' = boardBaseNote s
  ∧ isRemapping s' = isRemapping s.
Proof.
  unfold processByte. destruct (rxStep (rx s) b) as [r' [[[t p] l]|]];
    board_simpl; [|done].
  destruct (dispatch_fields t p l s) as (? & ? & ? & ? & ? & ? & ? & _).
  done.
Qed.

Lemma processRs485_fields bytes :
  ∀ s, let s' := processRs485 bytes s in
       myBoardIndex s' = myBoardIndex s ∧ myNodeId s' = myNodeId s
       ∧ discoveryDone s' = discoveryDone s
       ∧ hasLeftNeighbor s' = hasLeftNeighbor s
       ∧ totalBoards s' = totalBoards s ∧ boardBaseNote s' = boardBaseNote s
       ∧ isRemapping s' = isRemapping s.
Proof.
  unfold processRs485. induction bytes as [|b bytes IH]; intros s; [done|].
  cbn [foldl].
  destruct (IH (processByte s b)) as (-> & -> & -> & -> & -> & -> & ->).
  apply processByte_fields.
Qed.

(** ** A board that joins late *)

(** X11.  A board that joins after discovery.  When the board at position
    0, with discovery done and room in its registry, receives the ANNOUNCE
    frame of an identity it does not know, it appends the newcomer to its
    registry, writes one REMAP_REQUEST frame, marks the network unhealthy
    and leaves a remap pending, so that the next pass of its main loop
    clears the flag and runs discovery again. *)
Theorem late_announce_triggers_remap
    (root : Board) (id p : Z) (env : DiscoveryEnv) :
  0 <= id < 4294967296 →
  rx_state (rx root) = 0 → length (rx_buf (rx root)) = 32%nat →
  discoveryDone root = true → myBoardIndex root = 0 →
  id ∉ (nodeId <$> nodeList root) →
  Z.of_nat (length (nodeList root)) < RS485_MAX_NODES →
  let s' :=
    processRs485 (frameBytes RS485_ANNOUNCE_MSG (idBytes id ++ [p]) 5) root in
  nodeList s' = nodeList root ++ [mkNode id p]
  ∧ out s' = out root ++ (BusWrite <$> [0xAA; 0; RS485_REMAP_REQUEST_MSG; 5])
  ∧ remapRequested s' = true
  ∧ networkHealthy s' = false
  ∧ loopRemap env s' = startDiscovery env (set_remapRequested false s').
Proof.
  intros Hid Hst Hbuf Hdone Hroot Hnew Hroom s'.
  destruct (processRs485_announce id p root Hid Hst Hbuf) as (r & _ & Hrx).
  assert (Hs' : s' = set_rx r
    (set_networkHealthy false
       (set_remapRequested true
          (rs485SendPacket RS485_REMAP_REQUEST_MSG [0] 0
             (set_nodeList (nodeList root ++ [mkNode id p]) root))))).
  { subst s'. rewrite Hrx. f_equal. unfold registerNode.
    rewrite registerList_new by done. board_simpl.
    by rewrite Hdone, Hroot. }
  rewrite Hs'. unfold rs485SendPacket, loopRemap. board_simpl.
  by repeat split.
Qed.

Lemma late_announce_triggers_remap_witness :
  let root := set_discoveryDone true (bootBoard 7) in
  remapRequested
    (processRs485 (frameBytes RS485_ANNOUNCE_MSG (idBytes 9 ++ [1]) 5) root)
  = true.
Proof.
  intros root.
  apply (late_announce_triggers_remap root 9 1 quietRunEnv);
    [lia | reflexivity | reflexivity | reflexivity | reflexivity
    | by intros Hin; apply elem_of_nil in Hin
    | unfold RS485_MAX_NODES; cbn; lia].
Defined.

(** ** The registry invariant everywhere *)

Lemma regOK_registerNode nid bidx s :
  regOK (nodeList s) → regOK (nodeList (registerNode nid bidx s)).
Proof. rewrite nodeList_registerNode. apply registerList_regOK. Qed.

Lemma regOK_dispatch type payload len s :
  regOK (nodeList s) → regOK (nodeList (dispatch type payload len s)).
Proof.
  intros Hok. unfold dispatch.
  destruct (type =? RS485_ANNOUNCE_MSG).
  { unfold handleAnnouncePacket. destruct (negb (len =? 5)); [done|].
    by apply regOK_registerNode. }
  unfold handleNotePacket, handlePingPacket, handlePingReplyPacket,
    handleRemapRequestPacket, onRemoteNoteOn, onRemoteNoteOff,
    rs485SendPacket.
  by repeat case_match.
Qed.

Lemma regOK_processRs485 bytes :
  ∀ s, regOK (nodeList s) → regOK (nodeList (processRs485 bytes s)).
Proof.
  unfold processRs485. induction bytes as [|b bytes IH]; intros s Hok;
    [done|].
  cbn [foldl]. apply IH. unfold processByte.
  destruct (rxStep (rx s) b) as [r' [[[t p] l]|]]; board_simpl; [|done].
  by apply regOK_dispatch.
Qed.

Lemma regOK_sendIdAnnounce bidx s :
  regOK (nodeList s) → regOK (nodeList (sendIdAnnounce bidx s)).
Proof. intros Hok. unfold sendIdAnnounce. by apply regOK_registerNode. Qed.

Lemma regOK_discoveryTurn tStart leftPrev tk s :
  regOK (nodeList s) →
  regOK (nodeList (discoveryTurn tStart leftPrev tk s).1).
Proof.
  intros Hok. apply (regOK_processRs485 (tk_rx tk)) in Hok.
  unfold discoveryTurn. cbn [fst].
  destruct (_ && _ && _); [|done].
  unfold assignOnEdge, pulseRightNeighbor. board_simpl.
  by apply regOK_sendIdAnnounce.
Qed.

Lemma regOK_discoveryLoop tStart ticks :
  ∀ leftPrev s s',
    regOK (nodeList s) → discoveryLoop tStart leftPrev ticks s = Some s' →
    regOK (nodeList s').
Proof.
  induction ticks as [|tk ticks IH]; intros leftPrev s s' Hok; [done|].
  cbn [discoveryLoop].
  destruct (_ <? _); [|by intros [= <-]].
  pose proof (regOK_discoveryTurn tStart leftPrev tk s Hok) as Hok'.
  destruct (discoveryTurn tStart leftPrev tk s) as [s2 [|]].
  - by intros [= <-].
  - by apply IH.
Qed.

Lemma regOK_nil : regOK [].
Proof. split; [apply NoDup_nil_2|cbn; unfold RS485_MAX_NODES; lia]. Qed.

Lemma nodeList_emit evs s : nodeList (emit evs s) = nodeList s.
Proof. reflexivity. Qed.

Lemma nodeList_discoveryBegin_left env s :
  de_sense env = false → nodeList (discoveryBegin env s) = [].
Proof. unfold discoveryBegin. by intros ->. Qed.

Lemma discoveryBegin_root env s :
  de_sense env = true →
  discoveryBegin env s =
  pulseRightNeighbor
    (sendIdAnnounce 0
       (set_myBoardIndex 0
          (emit [RightPin true]
             (set_hasLeftNeighbor false
                (emit [RightPin false]
                   (set_nodeList []
                      (set_myBoardIndex 0xFF
                         (set_networkHealthy false
                            (set_isRemapping true
                               (set_discoveryDone false s)))))))))).
Proof. unfold discoveryBegin. by intros ->. Qed.

Lemma regOK_discoveryBegin env s : regOK (nodeList (discoveryBegin env s)).
Proof.
  destruct (de_sense env) eqn:Hsense.
  - rewrite discoveryBegin_root by done.
    unfold pulseRightNeighbor. rewrite nodeList_emit.
    apply regOK_sendIdAnnounce. exact regOK_nil.
  - rewrite nodeList_discoveryBegin_left by done. exact regOK_nil.
Qed.

Lemma nodeList_discoveryFinish s :
  nodeList (discoveryFinish s) = nodeList s.
Proof. unfold discoveryFinish. board_simpl. by repeat case_match. Qed.

Lemma regOK_startDiscovery env s s' :
  startDiscovery env s = Some s' → regOK (nodeList s').
Proof.
  unfold startDiscovery. intros Hrun.
  destruct (discoveryLoop _ _ _ _) as [s1|] eqn:Hloop; [|done].
  injection Hrun as <-. rewrite nodeList_discoveryFinish.
  apply regOK_discoveryLoop in Hloop; [done|].
  apply regOK_discoveryBegin.
Qed.

Lemma nodeList_healthMonitor now tPing s :
  nodeList (healthMonitor now tPing s) = nodeList s.
Proof.
  unfold healthMonitor, sendPing, rs485SendPacket.
  by repeat case_match.
Qed.

(** X12.  Discovery rebuilds the registry from nothing.  Whatever the
    board held before (registry, parser state, flags) and whatever bytes
    arrive while it waits, a discovery run that ends leaves a registry of
    pairwise distinct identities with at most 16 entries. *)
Theorem discovery_registry_sound (env : DiscoveryEnv) (s s' : Board) :
  startDiscovery env s = Some s' →
  NoDup (nodeId <$> nodeList s')
  ∧ Z.of_nat (length (nodeList s')) <= RS485_MAX_NODES.
Proof.
  unfold startDiscovery. intros Hrun.
  destruct (discoveryLoop _ _ _ _) as [s1|] eqn:Hloop; [|done].
  injection Hrun as <-. rewrite nodeList_discoveryFinish.
  exact (regOK_discoveryLoop _ _ _ _ _ (regOK_discoveryBegin env s) Hloop).
Qed.

Lemma discovery_registry_sound_witness :
  ∃ s', startDiscovery quietRunEnv (bootBoard 7) = Some s'
        ∧ NoDup (nodeId <$> nodeList s').
Proof.
  destruct (startDiscovery quietRunEnv (bootBoard 7)) as [s'|] eqn:Hrun;
    [|by vm_compute in Hrun].
  exists s'. split; [done|].
  exact (proj1 (discovery_registry_sound quietRunEnv (bootBoard 7) s' Hrun)).
Defined.

(** ** Discovery runs as a whole *)

Lemma byteAt_byte p i : byteList p → byteAt p i < 256.
Proof.
  intros Hp. unfold byteAt. destruct (p !! i) as [x|] eqn:Hx; cbn; [|lia].
  by apply (Forall_lookup_1 _ _ _ _ Hp) in Hx.
Qed.

Lemma byteIndices_updateNode nid bidx nodes nodes' :
  bidx < 256 → byteIndices nodes →
  updateNode nid bidx nodes = Some nodes' → byteIndices nodes'.
Proof.
  intros Hb. revert nodes'.
  induction nodes as [|n nodes IH]; intros nodes' Hok; cbn; [done|].
  apply Forall_cons in Hok as [Hn Hok].
  destruct (nodeId n =? nid).
  - intros [= <-]. by apply Forall_cons.
  - destruct (updateNode nid bidx nodes) as [l|]; cbn; [|done].
    intros [= <-]. apply Forall_cons. split; [done|]. by apply IH.
Qed.

Lemma byteIndices_registerNode nid bidx s :
  bidx < 256 → byteIndices (nodeList s) →
  byteIndices (nodeList (registerNode nid bidx s)).
Proof.
  intros Hb Hok. rewrite nodeList_registerNode. unfold registerList.
  destruct (updateNode nid bidx (nodeList s)) as [l|] eqn:Hupd; cbn.
  - by apply (byteIndices_updateNode nid bidx (nodeList s)).
  - destruct (_ <? _); cbn; [|done].
    apply Forall_app. split; [done|]. by apply Forall_singleton.
Qed.

Lemma rxStep_payload r b r' type p len :
  rxStep r b = (r', Some (type, p, len)) → p = rx_buf r.
Proof.
  unfold rxStep. repeat case_match; intros [= ]; by subst.
Qed.

Lemma rxStep_bytes r b :
  b < 256 → byteList (rx_buf r) → byteList (rx_buf (rxStep r b).1).
Proof.
  intros Hb Hbuf. unfold rxStep.
  repeat case_match; cbn; try done;
    apply Forall_insert; done.
Qed.

Lemma byteBoard_processByte s b :
  b < 256 → byteBoard s → byteBoard (processByte s b).
Proof.
  intros Hb (Hreg & Hbuf & Hidx). unfold processByte.
  pose proof (rxStep_bytes (rx s) b Hb Hbuf) as Hbuf'.
  destruct (rxStep (rx s) b) as [r' [[[t p] l]|]] eqn:Hstep;
    unfold byteBoard; board_simpl; [|done].
  apply rxStep_payload in Hstep as ->.
  destruct (dispatch_fields t (rx_buf (rx s)) l s) as (-> & _).
  split; [|done].
  unfold dispatch.
  destruct (t =? RS485_ANNOUNCE_MSG).
  { unfold handleAnnouncePacket. destruct (negb (l =? 5)); [done|].
    apply byteIndices_registerNode; [|done]. by apply byteAt_byte. }
  unfold handleNotePacket, handlePingPacket, handlePingReplyPacket,
    handleRemapRequestPacket, onRemoteNoteOn, onRemoteNoteOff,
    rs485SendPacket.
  by repeat case_match.
Qed.

Lemma byteBoard_processRs485 bytes :
  ∀ s, byteList bytes → byteBoard s → byteBoard (processRs485 bytes s).
Proof.
  unfold processRs485. induction bytes as [|b bytes IH]; intros s Hb Hs;
    [done|].
  apply Forall_cons in Hb as [Hb Hbytes]. cbn [foldl].
  apply IH; [done|]. by apply byteBoard_processByte.
Qed.

Lemma byteBoard_sendIdAnnounce bidx s :
  bidx < 256 → byteBoard s → byteBoard (sendIdAnnounce bidx s).
Proof.
  intros Hb (Hreg & Hbuf & Hidx). unfold sendIdAnnounce, byteBoard.
  destruct (registerNode_fields (myNodeId s) bidx
              (rs485SendPacket RS485_ANNOUNCE_MSG
                 (idBytes (myNodeId s) ++ [bidx]) 5 s))
    as (-> & _ & _ & _ & _ & _ & _ & ->).
  split; [|done]. by apply byteIndices_registerNode.
Qed.

Lemma u8_range x : 0 <= u8 x < 256.
Proof. unfold u8. apply Z.mod_pos_bound. lia. Qed.

Lemma byteBoard_discoveryTurn tStart leftPrev tk s :
  byteList (tk_rx tk) → byteBoard s →
  byteBoard (discoveryTurn tStart leftPrev tk s).1.
Proof.
  intros Hb Hs. apply (byteBoard_processRs485 (tk_rx tk)) in Hs; [|done].
  unfold discoveryTurn. cbn [fst].
  destruct (_ && _ && _); [|done].
  unfold assignOnEdge, pulseRightNeighbor.
  set (newIdx := u8 _). pose proof (u8_range
    (maxKnownIdx
       (if myBoardIndex (processRs485 (tk_rx tk) s) =? 255 then 0
        else myBoardIndex (processRs485 (tk_rx tk) s))
       (nodeList (processRs485 (tk_rx tk) s)) + 1)) as Hnew.
  fold newIdx in Hnew. board_simpl.
  assert (Hset : byteBoard (set_myBoardIndex newIdx
                              (processRs485 (tk_rx tk) s))).
  { destruct Hs as (? & ? & ?). unfold byteBoard. board_simpl. done. }
  apply (byteBoard_sendIdAnnounce newIdx) in Hset; [|lia].
  destruct Hset as (? & ? & ?). unfold byteBoard. board_simpl. done.
Qed.

Lemma byteBoard_discoveryLoop tStart ticks :
  ∀ leftPrev s s',
    Forall (fun tk => byteList (tk_rx tk)) ticks → byteBoard s →
    discoveryLoop tStart leftPrev ticks s = Some s' → byteBoard s'.
Proof.
  induction ticks as [|tk ticks IH]; intros leftPrev s s' Hb Hs; [done|].
  apply Forall_cons in Hb as [Hb Hticks]. cbn [discoveryLoop].
  destruct (_ <? _); [|by intros [= <-]].
  pose proof (byteBoard_discoveryTurn tStart leftPrev tk s Hb Hs) as Hs2.
  destruct (discoveryTurn tStart leftPrev tk s) as [s2 [|]].
  - by intros [= <-].
  - by apply IH.
Qed.

Lemma byteBoard_emit evs s : byteBoard s → byteBoard (emit evs s).
Proof. intros H. exact H. Qed.

Lemma byteBoard_discoveryBegin env s :
  byteList (rx_buf (rx s)) → byteBoard (discoveryBegin env s).
Proof.
  intros Hbuf. destruct (de_sense env) eqn:Hsense.
  - rewrite discoveryBegin_root by done.
    unfold pulseRightNeighbor. apply byteBoard_emit.
    apply byteBoard_sendIdAnnounce; [lia|].
    split; [apply Forall_nil_2|]. split; [exact Hbuf|]. cbn. lia.
  - unfold discoveryBegin. rewrite Hsense.
    split; [apply Forall_nil_2|]. split; [exact Hbuf|]. cbn. lia.
Qed.

(** X14.  Where a run leaves the board.  Whatever the board held before
    and whatever bytes arrived during the run, a completed discovery run
    ends with discovery done, remapping off and the network marked
    healthy, with the board at a position that is not [0xFF] and is below
    the board count, and with a board count of at most 255. *)
Theorem run_ends_consistent (env : DiscoveryEnv) (s s' : Board) :
  Forall (fun tk => byteList (tk_rx tk)) (de_ticks env) →
  byteList (rx_buf (rx s)) →
  startDiscovery env s = Some s' →
  discoveryDone s' = true ∧ isRemapping s' = false
  ∧ networkHealthy s' = true
  ∧ 0 <= myBoardIndex s' < totalBoards s'
  ∧ totalBoards s' <= 255
  ∧ boardBaseNote s'
    = (GLOBAL_BASE_NOTE + myBoardIndex s' * BOARD_NOTE_SPAN) mod 256.
Proof.
  intros Hticks Hbuf. unfold startDiscovery. intros Hrun.
  destruct (discoveryLoop _ _ _ _) as [s1|] eqn:Hloop; [|done].
  injection Hrun as <-.
  apply byteBoard_discoveryLoop in Hloop;
    [|done|by apply byteBoard_discoveryBegin].
  destruct Hloop as (Hreg & _ & Hidx).
  pose proof (highestAssigned_range _ Hreg) as Hhi.
  unfold discoveryFinish. board_simpl.
  set (own := if myBoardIndex s1 =? 255 then 0 else myBoardIndex s1).
  assert (Hown : 0 <= own <= 254)
    by (subst own; destruct (Z.eqb_spec (myBoardIndex s1) 255); lia).
  rewrite maxKnownIdx_highestAssigned by lia.
  assert (Htot : u8 (own `max` highestAssigned (nodeList s1) + 1)
                 = own `max` highestAssigned (nodeList s1) + 1)
    by (unfold u8; rewrite Z.mod_small; lia).
  rewrite Htot.
  destruct (Z.eqb_spec (myBoardIndex s1) 255) as [Hun|Has];
    board_simpl; subst own; repeat split; try done; lia.
Qed.

(** The run of the tenth board of a chain: position 9 of 10. *)
Lemma run_ends_consistent_witness :
  match startDiscovery tenthBoardEnv (bootBoard 7) with
  | Some s' => 0 <= myBoardIndex s' < totalBoards s'
  | None => False
  end.
Proof.
  destruct (startDiscovery tenthBoardEnv (bootBoard 7)) as [s'|] eqn:Hrun;
    [|by vm_compute in Hrun].
  assert (Hticks : Forall (fun tk => byteList (tk_rx tk))
                          (de_ticks tenthBoardEnv))
    by (vm_compute; repeat constructor).
  assert (Hbuf : byteList (rx_buf (rx (bootBoard 7))))
    by (vm_compute; repeat constructor).
  apply (run_ends_consistent tenthBoardEnv (bootBoard 7) s' Hticks Hbuf Hrun).
Defined.

(** ** Roots and boards that are never woken *)

Lemma discoveryTurn_assigned tStart leftPrev tk s :
  myBoardIndex s ≠ 0xFF →
  myBoardIndex (discoveryTurn tStart leftPrev tk s).1 = myBoardIndex s
  ∧ hasLeftNeighbor (discoveryTurn tStart leftPrev tk s).1
    = hasLeftNeighbor s.
Proof.
  intros Hset.
  destruct (processRs485_fields (tk_rx tk) s) as (Hidx & _ & _ & Hleft & _).
  rewrite discoveryTurn_no_edge; [done|].
  right. right. by rewrite Hidx.
Qed.

Lemma discoveryLoop_assigned tStart ticks :
  ∀ leftPrev s s',
    myBoardIndex s ≠ 0xFF →
    discoveryLoop tStart leftPrev ticks s = Some s' →
    myBoardIndex s' = myBoardIndex s
    ∧ hasLeftNeighbor s' = hasLeftNeighbor s.
Proof.
  induction ticks as [|tk ticks IH]; intros leftPrev s s' Hset; [done|].
  cbn [discoveryLoop]. destruct (_ <? _); [|by intros [= <-]].
  destruct (discoveryTurn_assigned tStart leftPrev tk s Hset) as [Hidx Hleft].
  destruct (discoveryTurn tStart leftPrev tk s) as [s2 [|]];
    cbn [fst] in Hidx, Hleft.
  - by intros [= <-].
  - intros Hrest. apply IH in Hrest; [|by rewrite Hidx].
    destruct Hrest as [-> ->]. done.
Qed.

Lemma discoveryBegin_root_state env s :
  de_sense env = true →
  let b := discoveryBegin env s in
  out b = out s ++ [RightPin false; RightPin true]
                ++ (BusWrite <$> frameBytes RS485_ANNOUNCE_MSG
                                   (idBytes (myNodeId s) ++ [0]) 5)
                ++ [RightPin false; RightPin true]
  ∧ nodeList b = [mkNode (myNodeId s) 0]
  ∧ myBoardIndex b = 0
  ∧ hasLeftNeighbor b = false.
Proof.
  intros Hroot b. subst b. rewrite discoveryBegin_root by done.
  unfold pulseRightNeighbor, sendIdAnnounce.
  rewrite registerNode_quiet by reflexivity.
  unfold rs485SendPacket.
  split; [|by repeat split].
  cbn [out emit set_nodeList set_myBoardIndex set_hasLeftNeighbor
       set_networkHealthy set_isRemapping set_discoveryDone myNodeId].
  by rewrite <- !app_assoc.
Qed.

(** X15.  The board without a left neighbour.  When the left input reads
    HIGH at the start of a run the board takes position 0 at once, writes
    its ANNOUNCE for position 0 and pulses its right output before it
    waits; and whatever arrives during the run -- frames, edges on the
    left input -- it ends the run at position 0 with the note base 48 and
    "no left neighbour" recorded. *)
Theorem root_keeps_position_zero (env : DiscoveryEnv) (s s' : Board) :
  de_sense env = true →
  startDiscovery env s = Some s' →
  out (discoveryBegin env s)
  = out s ++ [RightPin false; RightPin true]
          ++ (BusWrite <$> frameBytes RS485_ANNOUNCE_MSG
                             (idBytes (myNodeId s) ++ [0]) 5)
          ++ [RightPin false; RightPin true]
  ∧ nodeList (discoveryBegin env s) = [mkNode (myNodeId s) 0]
  ∧ myBoardIndex s' = 0
  ∧ boardBaseNote s' = GLOBAL_BASE_NOTE
  ∧ hasLeftNeighbor s' = false.
Proof.
  intros Hroot. unfold startDiscovery. intros Hrun.
  destruct (discoveryLoop _ _ _ _) as [s1|] eqn:Hloop; [|done].
  injection Hrun as <-.
  destruct (discoveryBegin_root_state env s Hroot)
    as (Hout & Hreg & Hidx0 & Hleft0).
  apply discoveryLoop_assigned in Hloop; [|by rewrite Hidx0].
  destruct Hloop as [Hidx Hleft]. rewrite Hidx0 in Hidx.
  rewrite Hleft0 in Hleft.
  split; [exact Hout|]. split; [exact Hreg|].
  unfold discoveryFinish.
  cbn [set_totalBoards set_networkHealthy set_isRemapping
       set_discoveryDone set_boardBaseNote myBoardIndex boardBaseNote
       hasLeftNeighbor].
  rewrite Hidx. change (0 =? 255) with false. cbn iota.
  cbn [set_totalBoards myBoardIndex hasLeftNeighbor].
  rewrite Hidx. done.
Qed.

(** A root with a silent bus. *)
Lemma root_keeps_position_zero_witness :
  ∃ s', startDiscovery quietRunEnv (bootBoard 7) = Some s'
        ∧ myBoardIndex s' = 0 ∧ hasLeftNeighbor s' = false.
Proof.
  destruct (startDiscovery quietRunEnv (bootBoard 7)) as [s'|] eqn:Hrun;
    [|by vm_compute in Hrun].
  exists s'. split; [done|].
  destruct (root_keeps_position_zero quietRunEnv (bootBoard 7) s'
              eq_refl Hrun) as (_ & _ & Hidx & _ & Hleft).
  by split.
Defined.

Lemma discoveryLoop_unwoken tStart ticks :
  ∀ leftPrev s s',
    myBoardIndex s = 0xFF →
    noFallingEdge leftPrev (tk_left <$> ticks) = true →
    discoveryLoop tStart leftPrev ticks s = Some s' →
    myBoardIndex s' = 0xFF
    ∧ hasLeftNeighbor s' = hasLeftNeighbor s
    ∧ ∃ tk, tk ∈ ticks ∧ DISCOVERY_MAX_MS <= u32 (tk_now tk - tStart).
Proof.
  induction ticks as [|tk ticks IH]; intros leftPrev s s' Hun Hquiet; [done|].
  cbn [fmap list_fmap noFallingEdge] in Hquiet.
  apply andb_true_iff in Hquiet as [Hnow Hquiet].
  cbn [discoveryLoop].
  destruct (Z.ltb_spec (u32 (tk_now tk - tStart)) DISCOVERY_MAX_MS)
    as [Hin|Hout].
  - destruct (processRs485_fields (tk_rx tk) s) as (Hidx & _ & _ & Hleft & _).
    assert (Hturn : (discoveryTurn tStart leftPrev tk s).1
                    = processRs485 (tk_rx tk) s).
    { apply discoveryTurn_no_edge.
      destruct leftPrev; [|by left]. right. left.
      by destruct (tk_left tk). }
    assert (Hbrk : (discoveryTurn tStart leftPrev tk s).2 = false).
    { unfold discoveryTurn in *. cbn [fst snd] in *. rewrite Hturn, Hidx, Hun.
      done. }
    destruct (discoveryTurn tStart leftPrev tk s) as [s2 brk].
    cbn [fst snd] in Hturn, Hbrk. subst s2 brk.
    intros Hrest.
    apply IH in Hrest; [|by rewrite Hidx|done].
    destruct Hrest as (Hidx' & Hleft' & tk' & Hmem & Hlate).
    split; [done|]. split; [by rewrite Hleft', Hleft|].
    exists tk'. split; [by apply list_elem_of_further|done].
  - intros [= <-]. split; [done|]. split; [done|].
    exists tk. split; [apply list_elem_of_here|done].
Qed.

(** X16.  The board that is never woken.  A board whose left input reads
    LOW at the start of a run and never shows a falling edge afterwards
    keeps no position while it waits, so it cannot leave the wait early:
    the run ends only once the whole discovery budget has elapsed, and
    then the board falls back to position 0 with the note base 48, still
    recording that it has a left neighbour. *)
Theorem unwoken_board_defaults_to_zero (env : DiscoveryEnv) (s s' : Board) :
  de_sense env = false →
  noFallingEdge (de_leftPrev env) (tk_left <$> de_ticks env) = true →
  startDiscovery env s = Some s' →
  myBoardIndex s' = 0
  ∧ boardBaseNote s' = GLOBAL_BASE_NOTE
  ∧ hasLeftNeighbor s' = true
  ∧ ∃ tk, tk ∈ de_ticks env
          ∧ DISCOVERY_MAX_MS <= u32 (tk_now tk - de_tStart env).
Proof.
  intros Hleft Hquiet. unfold startDiscovery. intros Hrun.
  destruct (discoveryLoop _ _ _ _) as [s1|] eqn:Hloop; [|done].
  injection Hrun as <-.
  assert (Hbegin : myBoardIndex (discoveryBegin env s) = 0xFF
                   ∧ hasLeftNeighbor (discoveryBegin env s) = true)
    by (unfold discoveryBegin; rewrite Hleft; done).
  destruct Hbegin as [Hidx0 Hleft0].
  apply discoveryLoop_unwoken in Hloop; [|done..].
  destruct Hloop as (Hidx & Hl & Hlate). rewrite Hleft0 in Hl.
  split; [|split; [|split; [|exact Hlate]]].
  - unfold discoveryFinish.
    cbn [set_totalBoards set_networkHealthy set_isRemapping
         set_discoveryDone set_boardBaseNote myBoardIndex].
    by rewrite Hidx.
  - unfold discoveryFinish.
    cbn [set_totalBoards set_networkHealthy set_isRemapping
         set_discoveryDone set_boardBaseNote myBoardIndex boardBaseNote].
    by rewrite Hidx.
  - unfold discoveryFinish.
    cbn [set_totalBoards set_networkHealthy set_isRemapping
         set_discoveryDone set_boardBaseNote myBoardIndex hasLeftNeighbor].
    rewrite Hidx. done.
Qed.

Lemma unwoken_board_defaults_to_zero_witness :
  ∃ s', startDiscovery strandedEnv (bootBoard 7) = Some s'
        ∧ myBoardIndex s' = 0 ∧ hasLeftNeighbor s' = true.
Proof.
  destruct (startDiscovery strandedEnv (bootBoard 7)) as [s'|] eqn:Hrun;
    [|by vm_compute in Hrun].
  exists s'. split; [done|].
  destruct (unwoken_board_defaults_to_zero strandedEnv (bootBoard 7) s'
              eq_refl eq_refl Hrun) as (Hidx & _ & Hleft & _).
  by split.
Defined.

(** ** Keys and notes *)

Lemma u8_sub_add base k : 0 <= k < 256 → u8 (u8 (base + k) - base) = k.
Proof.
  intros Hk. unfold u8. rewrite Zminus_mod_idemp_l.
  replace (base + k - base) with k by lia. by apply Z.mod_small.
Qed.

Lemma keyIndexScan_absent offset tbl :
  ∀ i, Forall (fun k => k ≠ offset) tbl → keyIndexScan offset i tbl = 0xFF.
Proof.
  induction tbl as [|k tbl IH]; intros i Hall; [done|].
  apply Forall_cons in Hall as [Hk Hall]. cbn [keyIndexScan].
  destruct (Z.eqb_spec k offset); [done|]. by apply IH.
Qed.

(** X17.  Keys and notes correspond one to one within a board's window,
    wrap-around of the 8-bit note included.  The note of main key [k],
    base plus table offset, is found again at index [k]; and a note is
    found at an index below 24 exactly when it lies in the 24 semitones
    from the base on (modulo 256), the index then being that of the key
    which plays it, and gives [0xFF] otherwise. *)
Theorem key_note_round_trip (s : Board) :
  (∀ (k : nat) (off : Z),
     keyToNote !! k = Some off →
     keyIndexFromNote (u8 (boardBaseNote s + off)) s = Z.of_nat k)
  ∧ (∀ note : Z,
       let i := keyIndexFromNote note s in
       (i = 0xFF ∧ 24 <= u8 (note - boardBaseNote s))
       ∨ (0 <= i < 24
          ∧ u8 (note - boardBaseNote s) < 24
          ∧ keyToNote !! Z.to_nat i = Some (u8 (note - boardBaseNote s)))).
Proof.
  split.
  - intros k off Hk. unfold keyIndexFromNote.
    do 24 (destruct k as [|k];
           [injection Hk as <-; by rewrite u8_sub_add by lia|]).
    done.
  - intros note. unfold keyIndexFromNote.
    set (o := u8 (note - boardBaseNote s)).
    assert (Ho : 0 <= o < 256) by (apply Z.mod_pos_bound; lia).
    destruct (Z_lt_ge_dec o 24) as [Hin|Hout].
    + right.
      assert (Hcases : o = 0 ∨ o = 1 ∨ o = 2 ∨ o = 3 ∨ o = 4 ∨ o = 5
                       ∨ o = 6 ∨ o = 7 ∨ o = 8 ∨ o = 9 ∨ o = 10 ∨ o = 11
                       ∨ o = 12 ∨ o = 13 ∨ o = 14 ∨ o = 15 ∨ o = 16
                       ∨ o = 17 ∨ o = 18 ∨ o = 19 ∨ o = 20 ∨ o = 21
                       ∨ o = 22 ∨ o = 23) by lia.
      clearbody o.
      repeat (destruct Hcases as [->|Hcases]; [by vm_compute|]).
      subst o. by vm_compute.
    + left. split; [|lia]. apply keyIndexScan_absent.
      unfold keyToNote. repeat (constructor; [lia|]). constructor.
Qed.

(** ** The encoder *)

Lemma constrain_range v : 0 <= constrain v ENCODER_MIN ENCODER_MAX <= 127.
Proof.
  unfold constrain, ENCODER_MIN, ENCODER_MAX.
  destruct (Z.ltb_spec v 0); [lia|]. destruct (Z.gtb_spec v 127); lia.
Qed.

Lemma constrain_id v :
  0 <= v <= 127 → constrain v ENCODER_MIN ENCODER_MAX = v.
Proof.
  intros Hv. unfold constrain, ENCODER_MIN, ENCODER_MAX.
  destruct (Z.ltb_spec v 0); [lia|]. destruct (Z.gtb_spec v 127); lia.
Qed.

Lemma encoderISR_step a b e :
  0 <= encoderValue e <= 127 →
  0 <= encoderValue (encoderISR a b e) <= 127
  ∧ Z.abs (encoderValue (encoderISR a b e) - encoderValue e) <= 1.
Proof.
  intros Hv. unfold encoderISR. cbn [encoderValue].
  match goal with
  | |- context [if ?c then encoderValue e + 1 else _] => destruct c
  end;
  [|match goal with
    | |- context [if ?c then encoderValue e - 1 else _] => destruct c
    end];
    unfold constrain, ENCODER_MIN, ENCODER_MAX;
    repeat match goal with
           | |- context [?x <? ?y] => destruct (Z.ltb_spec x y)
           | |- context [?x >? ?y] => destruct (Z.gtb_spec x y)
           end; lia.
Qed.

(** X18.  The encoder count.  From a count within 0..127 any run of the
    interrupt routine, whatever the two inputs show, leaves the count
    within 0..127 and moves it by at most one per interrupt. *)
Theorem encoder_count_bounded (samples : list (bool * bool)) (e : Encoder) :
  0 <= encoderValue e <= 127 →
  let e' := encoderRun samples e in
  0 <= encoderValue e' <= 127
  ∧ Z.abs (encoderValue e' - encoderValue e) <= Z.of_nat (length samples).
Proof.
  intros Hv e'. subst e'. unfold encoderRun. revert e Hv.
  induction samples as [|[a b] samples IH]; intros e Hv; cbn [foldl].
  - split; [done|]. cbn. lia.
  - destruct (encoderISR_step a b e Hv) as [Hv1 Hd1].
    destruct (IH _ Hv1) as [Hv' Hd']. cbn [fst snd] in *.
    split; [done|]. cbn [length]. lia.
Qed.

Lemma encoder_count_bounded_witness :
  0 <= encoderValue
         (encoderRun [(false, true); (true, true)] (mkEncoder 127 0))
    <= 127.
Proof.
  apply (encoder_count_bounded [(false, true); (true, true)]
           (mkEncoder 127 0)).
  cbn. lia.
Defined.

(** Evaluate the comparisons of constants in the goal. *)
Ltac eval_eqb :=
  repeat match goal with
         | |- context [?x =? ?y] =>
             let r := eval vm_compute in (x =? y) in
             change (x =? y) with r
         end;
  cbn [andb orb].

(** X19.  A step forth and back.  When the stored state is the one the
    inputs had, moving the inputs anywhere and back restores the encoder
    as it was, provided the count is strictly inside 0..127; at the upper
    stop there is a step forth and back that leaves the count one lower,
    because the step forth is cut off and the step back is not. *)
Theorem encoder_step_back (a0 b0 : bool) (e : Encoder) :
  encoderLastState e = Z.lor (Z.shiftl (Z.b2z a0) 1) (Z.b2z b0) →
  (0 < encoderValue e < 127 →
   ∀ a b, encoderISR a0 b0 (encoderISR a b e) = e)
  ∧ (encoderValue e = ENCODER_MAX →
     ∃ a b, encoderValue (encoderISR a0 b0 (encoderISR a b e))
            = ENCODER_MAX - 1).
Proof.
  destruct e as [v last]. cbn [encoderValue encoderLastState].
  intros ->. split.
  - intros Hv a b. unfold encoderISR. cbn [encoderValue encoderLastState].
    destruct a0, b0, a, b; eval_eqb;
      rewrite ?(constrain_id (v + 1)), ?(constrain_id (v - 1)),
              ?(constrain_id v) by lia;
      rewrite ?(constrain_id (v + 1 - 1)), ?(constrain_id (v - 1 + 1)),
              ?(constrain_id v) by lia;
      f_equal; lia.
  - intros ->.
    destruct a0, b0;
      [exists true, false|exists false, false|exists true, true
      |exists false, true]; reflexivity.
Qed.

Lemma encoder_step_back_witness :
  encoderISR false false (encoderISR false true (mkEncoder 64 0))
  = mkEncoder 64 0.
Proof.
  apply (encoder_step_back false false (mkEncoder 64 0));
    [reflexivity | cbn; lia].
Defined.

(** ** The buzzer voices *)

Lemma sounding_cons v vs :
  sounding (v :: vs)
  = if bv_active v then bv_note v :: sounding vs else sounding vs.
Proof. unfold sounding. cbn. by destruct (bv_active v). Qed.

Lemma firstFree_None vs :
  firstFree vs = None → sounding vs = bv_note <$> vs.
Proof.
  induction vs as [|v vs IH]; [done|]. cbn [firstFree].
  rewrite sounding_cons.
  destruct (bv_active v); cbn [negb]; [|done].
  destruct (firstFree vs); [done|]. intros _. cbn. by rewrite IH.
Qed.

Lemma sounding_take_free note vs :
  ∀ i, firstFree vs = Some i →
       sounding (<[i := mkVoice true note]> vs) ≡ₚ note :: sounding vs.
Proof.
  induction vs as [|v vs IH]; intros i; [done|]. cbn [firstFree].
  destruct (bv_active v) eqn:Hact; cbn [negb].
  - destruct (firstFree vs) as [j|]; [|done]. intros [= <-].
    cbn [insert list_insert]. rewrite !sounding_cons, Hact.
    rewrite (IH j) by done. apply Permutation_swap.
  - intros [= <-]. cbn [insert list_insert].
    rewrite !sounding_cons, Hact. done.
Qed.

Lemma sounding_stop note vs :
  sounding (buzzerStopNoteInternal note vs)
  = List.filter (fun n => negb (n =? note)) (sounding vs).
Proof.
  unfold buzzerStopNoteInternal.
  induction vs as [|v vs IH]; [done|].
  cbn [fmap list_fmap]. rewrite !sounding_cons.
  destruct (bv_active v) eqn:Hact; cbn [andb].
  - destruct (bv_note v =? note) eqn:Hn; cbn [bv_active bv_note].
    + cbn [List.filter]. rewrite Hn. cbn [negb]. apply IH.
    + rewrite Hact. cbn [List.filter]. rewrite Hn. cbn [negb].
      by rewrite <- IH.
  - rewrite Hact. apply IH.
Qed.

(** X20.  Starting a buzzer note.  The voice array keeps its size and the
    new note sounds afterwards.  While a voice is free nothing that
    sounded is lost: the sounding notes are the old ones and the new one.
    When every voice is taken the note of voice 0 is replaced, so one
    sounding note is dropped although nobody released it. *)
Theorem buzzer_start_takes_voice (note : Z) (vs : list BuzzerVoice) :
  vs ≠ [] →
  let vs' := buzzerStartNoteInternal note vs in
  length vs' = length vs
  ∧ note ∈ sounding vs'
  ∧ (firstFree vs ≠ None → sounding vs' ≡ₚ note :: sounding vs)
  ∧ (firstFree vs = None →
     sounding vs' = note :: tail (sounding vs)
     ∧ length (sounding vs') = length vs).
Proof.
  intros Hne vs'. subst vs'. unfold buzzerStartNoteInternal.
  split; [apply length_insert|].
  destruct (firstFree vs) as [i|] eqn:Hfree; cbn [default].
  - pose proof (sounding_take_free note vs i Hfree) as Hperm.
    split; [|split; [done|done]].
    rewrite Hperm. apply list_elem_of_here.
  - pose proof (firstFree_None vs Hfree) as Hall.
    destruct vs as [|v vs]; [done|].
    assert (Hfree' : firstFree vs = None).
    { cbn [firstFree] in Hfree. destruct (negb (bv_active v)); [done|].
      by destruct (firstFree vs). }
    assert (Hnew : sounding (<[0%nat := mkVoice true note]> (v :: vs))
                   = note :: (bv_note <$> vs)).
    { cbn [insert list_insert]. rewrite sounding_cons. cbn [bv_active bv_note].
      by rewrite (firstFree_None vs Hfree'). }
    rewrite Hnew, Hall. cbn [fmap list_fmap tail length].
    split; [apply list_elem_of_here|]. split; [done|].
    split; [done|]. by rewrite length_fmap.
Qed.

Lemma buzzer_start_takes_voice_witness :
  69 ∈ sounding (buzzerStartNoteInternal 69
                   (replicate 12 (mkVoice true 60))).
Proof.
  apply (buzzer_start_takes_voice 69 (replicate 12 (mkVoice true 60))).
  done.
Defined.

(** X21.  Stopping a buzzer note silences every voice that holds it and
    no other: the sounding notes afterwards are the earlier ones without
    that note, in the same order, and the array keeps its size.  So a
    note started and then stopped does not sound, whichever voice it
    took and even if it took several. *)
Theorem buzzer_stop_silences_note (note : Z) (vs : list BuzzerVoice) :
  length (buzzerStopNoteInternal note vs) = length vs
  ∧ sounding (buzzerStopNoteInternal note vs)
    = List.filter (fun n => negb (n =? note)) (sounding vs)
  ∧ (∀ other,
       note ∉ sounding
                (buzzerStopNoteInternal note
                   (buzzerStartNoteInternal other
                      (buzzerStartNoteInternal note vs))))
  ∧ sounding (buzzerStopAllInternal vs) = [].
Proof.
  split; [apply length_fmap|]. split; [apply sounding_stop|]. split.
  - intros other. rewrite sounding_stop.
    rewrite list_elem_of_In, filter_In. intros [_ Hne].
    by rewrite Z.eqb_refl in Hne.
  - unfold buzzerStopAllInternal.
    induction vs as [|v vs IH]; [done|].
    cbn [fmap list_fmap]. rewrite sounding_cons. done.
Qed.

(** ** The key table *)

Lemma initKeyDefs_table defs :
  length defs = 32%nat →
  initKeyDefs defs = initKeyDefs (replicate 32 (mkKeyDef 0 0 false)).
Proof.
  intros Hlen.
  do 32 (destruct defs as [|? defs]; [done|]).
  destruct defs; [|done]. reflexivity.
Qed.

(** X22.  The key table.  Whatever the array held, [initKeyDefs] writes
    all 32 entries: the first 24 are main keys and the last 8 extra keys,
    every entry names a multiplexer (0 or 1) and a channel below 16, and
    no two keys select the same analog pin with the same select levels,
    so every key is read from an input of its own. *)
Theorem key_table_complete (defs : list KeyDef) :
  length defs = 32%nat →
  let table := initKeyDefs defs in
  length table = 32%nat
  ∧ isExtra <$> table = replicate 24 false ++ replicate 8 true
  ∧ NoDup (readKeyRaw <$> table)
  ∧ (∀ k def, table !! k = Some def →
       0 <= muxChannel def < 16 ∧ 0 <= muxIndex def <= 1).
Proof.
  intros Hlen table. subst table. rewrite (initKeyDefs_table defs Hlen).
  split; [reflexivity|]. split; [reflexivity|]. split.
  - apply (bool_decide_unpack _). by vm_compute.
  - intros k def Hk.
    do 32 (destruct k as [|k]; [injection Hk as <-; by vm_compute|]).
    done.
Qed.

Lemma key_table_complete_witness :
  NoDup (readKeyRaw <$> initKeyDefs (replicate 32 (mkKeyDef 1 15 true))).
Proof.
  destruct (key_table_complete (replicate 32 (mkKeyDef 1 15 true)) eq_refl)
    as (_ & _ & Hnd & _).
  exact Hnd.
Defined.

(** ** Key scanning and the local note handlers *)

Ltac panel_simpl :=
  cbn [set_board set_keyStates set_keyBaseVelocity set_buzzerEnabled
       set_audioEnabled set_buzzerVoices call negb
       board keyDefs keyStates keyBaseVelocity buzzerEnabled audioEnabled
       buzzerVoices calls] in *.

Lemma setKeyLedBase_inside k vel on p :
  0 <= k < 32 →
  setKeyLedBase k vel on p
  = set_keyBaseVelocity
      (<[Z.to_nat k := if on then vel else 0]> (keyBaseVelocity p)) p.
Proof.
  intros Hk. unfold setKeyLedBase, TOTAL_KEYS.
  destruct (Z.geb_spec k 32); [lia|done].
Qed.

Lemma onLocalNoteOn_fields note vel p :
  let p' := onLocalNoteOn note vel p in
  let idx := keyIndexFromNote note (board p) in
  keyBaseVelocity p'
  = keyBaseVelocity
      (if negb (idx =? 0xFF) then setKeyLedBase idx vel true p else p)
  ∧ calls p' = calls p ++ [StartRipple note vel; MidiNoteOn note vel]
                       ++ (if audioEnabled p then [SynthNoteOn note vel]
                           else [])
  ∧ board p' = broadcastNoteEvent note vel true (board p)
  ∧ buzzerVoices p'
    = (if buzzerEnabled p
       then buzzerStartNoteInternal note (buzzerVoices p)
       else buzzerVoices p)
  ∧ keyStates p' = keyStates p ∧ keyDefs p' = keyDefs p
  ∧ buzzerEnabled p' = buzzerEnabled p ∧ audioEnabled p' = audioEnabled p.
Proof.
  intros p' idx. subst p'. unfold onLocalNoteOn. fold idx.
  unfold synthNoteOn, buzzerNoteOn, setKeyLedBase. clearbody idx.
  destruct p as [b kd ks kv be ae bv cs].
  destruct (negb (idx =? 255)), (idx >=? TOTAL_KEYS), ae, be; panel_simpl;
    rewrite <- ?app_assoc; done.
Qed.

Lemma onLocalNoteOff_fields note p :
  let p' := onLocalNoteOff note p in
  let idx := keyIndexFromNote note (board p) in
  keyBaseVelocity p'
  = keyBaseVelocity
      (if negb (idx =? 0xFF) then setKeyLedBase idx 0 false p else p)
  ∧ calls p' = calls p ++ [MidiNoteOff note 0; SynthNoteOff note]
  ∧ board p' = broadcastNoteEvent note 0 false (board p)
  ∧ buzzerVoices p'
    = (if buzzerEnabled p
       then buzzerStopNoteInternal note (buzzerVoices p)
       else buzzerVoices p)
  ∧ keyStates p' = keyStates p ∧ keyDefs p' = keyDefs p
  ∧ buzzerEnabled p' = buzzerEnabled p ∧ audioEnabled p' = audioEnabled p.
Proof.
  intros p' idx. subst p'. unfold onLocalNoteOff. fold idx.
  unfold buzzerNoteOff, setKeyLedBase. clearbody idx.
  destruct p as [b kd ks kv be ae bv cs].
  destruct (negb (idx =? 255)), (idx >=? TOTAL_KEYS), be; panel_simpl;
    rewrite <- ?app_assoc; done.
Qed.

Lemma keyIndexFromNote_keyNote (k : nat) p :
  (k < 24)%nat → keyIndexFromNote (keyNote (Z.of_nat k) p) (board p) = Z.of_nat k.
Proof.
  intros Hk. unfold keyIndexFromNote, keyNote. rewrite Nat2Z.id.
  do 24 (destruct k as [|k]; [by rewrite u8_sub_add by (vm_compute; done)|]).
  lia.
Qed.
Lemma computeVelocity_range curve delta dtUs :
  1 <= computeVelocity curve delta dtUs <= 255.
Proof.
  unfold computeVelocity.
  destruct (_ <=? _); [lia|]. destruct (_ >=? _); [lia|].
  pose proof (Z.mod_pos_bound (curve dtUs) 256 ltac:(lia)) as Hu.
  unfold u8. destruct (Z.ltb_spec (curve dtUs mod 256) 1); lia.
Qed.

Lemma scanKey_fire curve (k : nat) raw now p def st :
  keyDefs p !! k = Some def → isExtra def = false →
  keyStates p !! k = Some st →
  ks_pressed st = true → ks_velocityComputed st = false →
  VELOCITY_FULL_DELTA < keyDelta (u16 raw) (ks_baseline st) →
  let vel := computeVelocity curve (keyDelta (u16 raw) (ks_baseline st))
               (u32 (u32 now - ks_pressStartUs st)) in
  scanKey curve (Z.of_nat k) raw now p
  = storeKey (Z.of_nat k)
      (mkKeyState (u16 raw) (ks_baseline st) true true (ks_pressStartUs st)
                  vel)
      (onLocalNoteOn (keyNote (Z.of_nat k) p) vel p).
Proof.
  intros Hdef Hmain Hst Hpressed Hcomp Hdelta vel.
  pose proof (computeVelocity_range curve
                (keyDelta (u16 raw) (ks_baseline st))
                (u32 (u32 now - ks_pressStartUs st))) as Hvel.
  fold vel in Hvel.
  unfold scanKey. cbv zeta. rewrite Nat2Z.id, Hdef, Hst. cbn [default from_option id].
  rewrite Hpressed, Hcomp, Hmain. cbn [negb andb].
  unfold VELOCITY_FULL_DELTA, VELOCITY_ON_DELTA in *.
  destruct (Z.gtb_spec (keyDelta (u16 raw) (ks_baseline st)) 300); [|lia].
  change (80 / 2) with 40.
  destruct (Z.ltb_spec (keyDelta (u16 raw) (ks_baseline st)) 40); [lia|].
  fold vel. destruct (Z.eqb_spec vel 0); [lia|]. done.
Qed.

(** X23.  A main key pressed home.  When a main key that is down and has
    no velocity yet is read more than 300 counts off its baseline, the
    scan sends the note of that key exactly once to every sink: the LED of
    that same key takes the velocity, USB MIDI and the ripple get note and
    velocity, the synth gets them if audio is on, and one NOTE frame with
    the board's identity, note, velocity and 1 goes to the bus.  The
    velocity is what [computeVelocity] returned and is never 0, and the
    key is marked so that later scans do not send the note again. *)
Theorem main_key_press_sends_note
    (curve : Z → Z) (k : nat) (raw now : Z) (p : Panel)
    (def : KeyDef) (st : KeyState) :
  (k < 24)%nat →
  keyDefs p !! k = Some def → isExtra def = false →
  keyStates p !! k = Some st →
  ks_pressed st = true → ks_velocityComputed st = false →
  VELOCITY_FULL_DELTA < keyDelta (u16 raw) (ks_baseline st) →
  (k < length (keyBaseVelocity p))%nat →
  let p' := scanKey curve (Z.of_nat k) raw now p in
  let note := keyNote (Z.of_nat k) p in
  let vel := computeVelocity curve (keyDelta (u16 raw) (ks_baseline st))
               (u32 (u32 now - ks_pressStartUs st)) in
  1 <= vel <= 255
  ∧ keyBaseVelocity p' = <[k := vel]> (keyBaseVelocity p)
  ∧ keyBaseVelocity p' !! k = Some vel
  ∧ out (board p')
    = out (board p)
      ++ (BusWrite <$> frameBytes RS485_NOTE_MSG
                         (idBytes (myNodeId (board p)) ++ [note; vel; 1]) 7)
  ∧ calls p'
    = calls p ++ [StartRipple note vel; MidiNoteOn note vel]
              ++ (if audioEnabled p then [SynthNoteOn note vel] else [])
  ∧ keyStates p'
    = <[k := mkKeyState (u16 raw) (ks_baseline st) true true
                        (ks_pressStartUs st) vel]> (keyStates p)
  ∧ scanKey curve (Z.of_nat k) raw now p' = p'.
Proof.
  intros Hk Hdef Hmain Hst Hpressed Hcomp Hdelta Hled p' note vel.
  subst p'.
  rewrite (scanKey_fire curve k raw now p def st) by done.
  fold vel. subst note.
  pose proof (computeVelocity_range curve
                (keyDelta (u16 raw) (ks_baseline st))
                (u32 (u32 now - ks_pressStartUs st))) as Hvel.
  fold vel in Hvel.
  destruct (onLocalNoteOn_fields (keyNote (Z.of_nat k) p) vel p)
    as (Hkv & Hcalls & Hboard & _ & Hks & Hkd & _ & _).
  generalize dependent (onLocalNoteOn (keyNote (Z.of_nat k) p) vel p).
  intros p1 Hkv Hcalls Hboard Hks Hkd. clearbody vel.
  rewrite keyIndexFromNote_keyNote in Hkv by done.
  destruct (Z.eqb_spec (Z.of_nat k) 255) as [|_]; [lia|].
  cbn [negb] in Hkv. rewrite setKeyLedBase_inside in Hkv by lia.
  rewrite Nat2Z.id in Hkv. cbn [keyBaseVelocity set_keyBaseVelocity] in Hkv.
  unfold storeKey. rewrite Nat2Z.id.
  cbn [set_keyStates keyBaseVelocity board calls keyStates].
  split; [exact Hvel|].
  split; [exact Hkv|].
  split; [rewrite Hkv; by apply list_lookup_insert_eq|].
  split; [by rewrite Hboard|].
  split; [exact Hcalls|].
  split; [by rewrite Hks|].
  unfold scanKey. cbv zeta. rewrite Nat2Z.id.
  cbn [keyDefs keyStates set_keyStates]. rewrite Hkd, Hdef.
  rewrite list_lookup_insert_eq by (rewrite Hks; by eapply lookup_lt_Some).
  cbn [default from_option id ks_pressed ks_velocityComputed negb andb
       ks_baseline ks_velocity ks_pressStartUs].
  unfold VELOCITY_FULL_DELTA, VELOCITY_ON_DELTA in *.
  change (80 / 2) with 40.
  destruct (Z.ltb_spec (keyDelta (u16 raw) (ks_baseline st)) 40); [lia|].
  unfold storeKey. rewrite Nat2Z.id. cbn [keyStates set_keyStates].
  rewrite list_insert_insert_eq. reflexivity.
Qed.

Lemma main_key_press_sends_note_witness :
  keyBaseVelocity (scanKey flatCurve (Z.of_nat 0) 2400 3000 touchedPanel)
    !! 0%nat = Some 64.
Proof.
  destruct (main_key_press_sends_note flatCurve 0 2400 3000 touchedPanel
              (mkKeyDef 0 8 false) (mkKeyState 2100 2000 true false 1000 0))
    as (_ & _ & Hled & _);
    [lia | reflexivity | reflexivity | reflexivity | reflexivity
    | reflexivity | by vm_compute | vm_compute; lia | exact Hled].
Defined.

Lemma scanKey_touch curve (k : nat) raw now p st :
  keyStates p !! k = Some st → ks_pressed st = false →
  VELOCITY_ON_DELTA < keyDelta (u16 raw) (ks_baseline st) →
  scanKey curve (Z.of_nat k) raw now p
  = storeKey (Z.of_nat k)
      (mkKeyState (u16 raw) (ks_baseline st) true false (u32 now)
                  (ks_velocity st)) p.
Proof.
  intros Hst Hidle Hdelta. unfold scanKey. cbv zeta.
  rewrite Nat2Z.id, Hst. cbn [default from_option id].
  rewrite Hidle. cbn [negb].
  destruct (Z.gtb_spec (keyDelta (u16 raw) (ks_baseline st))
                       VELOCITY_ON_DELTA); [done|lia].
Qed.

Lemma scanKey_release curve (k : nat) raw now p def st :
  keyDefs p !! k = Some def → isExtra def = false →
  keyStates p !! k = Some st → ks_pressed st = true →
  keyDelta (u16 raw) (ks_baseline st) < VELOCITY_ON_DELTA / 2 →
  scanKey curve (Z.of_nat k) raw now p
  = storeKey (Z.of_nat k)
      (mkKeyState (u16 raw) (ks_baseline st) false false
                  (ks_pressStartUs st) (ks_velocity st))
      (onLocalNoteOff (keyNote (Z.of_nat k) p) p).
Proof.
  intros Hdef Hmain Hst Hpressed Hdelta. unfold scanKey. cbv zeta.
  rewrite Nat2Z.id, Hdef, Hst. cbn [default from_option id].
  rewrite Hpressed, Hmain. cbn [negb].
  change (VELOCITY_ON_DELTA / 2) with 40 in *.
  unfold VELOCITY_FULL_DELTA.
  destruct (Z.gtb_spec (keyDelta (u16 raw) (ks_baseline st)) 300); [lia|].
  rewrite andb_false_r.
  destruct (Z.ltb_spec (keyDelta (u16 raw) (ks_baseline st)) 40); [done|lia].
Qed.

(** X24.  A key touched and let go.  The first scan that reads an idle
    main key more than 80 counts off its baseline only marks it as down,
    however far off the reading is; if the next scan reads it less than 40
    off, the key is reported released.  So USB MIDI, the synth and the bus
    get a note-off (a NOTE frame with velocity 0 and 0) for a note that
    was never reported on, and nothing else is sent. *)
Theorem touch_sends_note_off_only
    (curve : Z → Z) (k : nat) (raw1 now1 raw2 now2 : Z) (p : Panel)
    (def : KeyDef) (st : KeyState) :
  keyDefs p !! k = Some def → isExtra def = false →
  keyStates p !! k = Some st → ks_pressed st = false →
  VELOCITY_ON_DELTA < keyDelta (u16 raw1) (ks_baseline st) →
  keyDelta (u16 raw2) (ks_baseline st) < VELOCITY_ON_DELTA / 2 →
  let p1 := scanKey curve (Z.of_nat k) raw1 now1 p in
  let p2 := scanKey curve (Z.of_nat k) raw2 now2 p1 in
  let note := keyNote (Z.of_nat k) p in
  calls p1 = calls p ∧ out (board p1) = out (board p)
  ∧ calls p2 = calls p ++ [MidiNoteOff note 0; SynthNoteOff note]
  ∧ out (board p2)
    = out (board p)
      ++ (BusWrite <$> frameBytes RS485_NOTE_MSG
                         (idBytes (myNodeId (board p)) ++ [note; 0; 0]) 7)
  ∧ (ks_pressed <$> keyStates p2 !! k) = Some false.
Proof.
  intros Hdef Hmain Hst Hidle Hdown Hup p1 p2 note.
  assert (Hp1 : p1 = storeKey (Z.of_nat k)
                       (mkKeyState (u16 raw1) (ks_baseline st) true false
                                   (u32 now1) (ks_velocity st)) p)
    by (by apply scanKey_touch).
  assert (Hst1 : keyStates p1 !! k
                 = Some (mkKeyState (u16 raw1) (ks_baseline st) true false
                                    (u32 now1) (ks_velocity st))).
  { rewrite Hp1. unfold storeKey. rewrite Nat2Z.id.
    cbn [keyStates set_keyStates].
    apply list_lookup_insert_eq. by eapply lookup_lt_Some. }
  assert (Hdef1 : keyDefs p1 !! k = Some def) by (by rewrite Hp1).
  assert (Hnote : keyNote (Z.of_nat k) p1 = note) by (by rewrite Hp1).
  assert (Hcalls1 : calls p1 = calls p) by (by rewrite Hp1).
  assert (Hboard1 : board p1 = board p) by (by rewrite Hp1).
  clearbody p1. subst p2.
  rewrite (scanKey_release curve k raw2 now2 p1 def _ Hdef1 Hmain Hst1)
    by done.
  rewrite Hnote.
  destruct (onLocalNoteOff_fields note p1)
    as (_ & Hcalls & Hboard & _ & Hks & _).
  generalize dependent (onLocalNoteOff note p1).
  intros p2 Hcalls Hboard Hks.
  unfold storeKey. rewrite Nat2Z.id.
  cbn [set_keyStates keyBaseVelocity board calls keyStates
       ks_baseline ks_pressStartUs ks_velocity].
  split; [done|]. split; [by rewrite Hboard1|].
  split; [by rewrite Hcalls, Hcalls1|].
  split; [by rewrite Hboard, Hboard1|].
  rewrite list_lookup_insert_eq; [done|].
  rewrite Hks. by eapply lookup_lt_Some.
Qed.

Lemma touch_sends_note_off_only_witness :
  calls (scanKey flatCurve (Z.of_nat 0) 2010 2000
           (scanKey flatCurve (Z.of_nat 0) 2100 1000 restPanel))
  = [MidiNoteOff 49 0; SynthNoteOff 49].
Proof.
  destruct (touch_sends_note_off_only flatCurve 0 2100 1000 2010 2000
              restPanel (mkKeyDef 0 8 false)
              (mkKeyState 2000 2000 false false 0 0))
    as (_ & _ & Hcalls & _);
    [reflexivity | reflexivity | reflexivity | reflexivity
    | by vm_compute | by vm_compute | exact Hcalls].
Defined.

Lemma u8_u8_add a b : u8 (u8 a + b) = u8 (a + b).
Proof. unfold u8. by rewrite Zplus_mod_idemp_l. Qed.

Lemma u8_octave_ne n : u8 (u8 n + 12) ≠ u8 n.
Proof.
  unfold u8.
  pose proof (Z.mod_pos_bound n 256 ltac:(lia)) as Hn.
  generalize dependent (n mod 256). intros m Hm.
  pose proof (Z.div_mod (m + 12) 256 ltac:(lia)) as Hdm.
  pose proof (Z.mod_pos_bound (m + 12) 256 ltac:(lia)) as Hb.
  lia.
Qed.

Lemma keyNote_octave_up k p :
  keyNote k (handleExtraKeyPressed 3 p) = u8 (keyNote k p + 12).
Proof.
  unfold keyNote, handleExtraKeyPressed.
  change (3 =? 0) with false. change (3 =? 1) with false.
  change (3 =? 2) with false. change (3 =? 3) with true. cbv iota.
  cbn [board set_board boardBaseNote set_boardBaseNote].
  rewrite !u8_u8_add. f_equal. lia.
Qed.

(** X25.  An octave shift under a held key.  Pressing extra key 3 moves
    the base note up by 12, so a main key that was reported at its old
    note is, when let go, reported released at the note 12 higher (modulo
    256), which is never the note that was turned on: MIDI, synth and bus
    get a note-off for that other note and none for the sounding one.
    The key's own LED is still the one cleared. *)
Theorem octave_shift_strands_note
    (curve : Z → Z) (k : nat) (raw now : Z) (p : Panel)
    (def : KeyDef) (st : KeyState) :
  (k < 24)%nat →
  keyDefs p !! k = Some def → isExtra def = false →
  keyStates p !! k = Some st → ks_pressed st = true →
  keyDelta (u16 raw) (ks_baseline st) < VELOCITY_ON_DELTA / 2 →
  let shifted := handleExtraKeyPressed 3 p in
  let p' := scanKey curve (Z.of_nat k) raw now shifted in
  let note := keyNote (Z.of_nat k) p in
  let note' := u8 (note + 12) in
  note' ≠ note
  ∧ calls p' = calls p ++ [MidiNoteOff note' 0; SynthNoteOff note']
  ∧ out (board p')
    = out (board p)
      ++ (BusWrite <$> frameBytes RS485_NOTE_MSG
                         (idBytes (myNodeId (board p)) ++ [note'; 0; 0]) 7)
  ∧ keyBaseVelocity p' = <[k := 0]> (keyBaseVelocity p).
Proof.
  intros Hk Hdef Hmain Hst Hpressed Hup shifted p' note note'.
  assert (Hnote : keyNote (Z.of_nat k) shifted = note')
    by apply keyNote_octave_up.
  assert (Hsh : keyDefs shifted = keyDefs p ∧ keyStates shifted = keyStates p
                ∧ calls shifted = calls p
                ∧ keyBaseVelocity shifted = keyBaseVelocity p
                ∧ out (board shifted) = out (board p)
                ∧ myNodeId (board shifted) = myNodeId (board p)) by done.
  destruct Hsh as (Hkd & Hks & Hcalls0 & Hkv0 & Hout0 & Hid0).
  pose proof (keyIndexFromNote_keyNote k shifted Hk) as Hidx.
  rewrite Hnote in Hidx.
  clearbody shifted. subst p'.
  rewrite (scanKey_release curve k raw now shifted def st)
    by (by rewrite ?Hkd, ?Hks).
  rewrite Hnote.
  destruct (onLocalNoteOff_fields note' shifted)
    as (Hkv & Hcalls & Hboard & _ & _).
  rewrite Hidx in Hkv.
  generalize dependent (onLocalNoteOff note' shifted).
  intros p2 Hkv Hcalls Hboard.
  destruct (Z.eqb_spec (Z.of_nat k) 255) as [|_]; [lia|].
  cbn [negb] in Hkv. rewrite setKeyLedBase_inside in Hkv by lia.
  rewrite Nat2Z.id in Hkv. cbn [keyBaseVelocity set_keyBaseVelocity] in Hkv.
  unfold storeKey.
  cbn [set_keyStates keyBaseVelocity board calls keyStates].
  split.
  - subst note' note. unfold keyNote. apply u8_octave_ne.
  - split; [by rewrite Hcalls, Hcalls0|].
    split; [by rewrite Hboard; cbn; rewrite Hout0, Hid0|].
    by rewrite Hkv, Hkv0.
Qed.

Lemma octave_shift_strands_note_witness :
  calls (scanKey flatCurve (Z.of_nat 0) 2010 5000
           (handleExtraKeyPressed 3 heldPanel))
  = calls heldPanel ++ [MidiNoteOff 61 0; SynthNoteOff 61].
Proof.
  destruct (octave_shift_strands_note flatCurve 0 2010 5000 heldPanel
              (mkKeyDef 0 8 false) (mkKeyState 2400 2000 true true 1000 64))
    as (_ & Hcalls & _);
    [lia | reflexivity | reflexivity | reflexivity | reflexivity
    | by vm_compute | exact Hcalls].
Defined.

(** X26.  Switching the buzzer off under a held note.  With the buzzer
    on, a note turned on takes a buzzer voice and turning it off frees
    the voice.  If extra key 0 switches the buzzer off in between, the
    note-off leaves the voices alone: the note keeps sounding on the
    buzzer after its key is released, and no later note-off silences it
    while the buzzer stays off. *)
Theorem buzzer_off_strands_voice
    (note vel : Z) (later : list Z) (p : Panel) :
  buzzerEnabled p = true → buzzerVoices p ≠ [] →
  let held := onLocalNoteOn note vel p in
  let muted := handleExtraKeyPressed 0 held in
  let released := foldl (fun q n => onLocalNoteOff n q) muted (note :: later) in
  (note ∉ sounding (buzzerVoices (onLocalNoteOff note held)))
  ∧ buzzerEnabled released = false
  ∧ note ∈ sounding (buzzerVoices released).
Proof.
  intros Hon Hne held muted released.
  destruct (onLocalNoteOn_fields note vel p)
    as (_ & _ & _ & Hbv & _ & _ & Hbe & _).
  rewrite Hon in Hbv, Hbe. fold held in Hbv, Hbe.
  assert (Hmuted : buzzerEnabled muted = false
                   ∧ buzzerVoices muted = buzzerVoices held).
  { subst muted. unfold handleExtraKeyPressed. change (0 =? 0) with true.
    cbv iota. cbn [buzzerEnabled buzzerVoices set_buzzerEnabled].
    by rewrite Hbe. }
  destruct Hmuted as [Hoff Hsame].
  assert (Hkeep : ∀ notes q,
            buzzerEnabled q = false →
            buzzerEnabled (foldl (fun q n => onLocalNoteOff n q) q notes)
            = false
            ∧ buzzerVoices (foldl (fun q n => onLocalNoteOff n q) q notes)
              = buzzerVoices q).
  { induction notes as [|n notes IH]; intros q Hq; [done|].
    cbn [foldl].
    destruct (onLocalNoteOff_fields n q) as (_ & _ & _ & Hv & _ & _ & He & _).
    rewrite Hq in Hv, He.
    destruct (IH (onLocalNoteOff n q) He) as [-> ->]. done. }
  destruct (Hkeep (note :: later) muted Hoff) as [Hoff' Hvoices'].
  fold released in Hoff', Hvoices'.
  destruct (onLocalNoteOff_fields note held) as (_ & _ & _ & Hstop & _).
  rewrite Hbe in Hstop.
  generalize dependent (onLocalNoteOff note held). intros q Hstop.
  clearbody released muted held.
  rewrite Hstop, Hvoices', Hsame, Hbv.
  split; [|split; [done|]].
  - rewrite sounding_stop, list_elem_of_In, filter_In. intros [_ Hn].
    by rewrite Z.eqb_refl in Hn.
  - unfold buzzerStartNoteInternal.
    destruct (firstFree (buzzerVoices p)) as [i|] eqn:Hfree; cbn [default].
    + rewrite (sounding_take_free note _ i Hfree). apply list_elem_of_here.
    + destruct (buzzerVoices p) as [|v vs]; [done|].
      cbn [insert list_insert]. rewrite sounding_cons.
      cbn [bv_active bv_note]. apply list_elem_of_here.
Qed.

Lemma buzzer_off_strands_voice_witness :
  60 ∈ sounding
         (buzzerVoices
            (onLocalNoteOff 60
               (handleExtraKeyPressed 0
                  (onLocalNoteOn 60 100
                     (set_buzzerEnabled true restPanel))))).
Proof.
  destruct (buzzer_off_strands_voice 60 100 []
              (set_buzzerEnabled true restPanel))
    as (_ & _ & Hin); [reflexivity | done | exact Hin].
Defined.

Lemma set_boardBaseNote_same s : set_boardBaseNote (boardBaseNote s) s = s.
Proof. by destruct s. Qed.

Lemma set_boardBaseNote_twice a b s :
  set_boardBaseNote b (set_boardBaseNote a s) = set_boardBaseNote b s.
Proof. reflexivity. Qed.

Lemma handleExtraKeyPressed_shift p :
  handleExtraKeyPressed 3 p
  = set_board (set_boardBaseNote (u8 (boardBaseNote (board p) + 12))
                                 (board p)) p
  ∧ handleExtraKeyPressed 4 p
    = set_board (set_boardBaseNote (u8 (boardBaseNote (board p) - 12))
                                   (board p)) p.
Proof. by split. Qed.

(** X27.  The extra keys.  Keys 0 and 1 toggle: pressing either twice
    restores the panel.  Keys 3 and 4 undo each other exactly, the 8-bit
    wrap-around of the base note included.  Key 2 writes the four bytes of
    an empty REMAP_REQUEST frame, marks the network unhealthy and leaves
    a remap pending, so that the next pass of the main loop runs
    discovery; indices from 5 on do nothing. *)
Theorem extra_keys_effects (p : Panel) (env : DiscoveryEnv) :
  0 <= boardBaseNote (board p) < 256 →
  handleExtraKeyPressed 0 (handleExtraKeyPressed 0 p) = p
  ∧ handleExtraKeyPressed 1 (handleExtraKeyPressed 1 p) = p
  ∧ handleExtraKeyPressed 4 (handleExtraKeyPressed 3 p) = p
  ∧ handleExtraKeyPressed 3 (handleExtraKeyPressed 4 p) = p
  ∧ (∀ i, 5 <= i → handleExtraKeyPressed i p = p)
  ∧ (let s' := board (handleExtraKeyPressed 2 p) in
     out s' = out (board p)
              ++ (BusWrite <$> [0xAA; 0; RS485_REMAP_REQUEST_MSG; 5])
     ∧ networkHealthy s' = false
     ∧ loopRemap env s' = startDiscovery env (set_remapRequested false s')).
Proof.
  intros Hbase.
  assert (Hup : u8 (u8 (boardBaseNote (board p) + 12) - 12)
                = boardBaseNote (board p)).
  { unfold u8. rewrite Zminus_mod_idemp_l.
    replace (boardBaseNote (board p) + 12 - 12)
      with (boardBaseNote (board p)) by lia.
    by apply Z.mod_small. }
  assert (Hdown : u8 (u8 (boardBaseNote (board p) - 12) + 12)
                  = boardBaseNote (board p)).
  { unfold u8. rewrite Zplus_mod_idemp_l.
    replace (boardBaseNote (board p) - 12 + 12)
      with (boardBaseNote (board p)) by lia.
    by apply Z.mod_small. }
  split; [|split; [|split; [|split; [|split]]]].
  - destruct p as [b kd ks kv be ae bv cs]. unfold handleExtraKeyPressed.
    change (0 =? 0) with true. cbv iota.
    cbn [buzzerEnabled set_buzzerEnabled board keyDefs keyStates
         keyBaseVelocity audioEnabled buzzerVoices calls].
    by rewrite negb_involutive.
  - destruct p as [b kd ks kv be ae bv cs]. unfold handleExtraKeyPressed.
    change (1 =? 0) with false. change (1 =? 1) with true. cbv iota.
    cbn [buzzerEnabled set_audioEnabled board keyDefs keyStates
         keyBaseVelocity audioEnabled buzzerVoices calls].
    by rewrite negb_involutive.
  - destruct (handleExtraKeyPressed_shift p) as [-> _].
    destruct (handleExtraKeyPressed_shift
                (set_board (set_boardBaseNote
                              (u8 (boardBaseNote (board p) + 12)) (board p))
                           p)) as [_ ->].
    destruct p as [b kd ks kv be ae bv cs].
    cbn [board set_board keyDefs keyStates keyBaseVelocity buzzerEnabled
         audioEnabled buzzerVoices calls boardBaseNote set_boardBaseNote]
      in *.
    rewrite set_boardBaseNote_twice, Hup.
    by rewrite set_boardBaseNote_same.
  - destruct (handleExtraKeyPressed_shift p) as [_ ->].
    destruct (handleExtraKeyPressed_shift
                (set_board (set_boardBaseNote
                              (u8 (boardBaseNote (board p) - 12)) (board p))
                           p)) as [-> _].
    destruct p as [b kd ks kv be ae bv cs].
    cbn [board set_board keyDefs keyStates keyBaseVelocity buzzerEnabled
         audioEnabled buzzerVoices calls boardBaseNote set_boardBaseNote]
      in *.
    rewrite set_boardBaseNote_twice, Hdown.
    by rewrite set_boardBaseNote_same.
  - intros i Hi. unfold handleExtraKeyPressed.
    destruct (Z.eqb_spec i 0); [lia|]. destruct (Z.eqb_spec i 1); [lia|].
    destruct (Z.eqb_spec i 2); [lia|]. destruct (Z.eqb_spec i 3); [lia|].
    destruct (Z.eqb_spec i 4); [lia|]. done.
  - unfold handleExtraKeyPressed.
    change (2 =? 0) with false. change (2 =? 1) with false.
    change (2 =? 2) with true. cbv iota.
    cbn [board set_board]. generalize (board p). intros s.
    unfold loopRemap, rs485SendPacket. done.
Qed.

Lemma extra_keys_effects_witness :
  handleExtraKeyPressed 4 (handleExtraKeyPressed 3 restPanel) = restPanel.
Proof.
  destruct (extra_keys_effects restPanel quietRunEnv) as (_ & _ & Hud & _);
    [by vm_compute | exact Hud].
Defined.

Lemma scanKey_idle curve (k : nat) raw now p st :
  keyStates p !! k = Some st → ks_pressed st = false →
  keyDelta (u16 raw) (ks_baseline st) <= VELOCITY_ON_DELTA →
  scanKey curve (Z.of_nat k) raw now p
  = storeKey (Z.of_nat k) (recordRaw raw st) p.
Proof.
  intros Hst Hidle Hdelta. unfold scanKey. cbv zeta.
  rewrite Nat2Z.id, Hst. cbn [default from_option id].
  rewrite Hidle. cbn [negb].
  destruct (Z.gtb_spec (keyDelta (u16 raw) (ks_baseline st))
                       VELOCITY_ON_DELTA); [lia|done].
Qed.

Lemma scan_quiet curve (l : list (nat * (Z * Z))) :
  ∀ p, NoDup l.*1 → Forall (quiet p) l →
       let p' := foldl (fun p ks => scanKey curve (Z.of_nat ks.1) ks.2.1
                                            ks.2.2 p) p l in
       p' = set_keyStates (keyStates p') p
       ∧ length (keyStates p') = length (keyStates p)
       ∧ (∀ k, k ∉ l.*1 → keyStates p' !! k = keyStates p !! k)
       ∧ (∀ k raw now st, (k, (raw, now)) ∈ l →
            keyStates p !! k = Some st →
            keyStates p' !! k = Some (recordRaw raw st)).
Proof.
  induction l as [|[k [raw now]] l IH]; intros p Hnd Hq; cbn [foldl].
  { split; [by destruct p|]. split; [done|]. split; [done|].
    intros ???? Hin. by apply elem_of_nil in Hin. }
  cbn [fmap list_fmap fst] in Hnd. apply NoDup_cons in Hnd as [Hk Hnd].
  apply Forall_cons in Hq as [(st & Hst & Hidle & Hdelta) Hq].
  cbn [fst snd] in *.
  rewrite (scanKey_idle curve k raw now p st) by done.
  set (p1 := storeKey (Z.of_nat k) (recordRaw raw st) p).
  assert (Hks1 : keyStates p1 = <[k := recordRaw raw st]> (keyStates p))
    by (subst p1; unfold storeKey; by rewrite Nat2Z.id).
  assert (Hp1 : ∀ v, set_keyStates v p1 = set_keyStates v p) by done.
  assert (Hq1 : Forall (quiet p1) l).
  { apply Forall_forall. intros [k' [raw' now']] Hin.
    rewrite Forall_forall in Hq. destruct (Hq _ Hin) as (st' & Hst' & ?).
    exists st'. split; [|done]. cbn [fst] in *. rewrite Hks1.
    rewrite list_lookup_insert_ne; [done|].
    intros ->. apply Hk. apply list_elem_of_fmap. by exists (k', (raw', now')). }
  clearbody p1.
  destruct (IH p1 Hnd Hq1) as (Hfix & Hlen & Hout & Hin).
  set (p' := foldl _ p1 l) in *. clearbody p'.
  split; [by rewrite <- Hp1|].
  split; [by rewrite Hlen, Hks1, length_insert|].
  split.
  - intros k' Hk'. cbn [fmap list_fmap fst] in Hk'.
    rewrite not_elem_of_cons in Hk'. destruct Hk' as [Hne Hk'].
    rewrite (Hout k' Hk'), Hks1. by apply list_lookup_insert_ne.
  - intros k' raw' now' st' Hmem Hst'.
    apply elem_of_cons in Hmem as [[= -> -> ->]|Hmem].
    + rewrite (Hout k Hk), Hks1. rewrite Hst in Hst'. injection Hst' as <-.
      apply list_lookup_insert_eq. by eapply lookup_lt_Some.
    + apply (Hin k' raw' now' st' Hmem). rewrite Hks1.
      rewrite list_lookup_insert_ne; [done|].
      intros ->. apply Hk. apply list_elem_of_fmap.
      by exists (k', (raw', now')).
Qed.

Lemma scanKeys_seq curve (n : nat) :
  ∀ (i : nat) samples p,
    foldl (fun p ks => scanKey curve ks.1 ks.2.1 ks.2.2 p) p
          (zip (seqZ (Z.of_nat i) (Z.of_nat n)) samples)
    = foldl (fun p ks => scanKey curve (Z.of_nat ks.1) ks.2.1 ks.2.2 p) p
            (zip (seq i n) samples).
Proof.
  induction n as [|n IH]; intros i samples p; [done|].
  rewrite seqZ_cons by lia.
  replace (Z.succ (Z.of_nat i)) with (Z.of_nat (S i)) by lia.
  replace (Z.pred (Z.of_nat (S n))) with (Z.of_nat n) by lia.
  destruct samples as [|s samples]; [done|].
  cbn [seq zip zip_with foldl fst snd]. apply IH.
Qed.

Lemma elem_of_zip_seq {A} (n : nat) (samples : list A) k x :
  (k, x) ∈ zip (seq 0 n) samples → (k < n)%nat ∧ samples !! k = Some x.
Proof.
  intros Hin. apply list_elem_of_lookup in Hin as [i Hi].
  apply lookup_zip_with_Some in Hi as (k' & x' & [= -> ->] & Hk & Hx).
  apply lookup_seq in Hk as [-> Hlt]. done.
Qed.

(** X28.  A scan over untouched keys is silent.  If every key is idle and
    read at most 80 counts off its baseline, a whole run of [scanKeys]
    changes nothing but the recorded readings: no frame is written, no
    handler is called, no LED value and no voice changes, and every key
    stays idle. *)
Theorem idle_scan_is_silent
    (curve : Z → Z) (samples : list (Z * Z)) (p : Panel) :
  length samples = 32%nat →
  (∀ (k : nat) raw now,
     samples !! k = Some (raw, now) →
     ∃ st, keyStates p !! k = Some st ∧ ks_pressed st = false
           ∧ keyDelta (u16 raw) (ks_baseline st) <= VELOCITY_ON_DELTA) →
  let p' := scanKeys curve samples p in
  p' = set_keyStates (keyStates p') p
  ∧ length (keyStates p') = length (keyStates p)
  ∧ (∀ (k : nat) raw now st,
       samples !! k = Some (raw, now) → keyStates p !! k = Some st →
       keyStates p' !! k = Some (recordRaw raw st)).
Proof.
  intros Hlen Hquiet p'. subst p'. unfold scanKeys.
  change TOTAL_KEYS with (Z.of_nat 32). change 0 with (Z.of_nat 0).
  rewrite scanKeys_seq.
  assert (Hnd : NoDup (zip (seq 0 32) samples).*1)
    by (rewrite fst_zip by (by rewrite length_seq, Hlen); apply NoDup_seq).
  assert (Hq : Forall (quiet p) (zip (seq 0 32) samples)).
  { apply Forall_forall. intros [k [raw now]] Hin.
    apply elem_of_zip_seq in Hin as [_ Hk]. by apply (Hquiet k raw now). }
  destruct (scan_quiet curve _ p Hnd Hq) as (Hfix & Hl & _ & Hin).
  split; [exact Hfix|]. split; [exact Hl|].
  intros k raw now st Hk Hst. apply (Hin k raw now st); [|done].
  apply list_elem_of_lookup. exists k.
  apply lookup_zip_with_Some. exists k, (raw, now).
  split; [done|]. split; [|done].
  apply lookup_seq. split; [done|].
  apply lookup_lt_Some in Hk. lia.
Qed.

Lemma idle_scan_is_silent_witness :
  length (keyStates (scanKeys flatCurve (replicate 32 (2010, 5)) restPanel))
  = length (keyStates restPanel).
Proof.
  destruct (idle_scan_is_silent flatCurve (replicate 32 (2010, 5)) restPanel)
    as (_ & Hlen & _); [reflexivity | | exact Hlen].
  intros k raw now Hk.
  apply lookup_replicate in Hk as [[= ? ?] Hlt]. subst raw now.
  exists (mkKeyState 2000 2000 false false 0 0).
  split; [|split; [done|by vm_compute]].
  unfold restPanel, bootPanel. cbn [keyStates].
  rewrite fmap_replicate. by apply lookup_replicate_2.
Defined.

(** ** The registry through a pass of the main loop *)

Lemma board_storeKey k st p : board (storeKey k st p) = board p.
Proof. reflexivity. Qed.

Lemma board_setKeyLedBase k vel on p :
  board (setKeyLedBase k vel on p) = board p.
Proof. unfold setKeyLedBase. by destruct (_ >=? _). Qed.

Lemma nodeList_onLocalNoteOn note vel p :
  nodeList (board (onLocalNoteOn note vel p)) = nodeList (board p).
Proof.
  destruct (onLocalNoteOn_fields note vel p) as (_ & _ & -> & _). done.
Qed.

Lemma nodeList_onLocalNoteOff note p :
  nodeList (board (onLocalNoteOff note p)) = nodeList (board p).
Proof.
  destruct (onLocalNoteOff_fields note p) as (_ & _ & -> & _). done.
Qed.

Lemma nodeList_handleExtraKeyPressed i p :
  nodeList (board (handleExtraKeyPressed i p)) = nodeList (board p).
Proof. unfold handleExtraKeyPressed. by repeat case_match. Qed.

Lemma nodeList_scanKey curve k raw now p :
  nodeList (board (scanKey curve k raw now p)) = nodeList (board p).
Proof.
  unfold scanKey. cbv zeta.
  repeat case_match;
    rewrite ?board_storeKey;
    repeat (rewrite board_setKeyLedBase || rewrite nodeList_onLocalNoteOff
            || rewrite nodeList_onLocalNoteOn
            || rewrite nodeList_handleExtraKeyPressed);
    done.
Qed.

Lemma nodeList_scanKeys curve samples p :
  nodeList (board (scanKeys curve samples p)) = nodeList (board p).
Proof.
  unfold scanKeys. generalize (zip (seqZ 0 TOTAL_KEYS) samples).
  intros l. revert p.
  induction l as [|ks l IH]; intros p; [done|].
  cbn [foldl]. rewrite IH. apply nodeList_scanKey.
Qed.

(** X13.  Every step of a pass of the main loop keeps the registry sound,
    that is, with pairwise distinct identities and at most 16 entries: the
    remap check, whose discovery run rebuilds the registry from nothing,
    and the bus drain keep it sound; the key scan, extra keys and local
    notes included, and the health monitor never write it. *)
Theorem loop_steps_keep_registry
    (curve : Z → Z) (env : DiscoveryEnv) (bytes : list Z)
    (samples : list (Z * Z)) (now tPing : Z) (p : Panel) :
  regOK (nodeList (board p)) →
  (∀ s', loopRemap env (board p) = Some s' → regOK (nodeList s'))
  ∧ regOK (nodeList (processRs485 bytes (board p)))
  ∧ nodeList (board (scanKeys curve samples p)) = nodeList (board p)
  ∧ nodeList (healthMonitor now tPing (board p)) = nodeList (board p).
Proof.
  intros Hok. split; [|split; [|split]].
  - intros s'. unfold loopRemap. destruct (remapRequested (board p)).
    + apply regOK_startDiscovery.
    + by intros [= <-].
  - by apply regOK_processRs485.
  - apply nodeList_scanKeys.
  - apply nodeList_healthMonitor.
Qed.

(** A pass over a panel at rest on which two ANNOUNCE frames for the same
    identity arrive. *)
Lemma loop_steps_keep_registry_witness :
  regOK (nodeList
           (processRs485
              (frameBytes RS485_ANNOUNCE_MSG [5; 0; 0; 0; 1] 5
               ++ frameBytes RS485_ANNOUNCE_MSG [5; 0; 0; 0; 2] 5)
              (board restPanel))).
Proof.
  destruct (loop_steps_keep_registry flatCurve quietRunEnv
              (frameBytes RS485_ANNOUNCE_MSG [5; 0; 0; 0; 1] 5
               ++ frameBytes RS485_ANNOUNCE_MSG [5; 0; 0; 0; 2] 5)
              (replicate 32 (2010, 5)) 0 0 restPanel regOK_nil)
    as (_ & Hbus & _).
  exact Hbus.
Defined.
